(** * whatsapp-notifier: the dispatch pipeline, embedded and verified

    A shallow embedding of the TypeScript services of the repository
    (ingestion service, repositories, message processor, webhook handler,
    request schema) together with the properties the specification states
    about them.

    Conventions.
    - Instants ([Date], [Date.now()]) are integers: milliseconds since the
      epoch.  One handler invocation observes one value of the clock.
    - Code that talks to the database, the queue or the logger is written in
      a state-and-exception monad [M] over the record [World]; a rejected
      promise is [Throw e], and what was written before the throw stays
      written (no transaction spans two repository calls in the source).
    - [randomUUID()] and the answer of the WhatsApp API are inputs.
    - Local time is UTC plus a fixed offset, a field of [World]; the serial
      key of [rate_limits] is a sequence kept there as well.
    - Where a handler reads parsed JSON ([request.body as any],
      [JSON.parse(message.Body)]) the value is either of the shape the
      handler's type names or one of the malformed shapes on which a read
      throws ([null] array elements, text that is not JSON, a payload
      without recipient). *)

From Stdlib Require Import ZArith Lia Bool List Ascii String DecimalString.
From stdpp Require Import base option list gmap strings sorting.

Local Open Scope Z_scope.

(* ===================================================================== *)
(** * 1. Request schema: [schemas/notification.schema.ts]                  *)
(* ===================================================================== *)

Module Schema.

(** The fragment of JavaScript regular expressions used by the schema:
    a literal character, a character range, concatenation and the bounded
    quantifier [r{lo,hi}]. *)
Inductive Regex : Type :=
| Chr (c : ascii)
| Range (lo hi : ascii)
| Seq (r1 r2 : Regex)
| Repeat (r : Regex) (lo hi : nat).

Definition inRange (lo hi c : ascii) : bool :=
  (N_of_ascii lo <=? N_of_ascii c)%N && (N_of_ascii c <=? N_of_ascii hi)%N.

Definition Continuation : Type := list ascii -> bool.
Definition Matcher : Type := list ascii -> Continuation -> bool.

(** The greedy bounded repetition in the continuation style of the
    language definition: try one more iteration first, and fall back to
    the continuation once the lower bound is met. *)
Fixpoint repeatMatcher (m : Matcher) (lo hi : nat) (s : list ascii)
         (k : Continuation) : bool :=
  match hi with
  | O => match lo with O => k s | S _ => false end
  | S hi' =>
      m s (fun s' => repeatMatcher m (Nat.pred lo) hi' s' k)
      || match lo with O => k s | S _ => false end
  end.

Fixpoint matchRe (r : Regex) : Matcher :=
  fun s k =>
    match r with
    | Chr c =>
        match s with
        | x :: s' => if Ascii.eqb x c then k s' else false
        | [] => false
        end
    | Range lo hi =>
        match s with
        | x :: s' => if inRange lo hi x then k s' else false
        | [] => false
        end
    | Seq r1 r2 => matchRe r1 s (fun s' => matchRe r2 s' k)
    | Repeat r' lo hi => repeatMatcher (matchRe r') lo hi s k
    end.

Definition atEnd : Continuation :=
  fun rest => match rest with [] => true | _ :: _ => false end.

(** [/^r$/.test(s)] without flags: the pattern is anchored at both ends,
    so only a match of the whole input from index 0 succeeds.  The classes
    of the schema's pattern are ASCII, so a string with any other character
    is rejected whichever way its characters are encoded. *)
Definition test (r : Regex) (s : string) : bool :=
  matchRe r (list_ascii_of_string s) atEnd.

(** [\d] is the range [0-9]. *)
Definition digit : Regex := Range "0" "9".

(** [const phoneNumberRegex = /^\+[1-9]\d{1,14}$/;] *)
Definition phoneNumberRegex : Regex :=
  Seq (Chr "+") (Seq (Range "1" "9") (Repeat digit 1 14)).

(** [phone_number: z.string().regex(phoneNumberRegex, ...)] *)
Definition phone_number_valid (s : string) : bool := test phoneNumberRegex s.

(** The spec's side: the language a regular expression denotes. *)
Fixpoint power (L : list ascii -> Prop) (n : nat) (s : list ascii) : Prop :=
  match n with
  | O => s = []
  | S n' => exists s1 s2, s = s1 ++ s2 /\ L s1 /\ power L n' s2
  end.

Fixpoint lang (r : Regex) (s : list ascii) : Prop :=
  match r with
  | Chr c => s = [c]
  | Range lo hi => exists c, s = [c] /\ inRange lo hi c = true
  | Seq r1 r2 => exists s1 s2, s = s1 ++ s2 /\ lang r1 s1 /\ lang r2 s2
  | Repeat r' lo hi => exists n, (lo <= n <= hi)%nat /\ power (lang r') n s
  end.

(** A string matches the E.164 expression [^\+[1-9]\d{1,14}$] when the
    whole string belongs to the language of the pattern. *)
Definition matches_E164 (s : string) : Prop :=
  lang (Seq (Chr "+") (Seq (Range "1" "9") (Repeat (Range "0" "9") 1 14)))
       (list_ascii_of_string s).

(** The same set, spelled out character by character. *)
Definition isDigit (c : ascii) : bool := inRange "0" "9" c.

Definition e164_shape (s : list ascii) : bool :=
  match s with
  | plus :: d :: rest =>
      Ascii.eqb plus "+" && inRange "1" "9" d
      && forallb isDigit rest
      && (1 <=? length rest)%nat && (length rest <=? 14)%nat
  | _ => false
  end.

End Schema.

(* ===================================================================== *)
(** * 2. Data model: the Prisma rows and the shared types                 *)
(* ===================================================================== *)

(** [enum NotificationStatus] (the [notification_status] type of
    [infrastructure/database/schema.sql]). *)
Inductive NotificationStatus : Type :=
| queued | processing | sent | delivered | read | failed | rate_limited
| scheduled.

Inductive NotificationPriority : Type := high | normal | low.

Global Instance NotificationStatus_eq_dec : EqDecision NotificationStatus.
Proof. solve_decision. Defined.

(** Number-to-string conversion of an integer ([code.toString()]): its
    decimal digits.  That is JavaScript's answer for integers of magnitude
    below [10^21], which covers the provider's error codes; from there on
    JavaScript prints an exponent form, which is not modelled, and no fact
    below depends on the text of a code. *)
Definition toString (z : Z) : string := NilZero.string_of_int (Z.to_int z).

(** A row of the [notifications] table.  [template], [message] and
    [metadata] are JSON columns the pipeline never inspects beyond their
    presence; they are kept as opaque text. *)
Module Notification.
Record t : Type := mk {
  id : string;
  tenantId : string;
  eventType : string;
  recipientPhone : string;
  recipientCountryCode : option string;
  template : option string;
  message : option string;
  metadata : option string;
  status : NotificationStatus;
  priority : NotificationPriority;
  whatsappMessageId : option string;
  createdAt : Z;
  scheduledFor : option Z;
  sentAt : option Z;
  deliveredAt : option Z;
  readAt : option Z;
  failedAt : option Z;
  errorCode : option string;
  errorMessage : option string;
  attemptNumber : Z;
  maxAttempts : Z;
  nextRetryAt : option Z;
  traceId : string
}.
End Notification.

(** A row of [delivery_logs] (append-only). *)
Module DeliveryLog.
Record t : Type := mk {
  notificationId : string;
  attemptNumber : Z;
  status : NotificationStatus;
  whatsappMessageId : option string;
  errorCode : option string;
  errorMessage : option string;
  responseTimeMs : option Z;
  createdAt : Z
}.
End DeliveryLog.

(** A row of [rate_limits]. *)
Module RateLimit.
Record t : Type := mk {
  id : Z;
  recipientPhone : string;
  windowStart : Z;
  windowEnd : Z;
  messageCount : Z
}.
End RateLimit.

(** [interface SQSMessagePayload]: the body of a work item. *)
Module SQSMessagePayload.
Record t : Type := mk {
  id : string;
  event_type : string;
  phone_number : string;
  country_code : option string;
  template : option string;
  message : option string;
  metadata : option string;
  priority : NotificationPriority;
  attempt_number : Z;
  max_attempts : Z;
  created_at : Z;
  scheduled_for : option Z;
  trace_id : string;
  tenant_id : string
}.
End SQSMessagePayload.

(** What [SendMessageCommand] puts on the queue.  The body is the payload
    itself: [JSON.parse (JSON.stringify p)] gives [p] back for these
    records. *)
Module QueueEntry.
Record t : Type := mk {
  MessageBody : SQSMessagePayload.t;
  MessageDeduplicationId : string;
  MessageGroupId : string
}.
End QueueEntry.

(** A JavaScript error value, with the fields the handlers read:
    [statusCode] and [code] (Fastify), [response] (axios). *)
Module AxiosResponse.
Record t : Type := mk {
  status : Z;
  (** [response.data?.error?.code] *)
  errorCode : option Z
}.
End AxiosResponse.

Module JsError.
Record t : Type := mk {
  name : string;
  message : string;
  statusCode : option Z;
  code : option string;
  response : option AxiosResponse.t
}.

(** [new Error(msg)] *)
Definition Error (msg : string) : t := mk "Error" msg None None None.

(** What the engine throws when a property of [null] is read, or when
    [JSON.parse] refuses its text. *)
Definition TypeError (msg : string) : t := mk "TypeError" msg None None None.
Definition SyntaxError (msg : string) : t := mk "SyntaxError" msg None None None.
End JsError.

Inductive LogLevel : Type := info | warn | error | debug.

Record LogLine : Type := mkLog { level : LogLevel; text : string }.

(** Everything a handler can read or write. *)
Module World.
Record t : Type := mk {
  notifications : gmap string Notification.t;
  deliveryLogs : list DeliveryLog.t;
  rateLimits : list RateLimit.t;
  (** The sequence behind the serial key [rate_limits.id]: the last id
      it gave out.  A deleted row's id is not given out again. *)
  rateLimitSeq : Z;
  queue : list QueueEntry.t;
  logs : list LogLine;
  (** [Date.now()] *)
  now : Z;
  (** Local time minus UTC in milliseconds, for the zone the process runs
      in (a zone with a fixed offset: no change of daylight saving time
      falls into the run). *)
  timezoneOffset : Z
}.

Definition set_notifications (f : gmap string Notification.t -> gmap string Notification.t)
           (w : t) : t :=
  mk (f (notifications w)) (deliveryLogs w) (rateLimits w) (rateLimitSeq w)
     (queue w) (logs w) (now w) (timezoneOffset w).
Definition set_deliveryLogs (f : list DeliveryLog.t -> list DeliveryLog.t) (w : t) : t :=
  mk (notifications w) (f (deliveryLogs w)) (rateLimits w) (rateLimitSeq w)
     (queue w) (logs w) (now w) (timezoneOffset w).
Definition set_rateLimits (f : list RateLimit.t -> list RateLimit.t) (w : t) : t :=
  mk (notifications w) (deliveryLogs w) (f (rateLimits w)) (rateLimitSeq w)
     (queue w) (logs w) (now w) (timezoneOffset w).
(** [nextval] of the sequence. *)
Definition set_rateLimitSeq (seq : Z) (w : t) : t :=
  mk (notifications w) (deliveryLogs w) (rateLimits w) seq
     (queue w) (logs w) (now w) (timezoneOffset w).
Definition set_queue (f : list QueueEntry.t -> list QueueEntry.t) (w : t) : t :=
  mk (notifications w) (deliveryLogs w) (rateLimits w) (rateLimitSeq w)
     (f (queue w)) (logs w) (now w) (timezoneOffset w).
Definition set_logs (f : list LogLine -> list LogLine) (w : t) : t :=
  mk (notifications w) (deliveryLogs w) (rateLimits w) (rateLimitSeq w)
     (queue w) (f (logs w)) (now w) (timezoneOffset w).
(** Time passes between two handler invocations. *)
Definition set_now (t' : Z) (w : t) : t :=
  mk (notifications w) (deliveryLogs w) (rateLimits w) (rateLimitSeq w)
     (queue w) (logs w) t' (timezoneOffset w).
End World.

(* ===================================================================== *)
(** * 3. Promises over the world: state and exceptions                    *)
(* ===================================================================== *)

Inductive Result (A : Type) : Type :=
| Ok (a : A)
| Throw (e : JsError.t).
Arguments Ok {A} a.
Arguments Throw {A} e.

Definition M (A : Type) : Type := World.t -> Result A * World.t.

Definition ret {A} (a : A) : M A := fun w => (Ok a, w).

Definition throw {A} (e : JsError.t) : M A := fun w => (Throw e, w).

Definition bind {A B} (c : M A) (k : A -> M B) : M B :=
  fun w =>
    match c w with
    | (Ok a, w') => k a w'
    | (Throw e, w') => (Throw e, w')
    end.

(** [try { c } catch (e) { h e }] *)
Definition tryCatch {A} (c : M A) (h : JsError.t -> M A) : M A :=
  fun w =>
    match c w with
    | (Ok a, w') => (Ok a, w')
    | (Throw e, w') => h e w'
    end.

Notation "x <- c1 ;; c2" := (bind c1 (fun x => c2))
  (at level 100, c1 at next level, c2 at level 200, right associativity).
Notation "c1 ;;; c2" := (bind c1 (fun _ => c2))
  (at level 100, c2 at level 200, right associativity).

(** [for (const x of xs) { await body x }] *)
Fixpoint forOf {A} (xs : list A) (body : A -> M unit) : M unit :=
  match xs with
  | [] => ret tt
  | x :: rest => body x ;;; forOf rest body
  end.

(** A computation that always fulfils. *)
Definition total {A} (c : M A) : Prop := forall w, exists a w', c w = (Ok a, w').

Definition dateNow : M Z := fun w => (Ok (World.now w), w).

Module logger.
Definition log (l : LogLevel) (s : string) : M unit :=
  fun w => (Ok tt, World.set_logs (fun ls => ls ++ [mkLog l s]) w).
Definition info := log info.
Definition warn := log warn.
Definition error := log error.
End logger.

(* ===================================================================== *)
(** * 4. Repositories: [shared/src/repositories]                          *)
(* ===================================================================== *)

(** The two ways a Prisma write on [notifications] fails on its own:
    [update] of a missing row and [create] of an existing id. *)
Module prisma.
Definition recordNotFound : JsError.t :=
  JsError.mk "PrismaClientKnownRequestError" "Record to update not found."
             None (Some "P2025") None.
Definition uniqueConstraint : JsError.t :=
  JsError.mk "PrismaClientKnownRequestError" "Unique constraint failed on the fields: (`id`)"
             None (Some "P2002") None.
End prisma.

(** In a Prisma [data] object an [undefined] value leaves the column as it
    is. *)
Definition patch {A} (update current : option A) : option A :=
  match update with
  | Some v => Some v
  | None => current
  end.

(** JavaScript's [a || b] on a possibly missing number and on a possibly
    missing string. *)
Definition orNumber (a : option Z) (b : Z) : Z :=
  match a with
  | Some v => if v =? 0 then b else v
  | None => b
  end.

Definition orString (a : option string) (b : string) : string :=
  match a with
  | Some v => if String.eqb v "" then b else v
  | None => b
  end.

Module CreateNotificationData.
Record t : Type := mk {
  id : string;
  tenantId : string;
  eventType : string;
  recipientPhone : string;
  recipientCountryCode : option string;
  template : option string;
  message : option string;
  metadata : option string;
  priority : NotificationPriority;
  scheduledFor : option Z;
  traceId : string
}.
End CreateNotificationData.

(** The [updates] argument of [updateStatus]: every key is optional. *)
Module StatusUpdates.
Record t : Type := mk {
  whatsappMessageId : option string;
  errorCode : option string;
  errorMessage : option string;
  sentAt : option Z;
  deliveredAt : option Z;
  readAt : option Z;
  failedAt : option Z
}.
Definition empty : t := mk None None None None None None None.
End StatusUpdates.

(** [NotificationFilters] *)
Module NotificationFilters.
Record t : Type := mk {
  status : option NotificationStatus;
  eventType : option string;
  recipientPhone : option string;
  createdAfter : option Z;
  createdBefore : option Z
}.
End NotificationFilters.

(** [PaginationOptions]: pages are counted from 1, and neither number is
    negative. *)
Module PaginationOptions.
Record t : Type := mk {
  page : option positive;
  limit : option nat
}.
End PaginationOptions.

(** [{ data, total }] *)
Module TenantPage.
Record t : Type := mk {
  data : list Notification.t;
  total : nat
}.
End TenantPage.

Module NotificationRepository.
Import Notification.

(** [async create(data)]: the row starts as [queued], attempt 0 of 5. *)
Definition create (data : CreateNotificationData.t) : M Notification.t :=
  fun w =>
    match World.notifications w !! CreateNotificationData.id data with
    | Some _ => (Throw prisma.uniqueConstraint, w)
    | None =>
        let n :=
          {| id := CreateNotificationData.id data;
             tenantId := CreateNotificationData.tenantId data;
             eventType := CreateNotificationData.eventType data;
             recipientPhone := CreateNotificationData.recipientPhone data;
             recipientCountryCode := CreateNotificationData.recipientCountryCode data;
             template := CreateNotificationData.template data;
             message := CreateNotificationData.message data;
             metadata := CreateNotificationData.metadata data;
             status := queued;
             priority := CreateNotificationData.priority data;
             whatsappMessageId := None;
             createdAt := World.now w;
             scheduledFor := CreateNotificationData.scheduledFor data;
             sentAt := None; deliveredAt := None; readAt := None;
             failedAt := None; errorCode := None; errorMessage := None;
             attemptNumber := 0;
             maxAttempts := 5;
             nextRetryAt := None;
             traceId := CreateNotificationData.traceId data |} in
        (Ok n, World.set_notifications (insert (id n) n) w)
    end.

(** [async findById(id)]: [findUnique({ where: { id } })]; the included
    delivery logs are not read by the callers modelled here. *)
Definition findById (id : string) : M (option Notification.t) :=
  fun w => (Ok (World.notifications w !! id), w).

(** [data: { status, ...updates }] applied to a row. *)
Definition withStatus (n : Notification.t) (st : NotificationStatus)
           (u : StatusUpdates.t) : Notification.t :=
  {| id := id n; tenantId := tenantId n; eventType := eventType n;
     recipientPhone := recipientPhone n;
     recipientCountryCode := recipientCountryCode n;
     template := template n; message := message n; metadata := metadata n;
     status := st;
     priority := priority n;
     whatsappMessageId := patch (StatusUpdates.whatsappMessageId u) (whatsappMessageId n);
     createdAt := createdAt n;
     scheduledFor := scheduledFor n;
     sentAt := patch (StatusUpdates.sentAt u) (sentAt n);
     deliveredAt := patch (StatusUpdates.deliveredAt u) (deliveredAt n);
     readAt := patch (StatusUpdates.readAt u) (readAt n);
     failedAt := patch (StatusUpdates.failedAt u) (failedAt n);
     errorCode := patch (StatusUpdates.errorCode u) (errorCode n);
     errorMessage := patch (StatusUpdates.errorMessage u) (errorMessage n);
     attemptNumber := attemptNumber n;
     maxAttempts := maxAttempts n;
     nextRetryAt := nextRetryAt n;
     traceId := traceId n |}.

(** [async updateStatus(id, status, updates = {})]:
    [update({ where: { id }, data: { status, ...updates } })]. *)
Definition updateStatus (id : string) (st : NotificationStatus)
           (updates : StatusUpdates.t) : M Notification.t :=
  fun w =>
    match World.notifications w !! id with
    | None => (Throw prisma.recordNotFound, w)
    | Some n =>
        let n' := withStatus n st updates in
        (Ok n', World.set_notifications (insert id n') w)
    end.

(** [data: { attemptNumber: { increment: 1 }, nextRetryAt }] *)
Definition withAttempt (n : Notification.t) (next : option Z) : Notification.t :=
  {| id := id n; tenantId := tenantId n; eventType := eventType n;
     recipientPhone := recipientPhone n;
     recipientCountryCode := recipientCountryCode n;
     template := template n; message := message n; metadata := metadata n;
     status := status n;
     priority := priority n;
     whatsappMessageId := whatsappMessageId n;
     createdAt := createdAt n;
     scheduledFor := scheduledFor n;
     sentAt := sentAt n; deliveredAt := deliveredAt n; readAt := readAt n;
     failedAt := failedAt n;
     errorCode := errorCode n; errorMessage := errorMessage n;
     attemptNumber := attemptNumber n + 1;
     maxAttempts := maxAttempts n;
     nextRetryAt := patch next (nextRetryAt n);
     traceId := traceId n |}.

(** [async incrementAttempt(id, nextRetryAt?)] *)
Definition incrementAttempt (id : string) (next : option Z) : M Notification.t :=
  fun w =>
    match World.notifications w !! id with
    | None => (Throw prisma.recordNotFound, w)
    | Some n =>
        let n' := withAttempt n next in
        (Ok n', World.set_notifications (insert id n') w)
    end.

(** The [where] clause of [findReadyForRetry]:
    [status = failed], [nextRetryAt <= now], [attemptNumber < maxAttempts]. *)
Definition readyForRetry (now : Z) (n : Notification.t) : bool :=
  bool_decide (status n = failed)
  && match nextRetryAt n with Some t => t <=? now | None => false end
  && (attemptNumber n <? maxAttempts n).

(** The [where] clause of [findScheduled]:
    [status = scheduled], [scheduledFor <= now]. *)
Definition dueScheduled (now : Z) (n : Notification.t) : bool :=
  bool_decide (status n = scheduled)
  && match scheduledFor n with Some t => t <=? now | None => false end.

Definition byNextRetryAt (a b : Notification.t) : Prop :=
  default 0 (nextRetryAt a) <= default 0 (nextRetryAt b).
Definition byScheduledFor (a b : Notification.t) : Prop :=
  default 0 (scheduledFor a) <= default 0 (scheduledFor b).

Global Instance byNextRetryAt_dec a b : Decision (byNextRetryAt a b).
Proof. unfold byNextRetryAt. apply _. Defined.
Global Instance byScheduledFor_dec a b : Decision (byScheduledFor a b).
Proof. unfold byScheduledFor. apply _. Defined.

Definition rows (w : World.t) : list Notification.t :=
  snd <$> map_to_list (World.notifications w).

(** [async findReadyForRetry(limit = 100)] *)
Definition findReadyForRetry (limit : nat) : M (list Notification.t) :=
  fun w =>
    (Ok (take limit (merge_sort byNextRetryAt
                       (List.filter (readyForRetry (World.now w)) (rows w)))), w).

(** [async findScheduled(limit = 100)] *)
Definition findScheduled (limit : nat) : M (list Notification.t) :=
  fun w =>
    (Ok (take limit (merge_sort byScheduledFor
                       (List.filter (dueScheduled (World.now w)) (rows w)))), w).

(** The value under the key [createdAt] of the [where] object. *)
Inductive DateCondition : Type :=
| gte (d : Z)
| lte (d : Z).

(** [...(filters.createdAfter && { createdAt: { gte } }),
     ...(filters.createdBefore && { createdAt: { lte } })]:
    both spreads write the key [createdAt], the later one over the
    earlier one. *)
Definition createdAtKey (filters : NotificationFilters.t) : option DateCondition :=
  patch (lte <$> NotificationFilters.createdBefore filters)
        (gte <$> NotificationFilters.createdAfter filters).

(** [...(filters.x && { x: filters.x })] for a string: a missing or empty
    one adds no key. *)
Definition stringKey (f : option string) : option string :=
  match f with
  | Some s => if String.eqb s "" then None else Some s
  | None => None
  end.

(** The [where] object of [findByTenant], applied to a row. *)
Definition tenantWhere (tenant : string) (filters : NotificationFilters.t)
           (n : Notification.t) : bool :=
  String.eqb (tenantId n) tenant
  && match NotificationFilters.status filters with
     | Some st => bool_decide (status n = st)
     | None => true
     end
  && match stringKey (NotificationFilters.eventType filters) with
     | Some e => String.eqb (eventType n) e
     | None => true
     end
  && match stringKey (NotificationFilters.recipientPhone filters) with
     | Some p => String.eqb (recipientPhone n) p
     | None => true
     end
  && match createdAtKey filters with
     | Some (gte d) => d <=? createdAt n
     | Some (lte d) => createdAt n <=? d
     | None => true
     end.

(** [orderBy: { createdAt: 'desc' }] *)
Definition byCreatedAtDesc (a b : Notification.t) : Prop :=
  createdAt b <= createdAt a.

Global Instance byCreatedAtDesc_dec a b : Decision (byCreatedAtDesc a b).
Proof. unfold byCreatedAtDesc. apply _. Defined.

(** [async findByTenant(tenantId, filters = {}, pagination = {})] *)
Definition findByTenant (tenant : string) (filters : NotificationFilters.t)
           (pagination : PaginationOptions.t) : M TenantPage.t :=
  fun w =>
    let page := default 1%positive (PaginationOptions.page pagination) in
    let limit := default 20%nat (PaginationOptions.limit pagination) in
    let skip := ((Pos.to_nat page - 1) * limit)%nat in
    let matching := List.filter (tenantWhere tenant filters) (rows w) in
    (Ok {| TenantPage.data :=
             take limit (drop skip (merge_sort byCreatedAtDesc matching));
           TenantPage.total := length matching |}, w).

End NotificationRepository.

Module CreateDeliveryLogData.
Record t : Type := mk {
  notificationId : string;
  attemptNumber : Z;
  status : NotificationStatus;
  whatsappMessageId : option string;
  errorCode : option string;
  errorMessage : option string;
  responseTimeMs : option Z
}.
End CreateDeliveryLogData.

Module DeliveryLogRepository.
(** [async create(data)]: the foreign key demands the notification. *)
Definition create (data : CreateDeliveryLogData.t) : M DeliveryLog.t :=
  fun w =>
    match World.notifications w !! CreateDeliveryLogData.notificationId data with
    | None =>
        (Throw (JsError.mk "PrismaClientKnownRequestError"
                  "Foreign key constraint failed on the field: notification_id"
                  None (Some "P2003") None), w)
    | Some _ =>
        let l :=
          {| DeliveryLog.notificationId := CreateDeliveryLogData.notificationId data;
             DeliveryLog.attemptNumber := CreateDeliveryLogData.attemptNumber data;
             DeliveryLog.status := CreateDeliveryLogData.status data;
             DeliveryLog.whatsappMessageId := CreateDeliveryLogData.whatsappMessageId data;
             DeliveryLog.errorCode := CreateDeliveryLogData.errorCode data;
             DeliveryLog.errorMessage := CreateDeliveryLogData.errorMessage data;
             DeliveryLog.responseTimeMs := CreateDeliveryLogData.responseTimeMs data;
             DeliveryLog.createdAt := World.now w |} in
        (Ok l, World.set_deliveryLogs (fun ls => ls ++ [l]) w)
    end.
End DeliveryLogRepository.

Definition hourMs : Z := 60 * 60 * 1000.

Module RateLimitRepository.
Import RateLimit.

(** The [where] clause of [checkLimit] and [getCount]:
    [recipientPhone], [windowEnd > now], [windowStart > oneHourAgo]. *)
Definition counted (phone : string) (now oneHourAgo : Z) (r : RateLimit.t) : bool :=
  String.eqb (recipientPhone r) phone
  && (now <? windowEnd r)
  && (oneHourAgo <? windowStart r).

(** [aggregate({ _sum: { messageCount: true } })]: [null] over no rows. *)
Definition aggregateSum (rs : list RateLimit.t) : option Z :=
  match rs with
  | [] => None
  | _ :: _ => Some (foldr (fun r acc => messageCount r + acc) 0 rs)
  end.

(** [async checkLimit(recipientPhone, limitPerHour = 10)] *)
Definition checkLimit (phone : string) (limitPerHour : Z) : M bool :=
  fun w =>
    let oneHourAgo := World.now w - hourMs in
    let sum := aggregateSum
                 (List.filter (counted phone (World.now w) oneHourAgo)
                              (World.rateLimits w)) in
    let currentCount := orNumber sum 0 in
    (Ok (currentCount <? limitPerHour), w).

(** [new Date(now.getFullYear(), now.getMonth(), now.getDate(),
    now.getHours())]: the instant at which the clock hour of [now] began in
    local time, which is [offset] milliseconds ahead of UTC. *)
Definition hourStart (offset now : Z) : Z := now - (now + offset) mod hourMs.

Definition sameWindow (phone : string) (start : Z) (r : RateLimit.t) : bool :=
  String.eqb (recipientPhone r) phone && (windowStart r =? start).

Definition bump (r : RateLimit.t) : RateLimit.t :=
  {| id := id r; recipientPhone := recipientPhone r;
     windowStart := windowStart r; windowEnd := windowEnd r;
     messageCount := messageCount r + 1 |}.

(** [async increment(recipientPhone)] *)
Definition increment (phone : string) : M RateLimit.t :=
  fun w =>
    let start := hourStart (World.timezoneOffset w) (World.now w) in
    let stop := start + hourMs in
    match List.find (sameWindow phone start) (World.rateLimits w) with
    | Some existing =>
        (* Increment existing counter: [update({ where: { id } })], [id]
           being the primary key *)
        (Ok (bump existing),
         World.set_rateLimits
           (List.map (fun r => if id r =? id existing then bump r else r)) w)
    | None =>
        (* Create new counter: the key comes from the sequence *)
        let r := {| id := World.rateLimitSeq w + 1;
                    recipientPhone := phone;
                    windowStart := start; windowEnd := stop;
                    messageCount := 1 |} in
        (Ok r, World.set_rateLimits (fun rs => rs ++ [r])
                 (World.set_rateLimitSeq (World.rateLimitSeq w + 1) w))
    end.


(** The [where] clause of [cleanup]: [windowEnd < olderThan]. *)
Definition expired (olderThan : Z) (r : RateLimit.t) : bool :=
  windowEnd r <? olderThan.

(** [async cleanup(olderThan = new Date(Date.now() - 7 * 24 * 60 * 60 * 1000))]:
    [deleteMany] and the number of rows it deleted. *)
Definition cleanup (olderThan : option Z) : M Z :=
  fun w =>
    let bound := default (World.now w - 7 * 24 * 60 * 60 * 1000) olderThan in
    (Ok (Z.of_nat (length (List.filter (expired bound) (World.rateLimits w)))),
     World.set_rateLimits (List.filter (fun r => negb (expired bound r))) w).

(** The [where] clause of [getRetryAfter]: [recipientPhone], [windowEnd > now]. *)
Definition running (phone : string) (now : Z) (r : RateLimit.t) : bool :=
  String.eqb (recipientPhone r) phone && (now <? windowEnd r).

(** [findFirst({ orderBy: { windowEnd: 'desc' } })]: a row with the greatest
    [windowEnd], [null] over no rows. *)
Definition latest (rs : list RateLimit.t) : option RateLimit.t :=
  foldr (fun r best =>
           match best with
           | Some b => if windowEnd b <? windowEnd r then Some r else Some b
           | None => Some r
           end) None rs.

(** [Math.ceil(a / b)] on integers, [b] positive. *)
Definition ceilDiv (a b : Z) : Z := - ((- a) / b).

(** [async getRetryAfter(recipientPhone)] *)
Definition getRetryAfter (phone : string) : M (option Z) :=
  fun w =>
    match latest (List.filter (running phone (World.now w)) (World.rateLimits w)) with
    | None => (Ok None, w)
    | Some record =>
        let retryAfterMs := windowEnd record - World.now w in
        (Ok (Some (ceilDiv retryAfterMs 1000)), w)
    end.

End RateLimitRepository.

(* ===================================================================== *)
(** * 5. Ingestion: [api/src/services], [api/src/routes/notifications.ts] *)
(* ===================================================================== *)

Module SQSMessage.
Record t : Type := mk {
  id : string;
  body : SQSMessagePayload.t;
  deduplicationId : option string;
  groupId : option string
}.
End SQSMessage.

Module sqsService.
(** [sqsClient.send(new SendMessageCommand(...))]: the entry joins the
    queue; the deduplication id stands for the [MessageId] of the
    answer. *)
Definition send (e : QueueEntry.t) : M string :=
  fun w => (Ok (QueueEntry.MessageDeduplicationId e),
            World.set_queue (fun q => q ++ [e]) w).

(** [export async function publishMessage(message)] *)
Definition publishMessage (message : SQSMessage.t) : M string :=
  tryCatch
    (messageId <- send {| QueueEntry.MessageBody := SQSMessage.body message;
                          QueueEntry.MessageDeduplicationId :=
                            orString (SQSMessage.deduplicationId message)
                                     (SQSMessage.id message);
                          QueueEntry.MessageGroupId :=
                            orString (SQSMessage.groupId message) "default" |} ;;
     logger.info "Message published to SQS" ;;;
     ret messageId)
    (fun _ =>
       logger.error "Failed to publish message to SQS" ;;;
       throw (JsError.Error "Failed to publish message to queue")).
End sqsService.

(** [type NotificationRequest]: a request body that passed
    [notificationRequestSchema].  [scheduled_for] is the instant its
    date-time string denotes. *)
Module NotificationRequest.
Record t : Type := mk {
  event_type : string;
  phone_number : string;
  country_code : option string;
  template : option string;
  message : option string;
  metadata : option string;
  priority : NotificationPriority;
  scheduled_for : option Z
}.
End NotificationRequest.

(** The [{ id, status }] answer of the service. *)
Record Created : Type := mkCreated { created_id : string; created_status : string }.

Module notificationService.

(** [export async function createNotification(request, apiKey)].
    [notificationId] and [traceId] are the two [randomUUID()] draws. *)
Definition createNotification (notificationId traceId : string)
           (request : NotificationRequest.t) (apiKey : string) : M Created :=
  (* Check rate limit *)
  isUnderLimit <- RateLimitRepository.checkLimit
                    (NotificationRequest.phone_number request) 10 ;;
  if negb isUnderLimit then throw (JsError.Error "Rate limit exceeded")
  else
    (* Create notification in database *)
    notification <- NotificationRepository.create
      {| CreateNotificationData.id := notificationId;
         CreateNotificationData.tenantId := apiKey;
         CreateNotificationData.eventType := NotificationRequest.event_type request;
         CreateNotificationData.recipientPhone := NotificationRequest.phone_number request;
         CreateNotificationData.recipientCountryCode := NotificationRequest.country_code request;
         CreateNotificationData.template := NotificationRequest.template request;
         CreateNotificationData.message := NotificationRequest.message request;
         CreateNotificationData.metadata := NotificationRequest.metadata request;
         CreateNotificationData.priority := NotificationRequest.priority request;
         CreateNotificationData.scheduledFor := NotificationRequest.scheduled_for request;
         CreateNotificationData.traceId := traceId |} ;;
    (* Increment rate limit *)
    RateLimitRepository.increment (NotificationRequest.phone_number request) ;;;
    (* Prepare SQS payload *)
    let payload :=
      {| SQSMessagePayload.id := Notification.id notification;
         SQSMessagePayload.event_type := Notification.eventType notification;
         SQSMessagePayload.phone_number := Notification.recipientPhone notification;
         SQSMessagePayload.country_code := Notification.recipientCountryCode notification;
         SQSMessagePayload.template := Notification.template notification;
         SQSMessagePayload.message := Notification.message notification;
         SQSMessagePayload.metadata := Notification.metadata notification;
         SQSMessagePayload.priority := Notification.priority notification;
         SQSMessagePayload.attempt_number := 0;
         SQSMessagePayload.max_attempts := 5;
         SQSMessagePayload.created_at := Notification.createdAt notification;
         SQSMessagePayload.scheduled_for := Notification.scheduledFor notification;
         SQSMessagePayload.trace_id := Notification.traceId notification;
         SQSMessagePayload.tenant_id := Notification.tenantId notification |} in
    logger.info "Creating notification" ;;;
    (* Publish to SQS *)
    sqsService.publishMessage
      {| SQSMessage.id := notificationId;
         SQSMessage.body := payload;
         SQSMessage.deduplicationId := Some notificationId;
         SQSMessage.groupId := None |} ;;;
    ret {| created_id := notificationId; created_status := "queued" |}.


(** [{ index, error }] of a failed entry. *)
Record BulkFailure : Type := mkBulkFailure { index : nat; error : string }.

(** The [results] object of [createBulkNotifications]. *)
Module BulkResult.
Record t : Type := mk { successful : list Created; failed : list BulkFailure }.
End BulkResult.

(** The [for (let i = 0; ...)] loop, from entry [i] on.  [uuid i] are the
    two [randomUUID()] draws of entry [i]. *)
Fixpoint bulkLoop (uuid : nat -> string * string) (apiKey : string) (i : nat)
         (requests : list NotificationRequest.t) (results : BulkResult.t)
  : M BulkResult.t :=
  match requests with
  | [] => ret results
  | request :: rest =>
      results' <-
        tryCatch
          (result <- createNotification (fst (uuid i)) (snd (uuid i)) request apiKey ;;
           ret (BulkResult.mk (BulkResult.successful results ++ [result])
                              (BulkResult.failed results)))
          (fun e =>
             ret (BulkResult.mk (BulkResult.successful results)
                                (BulkResult.failed results
                                 ++ [mkBulkFailure i (JsError.message e)]))) ;;
      bulkLoop uuid apiKey (S i) rest results'
  end.

(** [export async function createBulkNotifications(requests, apiKey)] *)
Definition createBulkNotifications (uuid : nat -> string * string)
           (requests : list NotificationRequest.t) (apiKey : string)
  : M BulkResult.t :=
  results <- bulkLoop uuid apiKey 0 requests (BulkResult.mk [] []) ;;
  logger.info "Bulk notifications processed" ;;;
  ret results.

End notificationService.

(** What a route sends back. *)
Inductive ReplyBody : Type :=
| CreatedBody (data : Created)
  (** [{ success: true, data }] *)
| ErrorBody (error message : string) (code : option string)
  (** [{ error, message, code, traceId }]: there is no other field *)
| SuccessBody (success : bool).
  (** [{ success }] *)

Record Reply : Type := mkReply { replyStatus : Z; replyBody : ReplyBody }.

(** [api/src/middleware/errorHandler.ts]; [production] is
    [process.env.NODE_ENV === 'production']. *)
Definition errorHandler (production : bool) (e : JsError.t) : World.t -> Reply * World.t :=
  fun w =>
    let w := snd (logger.error "Request error" w) in
    (* Determine status code *)
    let statusCode := orNumber (JsError.statusCode e) 500 in
    let name := if String.eqb (JsError.name e) "" then "Internal Server Error"
                else JsError.name e in
    let message := if String.eqb (JsError.message e) "" then "An unexpected error occurred"
                   else JsError.message e in
    let code := Some (orString (JsError.code e) "INTERNAL_ERROR") in
    (* Hide internal error details in production *)
    if production && (statusCode =? 500)
    then (mkReply statusCode (ErrorBody name "An unexpected error occurred" None), w)
    else (mkReply statusCode (ErrorBody name message code), w).

(** [POST /v1/notifications], after the API key and the schema checks:
    201 with the service's answer; a rejection reaches the error handler. *)
Definition postNotification (production : bool) (notificationId traceId : string)
           (request : NotificationRequest.t) (apiKey : string)
  : World.t -> Reply * World.t :=
  fun w =>
    match notificationService.createNotification notificationId traceId request apiKey w with
    | (Ok result, w') => (mkReply 201 (CreatedBody result), w')
    | (Throw e, w') => errorHandler production e w'
    end.

(* ===================================================================== *)
(** * 6. Worker: [shared/src/clients/whatsapp.client.ts] and the message
      processor                                                            *)
(* ===================================================================== *)

Module WhatsAppSendMessageResponse.
(** [messages[i].id] *)
Record t : Type := mk { messages : list string }.
End WhatsAppSendMessageResponse.

(** The provider: what the HTTP call for a work item comes back with. *)
Definition Provider : Type :=
  SQSMessagePayload.t -> Result WhatsAppSendMessageResponse.t.

Module WhatsAppClient.

(** [isRetryableError(error)] *)
Definition isRetryableError (e : JsError.t) : bool :=
  match JsError.response e with
  | None => true (* Network errors *)
  | Some r =>
      let status := AxiosResponse.status r in
      let errorCode := AxiosResponse.errorCode r in
      (* Retryable status codes *)
      if existsb (Z.eqb status) [408; 429; 500; 502; 503; 504] then true
      else
        (* Retryable WhatsApp error codes *)
        existsb (Z.eqb (orNumber errorCode 0)) [1; 2; 4; 80007]
  end.

(** [async sendMessage(message)]; the interceptors of the HTTP client
    only log and are left out. *)
Definition sendMessage (answer : Result WhatsAppSendMessageResponse.t)
  : M WhatsAppSendMessageResponse.t :=
  tryCatch
    (response <- (fun w => (answer, w)) ;;
     logger.info "WhatsApp message sent" ;;;
     ret response)
    (fun e =>
       logger.error "Failed to send WhatsApp message" ;;;
       throw e).
End WhatsAppClient.

Module Message.
(** What [JSON.parse(message.Body)] and the first log call of
    [processMessage] make of a body that is there. *)
Inductive body : Type :=
| json (payload : SQSMessagePayload.t)
  (** the JSON text of a payload, as the producers write it with
      [JSON.stringify] *)
| notJson
  (** text that [JSON.parse] refuses with a [SyntaxError] *)
| noRecipient.
  (** JSON whose value is [null] or has no [recipient]: the log call reads
      [payload.id] and [payload.recipient.phone_number] and throws a
      [TypeError] *)

(** [Message] of the SQS client: only [Body] is read; a missing and an
    empty body are [None]. *)
Record t : Type := mk { Body : option body }.
End Message.

Module MessageProcessor.
Section WithRetryPolicy.

(** [utils/retry.ts] is not among the sources: the processor is
    parameterised by [calculateRetryDelay]. *)
Variable calculateRetryDelay : Z -> Z.
Variable provider : Provider.

(** [private async sendWhatsAppMessage(payload)] *)
Definition sendWhatsAppMessage (payload : SQSMessagePayload.t)
  : M WhatsAppSendMessageResponse.t :=
  match SQSMessagePayload.template payload with
  | Some _ => WhatsAppClient.sendMessage (provider payload)
  | None =>
      match SQSMessagePayload.message payload with
      | Some _ => WhatsAppClient.sendMessage (provider payload)
      | None => throw (JsError.Error "No message content provided")
      end
  end.

(** [error.response?.data?.error?.code?.toString()] *)
Definition errorCodeOf (e : JsError.t) : option string :=
  toString <$> (JsError.response e ≫= AxiosResponse.errorCode).

(** [private async handleError(payload, error, startTime)] *)
Definition handleError (payload : SQSMessagePayload.t) (e : JsError.t)
           (startTime : Z) : M unit :=
  let attemptNumber := SQSMessagePayload.attempt_number payload + 1 in
  let isRetryable := WhatsAppClient.isRetryableError e in
  logger.error "Failed to send notification" ;;;
  (* Log failed attempt *)
  now <- dateNow ;;
  DeliveryLogRepository.create
    {| CreateDeliveryLogData.notificationId := SQSMessagePayload.id payload;
       CreateDeliveryLogData.attemptNumber := attemptNumber;
       CreateDeliveryLogData.status := failed;
       CreateDeliveryLogData.whatsappMessageId := None;
       CreateDeliveryLogData.errorCode := errorCodeOf e;
       CreateDeliveryLogData.errorMessage := Some (JsError.message e);
       CreateDeliveryLogData.responseTimeMs := Some (now - startTime) |} ;;;
  (* Check if we should retry *)
  if isRetryable && (attemptNumber <? SQSMessagePayload.max_attempts payload)
  then
    let retryDelay := calculateRetryDelay attemptNumber in
    now <- dateNow ;;
    let nextRetryAt := now + retryDelay in
    NotificationRepository.updateStatus (SQSMessagePayload.id payload) failed
      {| StatusUpdates.whatsappMessageId := None;
         StatusUpdates.errorCode := errorCodeOf e;
         StatusUpdates.errorMessage := Some (JsError.message e);
         StatusUpdates.sentAt := None; StatusUpdates.deliveredAt := None;
         StatusUpdates.readAt := None; StatusUpdates.failedAt := None |} ;;;
    NotificationRepository.incrementAttempt (SQSMessagePayload.id payload)
                                            (Some nextRetryAt) ;;;
    logger.info "Notification will be retried"
  else
    (* Max attempts reached or non-retryable error *)
    now <- dateNow ;;
    NotificationRepository.updateStatus (SQSMessagePayload.id payload) failed
      {| StatusUpdates.whatsappMessageId := None;
         StatusUpdates.errorCode := errorCodeOf e;
         StatusUpdates.errorMessage := Some (JsError.message e);
         StatusUpdates.sentAt := None; StatusUpdates.deliveredAt := None;
         StatusUpdates.readAt := None; StatusUpdates.failedAt := Some now |} ;;;
    logger.error "Notification permanently failed".

(** [async processMessage(message)] *)
Definition processMessage (message : Message.t) : M unit :=
  match Message.Body message with
  | None => throw (JsError.Error "Message body is empty")
  | Some Message.notJson =>
      (* [JSON.parse(message.Body)] *)
      throw (JsError.SyntaxError "Unexpected token in JSON")
  | Some Message.noRecipient =>
      (* the arguments of the first log call, before the [try] *)
      throw (JsError.TypeError "Cannot read properties of undefined (reading 'phone_number')")
  | Some (Message.json payload) =>
      startTime <- dateNow ;;
      logger.info "Processing notification" ;;;
      tryCatch
        ((* Update status to processing *)
         NotificationRepository.updateStatus (SQSMessagePayload.id payload)
                                             processing StatusUpdates.empty ;;;
         (* Send WhatsApp message *)
         response <- sendWhatsAppMessage payload ;;
         (* Update notification as sent *)
         now <- dateNow ;;
         NotificationRepository.updateStatus (SQSMessagePayload.id payload) sent
           {| StatusUpdates.whatsappMessageId :=
                head (WhatsAppSendMessageResponse.messages response);
              StatusUpdates.errorCode := None; StatusUpdates.errorMessage := None;
              StatusUpdates.sentAt := Some now; StatusUpdates.deliveredAt := None;
              StatusUpdates.readAt := None; StatusUpdates.failedAt := None |} ;;;
         (* Log successful delivery *)
         DeliveryLogRepository.create
           {| CreateDeliveryLogData.notificationId := SQSMessagePayload.id payload;
              CreateDeliveryLogData.attemptNumber :=
                SQSMessagePayload.attempt_number payload + 1;
              CreateDeliveryLogData.status := sent;
              CreateDeliveryLogData.whatsappMessageId :=
                head (WhatsAppSendMessageResponse.messages response);
              CreateDeliveryLogData.errorCode := None;
              CreateDeliveryLogData.errorMessage := None;
              CreateDeliveryLogData.responseTimeMs := Some (now - startTime) |} ;;;
         logger.info "Notification sent successfully")
        (fun e => handleError payload e startTime)
  end.

(** The SQS-like message the sweepers build from a row. *)
Definition messageOf (n : Notification.t) : Message.t :=
  {| Message.Body := Some (Message.json
       {| SQSMessagePayload.id := Notification.id n;
          SQSMessagePayload.event_type := Notification.eventType n;
          SQSMessagePayload.phone_number := Notification.recipientPhone n;
          SQSMessagePayload.country_code := Notification.recipientCountryCode n;
          SQSMessagePayload.template := Notification.template n;
          SQSMessagePayload.message := Notification.message n;
          SQSMessagePayload.metadata := Notification.metadata n;
          SQSMessagePayload.priority := Notification.priority n;
          SQSMessagePayload.attempt_number := Notification.attemptNumber n;
          SQSMessagePayload.max_attempts := Notification.maxAttempts n;
          SQSMessagePayload.created_at := Notification.createdAt n;
          SQSMessagePayload.scheduled_for := Notification.scheduledFor n;
          SQSMessagePayload.trace_id := Notification.traceId n;
          SQSMessagePayload.tenant_id := Notification.tenantId n |}) |}.

(** [RetryScheduler.processRetries()]: one tick of the retry sweeper. *)
Definition processRetries : M unit :=
  notifications <- NotificationRepository.findReadyForRetry 100 ;;
  match notifications with
  | [] => ret tt
  | _ :: _ =>
      logger.info "Processing retries" ;;;
      forOf notifications (fun notification =>
        tryCatch
          (processMessage (messageOf notification) ;;;
           logger.info "Retry processed")
          (fun _ => logger.error "Failed to process retry"))
  end.

(** [ScheduledProcessor.processScheduled()]: one tick of the promoter. *)
Definition processScheduled : M unit :=
  notifications <- NotificationRepository.findScheduled 100 ;;
  match notifications with
  | [] => ret tt
  | _ :: _ =>
      logger.info "Processing scheduled notifications" ;;;
      forOf notifications (fun notification =>
        tryCatch
          ((* Update status from scheduled to queued *)
           NotificationRepository.updateStatus (Notification.id notification)
                                               queued StatusUpdates.empty ;;;
           processMessage (messageOf notification) ;;;
           logger.info "Scheduled notification processed")
          (fun _ => logger.error "Failed to process scheduled notification"))
  end.

End WithRetryPolicy.
End MessageProcessor.

(** Modelled from the spec: [calculateRetryDelay] of [utils/retry.ts], which
    is not among the sources (only its unit tests and its call site are).
    The spec gives [delay = min(base * 2^k + jitter, max_delay)] with
    [max_delay = 3600 s]; the unit tests fix the indexing
    ([calculateRetryDelay(1)] is the base delay), so attempt [n] carries the
    exponent [k = n - 1].  Delays are in milliseconds, as the call site adds
    them to [Date.now()].  [jitter] is the random draw of one call.  This is
    the spec's reading only: the unit tests of the repository ask for the
    first four delays exactly and for 60 s at most at attempt 10
    ([passesUnitTests] below), which this formula does not give. *)
Definition max_delay : Z := 3600 * 1000.

Definition calculateRetryDelay (base jitter : Z) (attemptNumber : Z) : Z :=
  Z.min (base * 2 ^ (attemptNumber - 1) + jitter) max_delay.


(** Jitter of at most 25% of the exponential term, either way. *)
Definition jitterWithin (base k jitter : Z) : Prop :=
  4 * Z.abs jitter <= base * 2 ^ k.


(* ===================================================================== *)
(** * 7. Provider callbacks: [api/src/routes/webhooks.ts]                 *)
(* ===================================================================== *)

Module StatusError.
Record t : Type := mk { code : option Z; title : option string }.
End StatusError.

(** One element of [change.value.statuses].  [timestamp] is the number
    [parseInt(status.timestamp)] reads (seconds since the epoch). *)
Module StatusEntry.
Record t : Type := mk {
  id : string;
  status : string;
  timestamp : Z;
  errors : option (list StatusError.t)
}.
End StatusEntry.

Module IncomingMessage.
Record t : Type := mk { from : string; type : string; id : string }.
End IncomingMessage.

(** An element of an array of the parsed body ([request.body as any]):
    [null], of which no property can be read, or an object with the fields
    the handler reads. *)
Inductive JsonElement (A : Type) : Type :=
| jsonNull
| jsonObject (a : A).
Arguments jsonNull {A}.
Arguments jsonObject {A} a.

Module ChangeValue.
Record t : Type := mk {
  statuses : option (list (JsonElement StatusEntry.t));
  messages : option (list (JsonElement IncomingMessage.t))
}.
End ChangeValue.

Module WebhookBody.
Record change : Type := mkChange { value : option ChangeValue.t }.
(** [entry.changes || []] *)
Record entry : Type := mkEntry { changes : list change }.
(** [body.object], [body.entry || []] *)
Record t : Type := mk { object : string; entries : list entry }.
End WebhookBody.

Module Webhooks.
Section Handlers.

(** The repository operations the handler imports; tests replace them by
    stubs, and so may a proof. *)
Variable findById : string -> M (option Notification.t).
Variable updateStatus :
  string -> NotificationStatus -> StatusUpdates.t -> M Notification.t.
Variable createLog : CreateDeliveryLogData.t -> M DeliveryLog.t.

(** The [switch (statusValue)]: the new status and the [updates] object. *)
Definition statusChange (notification : Notification.t) (status : StatusEntry.t)
  : NotificationStatus * StatusUpdates.t :=
  let at_ := Some (StatusEntry.timestamp status * 1000) in
  let none := StatusUpdates.empty in
  let statusValue := StatusEntry.status status in
  if String.eqb statusValue "sent" then
    (sent, StatusUpdates.mk None None None at_ None None None)
  else if String.eqb statusValue "delivered" then
    (delivered, StatusUpdates.mk None None None None at_ None None)
  else if String.eqb statusValue "read" then
    (read, StatusUpdates.mk None None None None None at_ None)
  else if String.eqb statusValue "failed" then
    match StatusEntry.errors status with
    | Some (first :: _) =>
        (failed, StatusUpdates.mk None (toString <$> StatusError.code first)
                                  (StatusError.title first) None None None at_)
    | _ => (failed, StatusUpdates.mk None None None None None None at_)
    end
  else (Notification.status notification, none).

(** The [try] block of the loop body. *)
Definition statusAttempt (status : StatusEntry.t) : M unit :=
  let whatsappMessageId := StatusEntry.id status in
  (* Find notification by WhatsApp message ID *)
  found <- findById whatsappMessageId ;;
  match found with
  | None => logger.warn "Notification not found for status update"
  | Some notification =>
      (* Update notification status *)
      let '(newStatus, updates) := statusChange notification status in
      updateStatus (Notification.id notification) newStatus updates ;;;
      (* Log status update *)
      createLog
        {| CreateDeliveryLogData.notificationId := Notification.id notification;
           CreateDeliveryLogData.attemptNumber := Notification.attemptNumber notification;
           CreateDeliveryLogData.status := newStatus;
           CreateDeliveryLogData.whatsappMessageId := Some whatsappMessageId;
           CreateDeliveryLogData.errorCode := StatusUpdates.errorCode updates;
           CreateDeliveryLogData.errorMessage := StatusUpdates.errorMessage updates;
           CreateDeliveryLogData.responseTimeMs := None |} ;;;
      logger.info "Status update processed"
  end.

(** The body of the [for (const status of statuses)] loop on an entry
    that is an object: the log line, then the [try] and its [catch]. *)
Definition processStatusUpdate (status : StatusEntry.t) : M unit :=
  logger.info "Processing status update" ;;;
  tryCatch (statusAttempt status)
           (fun _ => logger.error "Error processing status update").

(** The body of the loop on any entry.  [status.id] and [status.status]
    are read first, before the [try]: on [null] that read throws, and
    nothing in the loop catches it. *)
Definition processStatusEntry (status : JsonElement StatusEntry.t) : M unit :=
  match status with
  | jsonNull =>
      throw (JsError.TypeError "Cannot read properties of null (reading 'id')")
  | jsonObject status => processStatusUpdate status
  end.

(** [async function processStatusUpdates(statuses)] *)
Definition processStatusUpdates (statuses : list (JsonElement StatusEntry.t))
  : M unit :=
  forOf statuses processStatusEntry.

(** [async function processIncomingMessages(messages)]: the log call reads
    [message.from], [message.type] and [message.id]. *)
Definition processIncomingMessages (messages : list (JsonElement IncomingMessage.t))
  : M unit :=
  forOf messages (fun message =>
    match message with
    | jsonNull =>
        throw (JsError.TypeError "Cannot read properties of null (reading 'from')")
    | jsonObject _ => logger.info "Received incoming message"
    end).

Definition processChange (change : WebhookBody.change) : M unit :=
  match WebhookBody.value change with
  | None => ret tt
  | Some value =>
      match ChangeValue.statuses value with
      | Some statuses => processStatusUpdates statuses
      | None => ret tt
      end ;;;
      match ChangeValue.messages value with
      | Some messages => processIncomingMessages messages
      | None => ret tt
      end
  end.

(** [app.post('/v1/webhooks/whatsapp', ...)] *)
Definition post (body : WebhookBody.t) : World.t -> Reply * World.t :=
  fun w =>
    let w := snd (logger.info "Received webhook" w) in
    match
      (if String.eqb (WebhookBody.object body) "whatsapp_business_account"
       then forOf (WebhookBody.entries body) (fun entry =>
              forOf (WebhookBody.changes entry) processChange)
       else ret tt) w
    with
    | (Ok _, w') => (mkReply 200 (SuccessBody true), w')
    | (Throw _, w') =>
        (mkReply 500 (SuccessBody false),
         snd (logger.error "Error processing webhook" w'))
    end.

End Handlers.

(** The handlers as the application wires them: over the Prisma
    repositories. *)
Definition handleStatus : StatusEntry.t -> M unit :=
  processStatusUpdate NotificationRepository.findById
                      NotificationRepository.updateStatus
                      DeliveryLogRepository.create.

Definition handleStatuses : list (JsonElement StatusEntry.t) -> M unit :=
  processStatusUpdates NotificationRepository.findById
                       NotificationRepository.updateStatus
                       DeliveryLogRepository.create.

Definition webhookPost : WebhookBody.t -> World.t -> Reply * World.t :=
  post NotificationRepository.findById
       NotificationRepository.updateStatus
       DeliveryLogRepository.create.

End Webhooks.

(* ===================================================================== *)
(** * 8. The specification's reading of the same operations               *)
(* ===================================================================== *)

Module Spec.

(** Ingestion, step 3: [scheduled] when [scheduled_for] is present and in
    the future, [queued] otherwise. *)
Definition initialState (now : Z) (scheduled_for : option Z) : NotificationStatus :=
  match scheduled_for with
  | Some t => if now <? t then scheduled else queued
  | None => queued
  end.

(** Processor, step 2: the states from which [processing] may be
    entered. *)
Definition mayEnterProcessing (s : NotificationStatus) : bool :=
  match s with
  | queued | failed | scheduled => true
  | _ => false
  end.

(** Rate limit: a stored window overlaps the sliding interval
    [[now - 1h, now]]. *)
Definition overlaps (now : Z) (r : RateLimit.t) : bool :=
  (RateLimit.windowStart r <=? now) && (now - hourMs <=? RateLimit.windowEnd r).

Definition windowSum (rs : list RateLimit.t) : Z :=
  foldr (fun r acc => RateLimit.messageCount r + acc) 0 rs.

(** [check(recipient, limitPerHour)] as the spec words it. *)
Definition check (phone : string) (limitPerHour : Z) (w : World.t) : bool :=
  windowSum
    (List.filter (fun r => String.eqb (RateLimit.recipientPhone r) phone
                           && overlaps (World.now w) r)
                 (World.rateLimits w))
  <? limitPerHour.

End Spec.

(** The window that holds [now]: what the repository's filter selects among
    one-hour windows that have already begun. *)
Definition holdsNow (now : Z) (r : RateLimit.t) : bool :=
  (RateLimit.windowStart r <=? now) && (now <? RateLimit.windowEnd r).

Definition currentWindowCount (phone : string) (w : World.t) : Z :=
  Spec.windowSum
    (List.filter (fun r => String.eqb (RateLimit.recipientPhone r) phone
                           && holdsNow (World.now w) r)
                 (World.rateLimits w)).

(** Rows as [increment] writes them: one hour long, begun by [now]. *)
Definition hourWindow (now : Z) (r : RateLimit.t) : Prop :=
  RateLimit.windowEnd r = RateLimit.windowStart r + hourMs
  /\ RateLimit.windowStart r <= now.

(* ===================================================================== *)
(** * 9. Scenarios                                                        *)
(* ===================================================================== *)

Module Scenario.
Open Scope string_scope.

Definition phone : string := "+14155552671".

(** 10:30 on the first day of the epoch, and the hour before. *)
Definition halfPastTen : Z := 37800000.
Definition nineOClock : Z := 32400000.
Definition tenOClock : Z := 36000000.

Definition emptyWorld : World.t :=
  World.mk ∅ [] [] 0 [] [] halfPastTen 0.

(** A request to be delivered two minutes from now. *)
Definition scheduledRequest : NotificationRequest.t :=
  NotificationRequest.mk "order.placed" phone None (Some "order_confirmation")
                         None None normal (Some (halfPastTen + 120000)).

(** Ten messages already counted for the recipient in the running hour. *)
Definition saturatedWorld : World.t :=
  World.mk ∅ [] [RateLimit.mk 1 phone tenOClock (tenOClock + hourMs) 10] 1
           [] [] halfPastTen 0.

(** Ten messages counted between 9:00 and 10:00, none since. *)
Definition previousHourWorld : World.t :=
  World.mk ∅ [] [RateLimit.mk 1 phone nineOClock tenOClock 10] 1
           [] [] halfPastTen 0.

(** A row that was not sent yet, at the given attempt count. *)
Definition row (st : NotificationStatus) (attempt : Z) (next : option Z)
  : Notification.t :=
  Notification.mk "n-1" "tenant-a" "order.placed" phone None
                  (Some "order_confirmation") None None
                  st normal None 0 None None None None None
                  None None attempt 5 next "trace-1".

(** A row the provider accepted as message [wamid.X] on the first
    attempt. *)
Definition sentRow (st : NotificationStatus) : Notification.t :=
  Notification.mk "n-1" "tenant-a" "order.placed" phone None
                  (Some "order_confirmation") None None
                  st normal (Some "wamid.X") 0 None (Some 1000) None None None
                  None None 0 5 None "trace-1".

Definition worldWith (n : Notification.t) : World.t :=
  World.mk {[ Notification.id n := n ]} [] [] 0 [] [] halfPastTen 0.

(** A provider that rejects with HTTP 400, code 131026 (invalid phone). *)
Definition invalidPhone : JsError.t :=
  JsError.mk "AxiosError" "Request failed with status code 400" None
             (Some "ERR_BAD_REQUEST") (Some (AxiosResponse.mk 400 (Some 131026))).

(** A provider that is down: HTTP 503. *)
Definition unavailable : JsError.t :=
  JsError.mk "AxiosError" "Request failed with status code 503" None
             (Some "ERR_BAD_RESPONSE") (Some (AxiosResponse.mk 503 None)).

Definition rejecting (e : JsError.t) : Provider := fun _ => Throw e.


(** Repository stubs that always reject. *)
Definition databaseDown : JsError.t :=
  JsError.mk "PrismaClientInitializationError" "Can't reach database server"
             None None None.

Definition statusBody (statuses : list StatusEntry.t) : WebhookBody.t :=
  WebhookBody.mk "whatsapp_business_account"
    [WebhookBody.mkEntry
       [WebhookBody.mkChange
          (Some (ChangeValue.mk (Some (jsonObject <$> statuses)) None))]].

End Scenario.

(* ===================================================================== *)
(** * 9a. Shapes of the store the operations keep                         *)
(* ===================================================================== *)


(** The unique key of [rate_limits]: recipient and window start. *)
Definition windowKey (r : RateLimit.t) : string * Z :=
  (RateLimit.recipientPhone r, RateLimit.windowStart r).

(** Rows as [increment] writes them: each an hour of the local clock
    ([offset] ahead of UTC), begun by [now]; one row per recipient and
    hour. *)
Definition clockHour (offset now : Z) (r : RateLimit.t) : Prop :=
  hourWindow now r /\ (RateLimit.windowStart r + offset) mod hourMs = 0.

Definition hourlyStore (offset now : Z) (rs : list RateLimit.t) : Prop :=
  Forall (clockHour offset now) rs /\ NoDup (windowKey <$> rs).

(** The ids of [rate_limits] as a serial key gives them: no two rows share
    one, and none is ahead of the sequence. *)
Definition serialIds (w : World.t) : Prop :=
  NoDup (RateLimit.id <$> World.rateLimits w)
  /\ Forall (fun r => RateLimit.id r <= World.rateLimitSeq w) (World.rateLimits w).

(** The world in which entry [i] of a bulk request is attempted: the one
    the loop reached over the entries before it. *)
Definition bulkWorldAt (uuid : nat -> string * string) (apiKey : string)
           (requests : list NotificationRequest.t) (i : nat) (w : World.t)
  : World.t :=
  snd (notificationService.bulkLoop
         uuid apiKey 0 (take i requests)
         (notificationService.BulkResult.mk [] []) w).

(** A work item carries something to send: [payload.template] or
    [payload.message] is there. *)
Definition hasContent (payload : SQSMessagePayload.t) : bool :=
  match SQSMessagePayload.template payload, SQSMessagePayload.message payload with
  | None, None => false
  | _, _ => true
  end.

(** The bodies on which the processor rejects before it writes: none,
    text that is not JSON, JSON without a recipient, or a payload whose id
    has no row. *)
Definition unprocessable (message : Message.t) (w : World.t) : Prop :=
  Message.Body message = None
  \/ Message.Body message = Some Message.notJson
  \/ Message.Body message = Some Message.noRecipient
  \/ exists payload, Message.Body message = Some (Message.json payload)
                      /\ World.notifications w !! SQSMessagePayload.id payload = None.

(** No row is in state [scheduled]. *)
Definition noneScheduled (w : World.t) : Prop :=
  forall k n, World.notifications w !! k = Some n ->
              Notification.status n <> scheduled.



(** The four status values the callback handler's [switch] knows. *)
Definition knownStatusValue (s : string) : bool :=
  String.eqb s "sent" || String.eqb s "delivered"
  || String.eqb s "read" || String.eqb s "failed".

(* ===================================================================== *)
(** * 9b. API key check: [api/src/middleware/auth.ts]                     *)
(* ===================================================================== *)

Module auth.

(** [s.split(',')] on the characters of a string: the pieces between the
    separators, at least one piece. *)
Fixpoint splitOn (sep : ascii) (s : list ascii) : list (list ascii) :=
  match s with
  | [] => [[]]
  | c :: rest =>
      if Ascii.eqb c sep then [] :: splitOn sep rest
      else match splitOn sep rest with
           | piece :: pieces => (c :: piece) :: pieces
           | [] => [[c]]
           end
  end.

Definition split (sep : ascii) (s : string) : list string :=
  string_of_list_ascii <$> splitOn sep (list_ascii_of_string s).

(** [const VALID_API_KEYS = new Set((process.env.API_KEYS || 'test-key').split(','))] *)
Definition VALID_API_KEYS (API_KEYS : option string) : list string :=
  split "," (orString API_KEYS "test-key").

(** The pre-handler either answers 401 itself or attaches the key to the
    request. *)
Inductive Outcome : Type :=
| Unauthorized (reply : Reply)
| Authenticated (apiKey : string).

(** [export async function authenticateApiKey(request, reply)];
    [header] is [request.headers['x-api-key']]. *)
Definition authenticateApiKey (API_KEYS : option string) (header : option string)
  : World.t -> Outcome * World.t :=
  fun w =>
    let apiKey := orString header "" in
    if String.eqb apiKey "" then
      (Unauthorized (mkReply 401 (ErrorBody "Unauthorized" "API key is required"
                                            (Some "MISSING_API_KEY"))),
       snd (logger.warn "Missing API key" w))
    else if negb (existsb (String.eqb apiKey) (VALID_API_KEYS API_KEYS)) then
      (Unauthorized (mkReply 401 (ErrorBody "Unauthorized" "Invalid API key"
                                            (Some "INVALID_API_KEY"))),
       snd (logger.warn "Invalid API key" w))
    else
      (Authenticated apiKey, snd (logger.log debug "API key authenticated" w)).

End auth.

(** Keys as an operator would write them into [API_KEYS]: not empty and
    without a comma. *)
Definition plainKey (key : string) : Prop :=
  key <> "" /\ ~ In ","%char (list_ascii_of_string key).

(* ===================================================================== *)
(** * 9d. Status route: [GET /v1/notifications/:id/status]                *)
(* ===================================================================== *)

Module statusRoute.

(** One element of [deliveryLogs] in the answer. *)
Record LogView : Type := mkLogView {
  log_attemptNumber : Z;
  log_status : NotificationStatus;
  log_createdAt : Z;
  log_errorCode : option string;
  log_errorMessage : option string
}.

(** The [data] object of the 200 answer. *)
Record StatusData : Type := mkStatusData {
  data_id : string;
  data_status : NotificationStatus;
  data_eventType : string;
  data_recipientPhone : string;
  data_priority : NotificationPriority;
  data_createdAt : Z;
  data_sentAt : option Z;
  data_deliveredAt : option Z;
  data_readAt : option Z;
  data_failedAt : option Z;
  data_attemptNumber : Z;
  data_errorCode : option string;
  data_errorMessage : option string;
  data_deliveryLogs : list LogView
}.

Inductive Answer : Type :=
| NotFound   (** 404 [{ success: false, error: 'Notification not found', code: 'NOT_FOUND' }] *)
| Forbidden  (** 403 [{ success: false, error: 'Access denied', code: 'FORBIDDEN' }] *)
| Found (data : StatusData). (** 200 [{ success: true, data }] *)

Definition statusCode (a : Answer) : Z :=
  match a with
  | NotFound => 404
  | Forbidden => 403
  | Found _ => 200
  end.

Definition newestFirst (a b : DeliveryLog.t) : Prop :=
  DeliveryLog.createdAt b <= DeliveryLog.createdAt a.

Global Instance newestFirst_dec a b : Decision (newestFirst a b).
Proof. unfold newestFirst. apply _. Defined.

(** [include: { deliveryLogs: { orderBy: { createdAt: 'desc' }, take: 10 } }]
    of [findById]. *)
Definition includedLogs (id : string) (w : World.t) : list DeliveryLog.t :=
  take 10 (merge_sort newestFirst
             (List.filter (fun l => String.eqb (DeliveryLog.notificationId l) id)
                          (World.deliveryLogs w))).

Definition viewOf (l : DeliveryLog.t) : LogView :=
  mkLogView (DeliveryLog.attemptNumber l) (DeliveryLog.status l)
            (DeliveryLog.createdAt l) (DeliveryLog.errorCode l)
            (DeliveryLog.errorMessage l).

(** The handler, after [authenticateApiKey] attached [apiKey]. *)
Definition getStatus (id apiKey : string) : M Answer :=
  found <- NotificationRepository.findById id ;;
  match found with
  | None => ret NotFound
  | Some notification =>
      (* Check tenant access *)
      if negb (String.eqb (Notification.tenantId notification) apiKey)
      then ret Forbidden
      else
        logs <- (fun w => (Ok (includedLogs id w), w)) ;;
        ret (Found
               {| data_id := Notification.id notification;
                  data_status := Notification.status notification;
                  data_eventType := Notification.eventType notification;
                  data_recipientPhone := Notification.recipientPhone notification;
                  data_priority := Notification.priority notification;
                  data_createdAt := Notification.createdAt notification;
                  data_sentAt := Notification.sentAt notification;
                  data_deliveredAt := Notification.deliveredAt notification;
                  data_readAt := Notification.readAt notification;
                  data_failedAt := Notification.failedAt notification;
                  data_attemptNumber := Notification.attemptNumber notification;
                  data_errorCode := Notification.errorCode notification;
                  data_errorMessage := Notification.errorMessage notification;
                  data_deliveryLogs := viewOf <$> logs |})
  end.

End statusRoute.

(* ===================================================================== *)
(** * 9e. Queue consumer: [worker/src/services/sqs.consumer.ts]           *)
(* ===================================================================== *)

(** A message as [ReceiveMessageCommand] hands it over. *)
Module ReceivedMessage.
Record t : Type := mk {
  MessageId : option string;
  ReceiptHandle : option string;
  content : Message.t
}.
End ReceivedMessage.

Module SQSConsumer.
Section Consumer.

(** [this.client.send(new DeleteMessageCommand({ ReceiptHandle }))] *)
Variable sendDelete : string -> M unit.

(** [private async deleteMessage(message)] *)
Definition deleteMessage (message : ReceivedMessage.t) : M unit :=
  let handle := orString (ReceivedMessage.ReceiptHandle message) "" in
  if String.eqb handle "" then ret tt else sendDelete handle.

(** [private async processMessage(message, messageHandler)] *)
Definition processMessage (message : ReceivedMessage.t)
           (messageHandler : Message.t -> M unit) : M unit :=
  tryCatch
    (logger.info "Processing message" ;;;
     messageHandler (ReceivedMessage.content message) ;;;
     (* Delete message after successful processing *)
     deleteMessage message ;;;
     logger.info "Message processed successfully")
    (fun _ => logger.error "Failed to process message").

End Consumer.
End SQSConsumer.

(* ===================================================================== *)
(** * 10. Facts about the request schema                                  *)
(* ===================================================================== *)

Section SchemaFacts.
Import Schema.

Lemma repeatMatcher_sound (m : Matcher) (L : list ascii -> Prop) :
  (forall s k, m s k = true ->
               exists s1 s2, s = s1 ++ s2 /\ L s1 /\ k s2 = true) ->
  forall hi lo s k,
    repeatMatcher m lo hi s k = true ->
    exists n s1 s2, (lo <= n <= hi)%nat /\ s = s1 ++ s2
                    /\ power L n s1 /\ k s2 = true.
Proof.
  intros Hm. induction hi as [|hi IH]; intros lo s k H; simpl in H.
  - destruct lo; [|discriminate].
    exists O, [], s. repeat split; auto.
  - apply orb_true_iff in H as [H|H].
    + apply Hm in H as (s1 & s2 & -> & HL & H).
      apply IH in H as (n & t1 & t2 & Hn & -> & Hp & Hk).
      exists (S n), (s1 ++ t1), t2. repeat split.
      * lia.
      * lia.
      * now rewrite <- app_assoc.
      * simpl. exists s1, t1. auto.
      * exact Hk.
    + destruct lo; [|discriminate].
      exists O, [], s. repeat split; auto; lia.
Qed.

Lemma repeatMatcher_complete (m : Matcher) (L : list ascii -> Prop) :
  (forall s1 s2 k, L s1 -> k s2 = true -> m (s1 ++ s2) k = true) ->
  forall n hi lo s1 s2 k,
    (lo <= n <= hi)%nat -> power L n s1 -> k s2 = true ->
    repeatMatcher m lo hi (s1 ++ s2) k = true.
Proof.
  intros Hm. induction n as [|n IH]; intros hi lo s1 s2 k Hn Hp Hk.
  - simpl in Hp. subst s1. simpl.
    assert (lo = O) by lia. subst lo.
    destruct hi; simpl; [exact Hk|]. rewrite Hk. apply orb_true_r.
  - destruct Hp as (t1 & t2 & -> & Ht1 & Ht2).
    destruct hi as [|hi]; [lia|]. simpl.
    apply orb_true_iff. left. rewrite <- app_assoc.
    apply Hm; [exact Ht1|].
    apply IH; [lia|exact Ht2|exact Hk].
Qed.

Lemma matchRe_sound (r : Regex) :
  forall s k, matchRe r s k = true ->
              exists s1 s2, s = s1 ++ s2 /\ lang r s1 /\ k s2 = true.
Proof.
  induction r as [c|lo hi|r1 IH1 r2 IH2|r IH lo hi]; intros s k H; simpl in H.
  - destruct s as [|x s]; [discriminate|].
    destruct (Ascii.eqb x c) eqn:E; [|discriminate].
    apply Ascii.eqb_eq in E. subst x. exists [c], s. simpl. auto.
  - destruct s as [|x s]; [discriminate|].
    destruct (inRange lo hi x) eqn:E; [|discriminate].
    exists [x], s. simpl. eauto.
  - apply IH1 in H as (s1 & s2 & -> & H1 & H).
    apply IH2 in H as (t1 & t2 & -> & H2 & Hk).
    exists (s1 ++ t1), t2. rewrite <- app_assoc. simpl. eauto 10.
  - apply (repeatMatcher_sound _ (lang r) IH) in H
      as (n & s1 & s2 & Hn & -> & Hp & Hk).
    exists s1, s2. simpl. eauto.
Qed.

Lemma matchRe_complete (r : Regex) :
  forall s1 s2 k, lang r s1 -> k s2 = true -> matchRe r (s1 ++ s2) k = true.
Proof.
  induction r as [c|lo hi|r1 IH1 r2 IH2|r IH lo hi];
    intros s1 s2 k HL Hk; simpl in HL.
  - subst s1. simpl. now rewrite Ascii.eqb_refl.
  - destruct HL as (c & -> & Hc). simpl. now rewrite Hc.
  - destruct HL as (t1 & t2 & -> & H1 & H2). simpl.
    rewrite <- app_assoc. apply IH1; [exact H1|]. now apply IH2.
  - destruct HL as (n & Hn & Hp). simpl.
    now apply (repeatMatcher_complete _ (lang r) IH n).
Qed.

(** The anchored matcher decides membership in the language. *)
Lemma test_lang (r : Regex) (s : string) :
  test r s = true <-> lang r (list_ascii_of_string s).
Proof.
  unfold test. split.
  - intros H. apply matchRe_sound in H as (s1 & s2 & E & HL & Hk).
    destruct s2; [|discriminate]. rewrite app_nil_r in E. now rewrite E.
  - intros H. rewrite <- (app_nil_r (list_ascii_of_string s)).
    now apply matchRe_complete.
Qed.

End SchemaFacts.

(** C9. For every input string the recipient phone-number validation accepts
    the string exactly when it matches [^\+[1-9]\d{1,14}$] (and so rejects
    every string that does not match). *)
Theorem phone_number_valid_iff_E164 (s : string) :
  Schema.phone_number_valid s = true <-> Schema.matches_E164 s.
Proof.
  unfold Schema.phone_number_valid, Schema.matches_E164.
  apply (test_lang Schema.phoneNumberRegex).
Qed.

(** Repetition of a character class: every character in the class and the
    length within the bounds. *)
Lemma repeat_range_atEnd (lo hi : ascii) (n m : nat) (s : list ascii) :
  Schema.repeatMatcher (Schema.matchRe (Schema.Range lo hi)) n m s Schema.atEnd
  = forallb (Schema.inRange lo hi) s
    && (n <=? length s)%nat && (length s <=? m)%nat.
Proof.
  revert n s. induction m as [|m IH]; intros n s; simpl.
  - destruct s as [|x s]; destruct n; simpl; try reflexivity.
    all: now rewrite ?andb_false_r.
  - destruct s as [|x s]; simpl.
    + destruct n; reflexivity.
    + destruct (Schema.inRange lo hi x); simpl.
      * rewrite IH. destruct n; simpl; now rewrite orb_false_r.
      * destruct n; reflexivity.
Qed.

(** The validation, character by character: a plus sign, a digit from 1 to
    9, then between one and fourteen digits. *)
Lemma phone_number_valid_shape (s : string) :
  Schema.phone_number_valid s = Schema.e164_shape (list_ascii_of_string s).
Proof.
  unfold Schema.phone_number_valid, Schema.test, Schema.e164_shape.
  destruct (list_ascii_of_string s) as [|p [|d rest]]; simpl.
  - reflexivity.
  - destruct (Ascii.eqb p "+"); reflexivity.
  - destruct (Ascii.eqb p "+"); simpl; [|reflexivity].
    destruct (Schema.inRange "1" "9" d); simpl; [|reflexivity].
    apply (repeat_range_atEnd "0" "9" 1 14 rest).
Qed.

Example phone_number_samples :
  Schema.phone_number_valid "+14155552671" = true
  /\ Schema.phone_number_valid "14155552671" = false
  /\ Schema.phone_number_valid "+04155552671" = false
  /\ Schema.phone_number_valid "+1" = false
  /\ Schema.phone_number_valid "+123456789012345" = true
  /\ Schema.phone_number_valid "+1234567890123456" = false
  /\ Schema.phone_number_valid "invalid" = false.
Proof. repeat split; reflexivity. Qed.

(* ===================================================================== *)
(** * 11. Facts about the monad                                           *)
(* ===================================================================== *)

Ltac unfold_monad :=
  unfold bind, ret, throw, tryCatch, dateNow,
    logger.info, logger.warn, logger.error, logger.log in *.

Lemma total_ret {A} (a : A) : total (ret a).
Proof. intros w. now exists a, w. Qed.

Lemma total_log (l : LogLevel) (s : string) : total (logger.log l s).
Proof. intros w. unfold logger.log. eauto. Qed.

Lemma total_bind {A B} (c : M A) (k : A -> M B) :
  total c -> (forall a, total (k a)) -> total (bind c k).
Proof.
  intros Hc Hk w. unfold bind.
  destruct (Hc w) as (a & w' & ->). apply Hk.
Qed.

(** [try { c } catch { h }] fulfils as soon as the handler does. *)
Lemma total_tryCatch {A} (c : M A) (h : JsError.t -> M A) :
  (forall e, total (h e)) -> total (tryCatch c h).
Proof.
  intros Hh w. unfold tryCatch.
  destruct (c w) as [[a|e] w']; [eauto|apply Hh].
Qed.

Lemma total_forOf {A} (xs : list A) (body : A -> M unit) :
  (forall x, total (body x)) -> total (forOf xs body).
Proof.
  intros Hb. induction xs as [|x xs IH]; simpl.
  - apply total_ret.
  - apply total_bind; [apply Hb|intros _; exact IH].
Qed.

Create HintDb total.
#[local] Hint Resolve total_ret total_log total_bind total_tryCatch total_forOf : total.

(* ===================================================================== *)
(** * 12. Facts about the webhook handler                                 *)
(* ===================================================================== *)

Section WebhookFacts.
Variable findById : string -> M (option Notification.t).
Variable updateStatus :
  string -> NotificationStatus -> StatusUpdates.t -> M Notification.t.
Variable createLog : CreateDeliveryLogData.t -> M DeliveryLog.t.







(** A rejected repository call inside the loop leaves one error line in
    the log and the loop goes on. *)
Lemma processStatusUpdate_logs_rejection (status : StatusEntry.t) (e : JsError.t)
      (w w1 : World.t) :
  findById (StatusEntry.id status)
           (snd (logger.info "Processing status update" w)) = (Throw e, w1) ->
  Webhooks.processStatusUpdate findById updateStatus createLog status w
  = (Ok tt, World.set_logs
              (fun ls => ls ++ [mkLog error "Error processing status update"]) w1).
Proof.
  intros H. unfold Webhooks.processStatusUpdate, Webhooks.statusAttempt.
  unfold_monad. simpl in *. now rewrite H.
Qed.

End WebhookFacts.




(** The same with every repository call rejecting: three entries, three
    error lines, and 200. *)
Example webhook_post_database_down :
  let down {A} : M A := throw Scenario.databaseDown in
  let entry s := StatusEntry.mk "wamid.X" s 1700000000 None in
  let '(reply, w) :=
    Webhooks.post (fun _ => down) (fun _ _ _ => down) (fun _ => down)
                  (Scenario.statusBody [entry "sent"; entry "delivered"; entry "read"])
                  Scenario.emptyWorld in
  reply = mkReply 200 (SuccessBody true)
  /\ List.filter (fun l => match level l with error => true | _ => false end)
                 (World.logs w)
     = [mkLog error "Error processing status update";
        mkLog error "Error processing status update";
        mkLog error "Error processing status update"].
Proof. vm_compute. split; reflexivity. Qed.

(* ===================================================================== *)
(** * 13. Facts about the notification store                              *)
(* ===================================================================== *)

Lemma updateStatus_found (w : World.t) (i : string) (n : Notification.t)
      (st : NotificationStatus) (u : StatusUpdates.t) :
  World.notifications w !! i = Some n ->
  NotificationRepository.updateStatus i st u w
  = (Ok (NotificationRepository.withStatus n st u),
     World.set_notifications (insert i (NotificationRepository.withStatus n st u)) w).
Proof. intros H. unfold NotificationRepository.updateStatus. now rewrite H. Qed.

Lemma updateStatus_missing (w : World.t) (i : string)
      (st : NotificationStatus) (u : StatusUpdates.t) :
  World.notifications w !! i = None ->
  NotificationRepository.updateStatus i st u w = (Throw prisma.recordNotFound, w).
Proof. intros H. unfold NotificationRepository.updateStatus. now rewrite H. Qed.

Lemma incrementAttempt_found (w : World.t) (i : string) (n : Notification.t)
      (next : option Z) :
  World.notifications w !! i = Some n ->
  NotificationRepository.incrementAttempt i next w
  = (Ok (NotificationRepository.withAttempt n next),
     World.set_notifications (insert i (NotificationRepository.withAttempt n next)) w).
Proof. intros H. unfold NotificationRepository.incrementAttempt. now rewrite H. Qed.

Lemma createLog_found (w : World.t) (d : CreateDeliveryLogData.t) (n : Notification.t) :
  World.notifications w !! CreateDeliveryLogData.notificationId d = Some n ->
  exists l, DeliveryLogRepository.create d w
            = (Ok l, World.set_deliveryLogs (fun ls => ls ++ [l]) w)
            /\ DeliveryLog.status l = CreateDeliveryLogData.status d
            /\ DeliveryLog.attemptNumber l = CreateDeliveryLogData.attemptNumber d.
Proof.
  intros H. unfold DeliveryLogRepository.create. rewrite H. eauto.
Qed.

(** C2 (as amended). [updateStatus] consults no state-machine predicate: on
    an existing row it fulfils and writes the requested status whatever the
    current one is, leaving the other rows alone; the only rejection is
    Prisma's record-not-found on a missing row, with nothing written. *)
Theorem updateStatus_writes_any_transition
        (w : World.t) (i : string) (n : Notification.t)
        (st : NotificationStatus) (u : StatusUpdates.t) :
  World.notifications w !! i = Some n ->
  exists n' w',
    NotificationRepository.updateStatus i st u w = (Ok n', w')
    /\ Notification.status n' = st
    /\ World.notifications w' !! i = Some n'
    /\ (forall j, j <> i -> World.notifications w' !! j = World.notifications w !! j)
    /\ (forall v, World.notifications v !! i = None ->
                  NotificationRepository.updateStatus i st u v
                  = (Throw prisma.recordNotFound, v)).
Proof.
  intros H. eexists _, _. split; [apply (updateStatus_found _ _ _ _ _ H)|].
  simpl. repeat split.
  - apply lookup_insert_eq.
  - intros j Hj. now apply lookup_insert_ne.
  - intros v Hv. now apply updateStatus_missing.
Qed.

Lemma updateStatus_writes_any_transition_witness :
  exists n' w',
    NotificationRepository.updateStatus "n-1" processing StatusUpdates.empty
      (Scenario.worldWith (Scenario.sentRow read)) = (Ok n', w')
    /\ Notification.status n' = processing
    /\ World.notifications w' !! "n-1" = Some n'
    /\ (forall j, j <> "n-1" ->
                  World.notifications w' !! j
                  = World.notifications (Scenario.worldWith (Scenario.sentRow read)) !! j)
    /\ (forall v, World.notifications v !! "n-1" = None ->
                  NotificationRepository.updateStatus "n-1" processing StatusUpdates.empty v
                  = (Throw prisma.recordNotFound, v)).
Proof.
  apply (updateStatus_writes_any_transition
           (Scenario.worldWith (Scenario.sentRow read)) "n-1"
           (Scenario.sentRow read) processing StatusUpdates.empty).
  reflexivity.
Defined.

(** C2, as stated, fails: a notification that was already read is moved to
    [processing] by the processor's first write, although the spec allows
    that transition from [queued], [failed] and [scheduled] only. *)
Lemma updateStatus_read_to_processing :
  let w := Scenario.worldWith (Scenario.sentRow read) in
  Spec.mayEnterProcessing read = false
  /\ Notification.status <$> (World.notifications w !! "n-1") = Some read
  /\ (exists n', fst (NotificationRepository.updateStatus
                        "n-1" processing StatusUpdates.empty w) = Ok n')
  /\ Notification.status
       <$> (World.notifications
              (snd (NotificationRepository.updateStatus
                      "n-1" processing StatusUpdates.empty w)) !! "n-1")
     = Some processing.
Proof.
  repeat split; try reflexivity.
  eexists. reflexivity.
Qed.

(* ===================================================================== *)
(** * 14. Facts about provider callbacks over the Prisma repositories     *)
(* ===================================================================== *)

(** The handler finds its row under the callback's [id] taken as the
    primary key, and then overwrites the status with the one the callback
    names. *)
Lemma handleStatus_found (w : World.t) (cb : StatusEntry.t) (n : Notification.t) :
  World.notifications w !! StatusEntry.id cb = Some n ->
  Notification.id n = StatusEntry.id cb ->
  World.notifications (snd (Webhooks.handleStatus cb w))
  = <[StatusEntry.id cb :=
        NotificationRepository.withStatus n
          (fst (Webhooks.statusChange n cb)) (snd (Webhooks.statusChange n cb))]>
      (World.notifications w).
Proof.
  intros H Hid.
  unfold Webhooks.handleStatus, Webhooks.processStatusUpdate,
    Webhooks.statusAttempt.
  unfold_monad. unfold NotificationRepository.findById. simpl. rewrite H.
  destruct (Webhooks.statusChange n cb) as [st u]. simpl.
  rewrite Hid.
  unfold NotificationRepository.updateStatus. simpl. rewrite H. simpl.
  unfold DeliveryLogRepository.create. simpl.
  rewrite lookup_insert_eq. reflexivity.
Qed.

(** No row under that key: nothing is written, whatever the rows'
    [whatsappMessageId] columns hold. *)
Lemma handleStatus_not_found (w : World.t) (cb : StatusEntry.t) :
  World.notifications w !! StatusEntry.id cb = None ->
  Webhooks.handleStatus cb w
  = (Ok tt,
     World.set_logs
       (fun ls => (ls ++ [mkLog info "Processing status update"])
                    ++ [mkLog warn "Notification not found for status update"]) w).
Proof.
  intros H.
  unfold Webhooks.handleStatus, Webhooks.processStatusUpdate,
    Webhooks.statusAttempt.
  unfold_monad. unfold NotificationRepository.findById. simpl. now rewrite H.
Qed.

(** C3: the code at the failing input.  The row [n-1] carries the provider
    message id [wamid.X]; the callback for [wamid.X] is looked up with
    [findById], finds nothing, and is dropped with a warning, while a
    callback that names the row's own id is applied. *)
Theorem status_callback_keyed_by_row_id :
  let n := Scenario.sentRow sent in
  let w := Scenario.worldWith n in
  let callback := StatusEntry.mk "wamid.X" "delivered" 1700000000 None in
  let w' := snd (Webhooks.handleStatus callback w) in
  Notification.whatsappMessageId n = Some (StatusEntry.id callback)
  /\ World.notifications w' = World.notifications w
  /\ World.deliveryLogs w' = []
  /\ last (World.logs w') = Some (mkLog warn "Notification not found for status update")
  /\ Notification.status
       <$> (World.notifications
              (snd (Webhooks.handleStatus
                      (StatusEntry.mk "n-1" "delivered" 1700000000 None) w)) !! "n-1")
     = Some delivered.
Proof. repeat split; reflexivity. Qed.

(** The same through the route: the POST answers 200 and the row is as it
    was. *)
Example webhook_post_unknown_message_id :
  let w := Scenario.worldWith (Scenario.sentRow sent) in
  let body := Scenario.statusBody [StatusEntry.mk "wamid.X" "delivered" 1700000000 None] in
  let '(reply, w') := Webhooks.webhookPost body w in
  reply = mkReply 200 (SuccessBody true)
  /\ World.notifications w' = World.notifications w.
Proof. split; reflexivity. Qed.

(** C7 (as amended).  For a notification the handler finds, a [read]
    callback followed by a [delivered] callback sets both timestamps, each
    from its own callback, and leaves the state the later callback names:
    [delivered]. *)
Theorem callbacks_read_then_delivered
        (w : World.t) (i : string) (n : Notification.t) (tRead tDelivered : Z) :
  World.notifications w !! i = Some n ->
  Notification.id n = i ->
  Notification.status n = sent ->
  let w1 := snd (Webhooks.handleStatus (StatusEntry.mk i "read" tRead None) w) in
  let w2 := snd (Webhooks.handleStatus (StatusEntry.mk i "delivered" tDelivered None) w1) in
  exists n1 n2,
    World.notifications w1 !! i = Some n1
    /\ Notification.status n1 = read
    /\ World.notifications w2 !! i = Some n2
    /\ Notification.status n2 = delivered
    /\ Notification.readAt n2 = Some (tRead * 1000)
    /\ Notification.deliveredAt n2 = Some (tDelivered * 1000).
Proof.
  intros H Hid _ w1 w2.
  pose proof (handleStatus_found w (StatusEntry.mk i "read" tRead None) n H Hid) as E1.
  fold w1 in E1.
  assert (H1 : World.notifications w1 !! i
               = Some (NotificationRepository.withStatus n read
                         (StatusUpdates.mk None None None None None
                                           (Some (tRead * 1000)) None))).
  { rewrite E1. apply lookup_insert_eq. }
  pose proof (handleStatus_found w1 (StatusEntry.mk i "delivered" tDelivered None)
                                 _ H1 Hid) as E2.
  fold w2 in E2.
  eexists _, _. split; [exact H1|]. split; [reflexivity|].
  split; [rewrite E2; apply lookup_insert_eq|].
  repeat split; reflexivity.
Qed.

Lemma callbacks_read_then_delivered_witness :
  let w := Scenario.worldWith (Scenario.sentRow sent) in
  let w1 := snd (Webhooks.handleStatus (StatusEntry.mk "n-1" "read" 200 None) w) in
  let w2 := snd (Webhooks.handleStatus (StatusEntry.mk "n-1" "delivered" 100 None) w1) in
  exists n1 n2,
    World.notifications w1 !! "n-1" = Some n1
    /\ Notification.status n1 = read
    /\ World.notifications w2 !! "n-1" = Some n2
    /\ Notification.status n2 = delivered
    /\ Notification.readAt n2 = Some (200 * 1000)
    /\ Notification.deliveredAt n2 = Some (100 * 1000).
Proof.
  apply (callbacks_read_then_delivered
           (Scenario.worldWith (Scenario.sentRow sent)) "n-1"
           (Scenario.sentRow sent) 200 100); reflexivity.
Defined.

(** C7, as stated, fails: after [read] then [delivered] on a [sent]
    notification the stored state is [delivered], not [read]; the later
    callback moved it back. *)
Lemma callbacks_out_of_order_end_delivered :
  let w := Scenario.worldWith (Scenario.sentRow sent) in
  let w1 := snd (Webhooks.handleStatus (StatusEntry.mk "n-1" "read" 200 None) w) in
  let w2 := snd (Webhooks.handleStatus (StatusEntry.mk "n-1" "delivered" 100 None) w1) in
  Notification.status <$> (World.notifications w1 !! "n-1") = Some read
  /\ Notification.status <$> (World.notifications w2 !! "n-1") = Some delivered
  /\ Notification.status <$> (World.notifications w2 !! "n-1") <> Some read.
Proof. repeat split; try reflexivity. discriminate. Qed.

(* ===================================================================== *)
(** * 15. Facts about the rate limiter                                    *)
(* ===================================================================== *)

Lemma orNumber_aggregateSum (rs : list RateLimit.t) :
  orNumber (RateLimitRepository.aggregateSum rs) 0 = Spec.windowSum rs.
Proof.
  destruct rs as [|r rs]; [reflexivity|].
  unfold RateLimitRepository.aggregateSum, orNumber, Spec.windowSum.
  destruct (Z.eqb_spec (foldr (fun r acc => RateLimit.messageCount r + acc) 0 (r :: rs)) 0)
    as [E|E]; [now rewrite E|reflexivity].
Qed.

(** What [checkLimit] computes, on any store. *)
Lemma checkLimit_eq (phone : string) (limitPerHour : Z) (w : World.t) :
  RateLimitRepository.checkLimit phone limitPerHour w
  = (Ok (Spec.windowSum
           (List.filter (RateLimitRepository.counted phone (World.now w)
                                                     (World.now w - hourMs))
                        (World.rateLimits w)) <? limitPerHour), w).
Proof.
  unfold RateLimitRepository.checkLimit. now rewrite orNumber_aggregateSum.
Qed.

(** On one-hour windows that have begun, both bounds of the filter say the
    same thing: the window holds [now]. *)
Lemma counted_hourWindow (phone : string) (now : Z) (r : RateLimit.t) :
  hourWindow now r ->
  RateLimitRepository.counted phone now (now - hourMs) r
  = String.eqb (RateLimit.recipientPhone r) phone && holdsNow now r.
Proof.
  intros [He Hs]. unfold RateLimitRepository.counted, holdsNow.
  rewrite He, <- andb_assoc. f_equal.
  destruct (Z.ltb_spec now (RateLimit.windowStart r + hourMs));
    destruct (Z.ltb_spec (now - hourMs) (RateLimit.windowStart r));
    destruct (Z.leb_spec (RateLimit.windowStart r) now); simpl; try reflexivity; lia.
Qed.

(** A window that ended by [now] is never counted. *)
Lemma counted_ended (phone : string) (now : Z) (r : RateLimit.t) :
  RateLimit.windowEnd r <= now ->
  RateLimitRepository.counted phone now (now - hourMs) r = false.
Proof.
  intros H. unfold RateLimitRepository.counted.
  destruct (Z.ltb_spec now (RateLimit.windowEnd r)); [lia|].
  now rewrite andb_false_r.
Qed.

Lemma hourStart_le (offset now : Z) :
  RateLimitRepository.hourStart offset now <= now.
Proof.
  unfold RateLimitRepository.hourStart, hourMs.
  pose proof (Z.mod_pos_bound (now + offset) (60 * 60 * 1000)). lia.
Qed.


(** C5 (as amended).  With the stored windows one hour long and already
    begun, as [increment] writes them, the check answers true exactly when
    the messages counted in the recipient's window that holds [now] are
    strictly fewer than [limitPerHour]; a window that has ended is not
    counted, also when it still overlaps the last sixty minutes. *)
Theorem checkLimit_counts_current_window
        (phone : string) (limitPerHour : Z) (w : World.t) :
  Forall (hourWindow (World.now w)) (World.rateLimits w) ->
  RateLimitRepository.checkLimit phone limitPerHour w
  = (Ok (currentWindowCount phone w <? limitPerHour), w)
  /\ (forall r, RateLimit.windowEnd r <= World.now w ->
                RateLimitRepository.counted phone (World.now w)
                                            (World.now w - hourMs) r = false).
Proof.
  intros H. split; [|intros r; apply counted_ended].
  rewrite checkLimit_eq. unfold currentWindowCount.
  rewrite (List.filter_ext_in
             (RateLimitRepository.counted phone (World.now w) (World.now w - hourMs))
             (fun r => String.eqb (RateLimit.recipientPhone r) phone
                       && holdsNow (World.now w) r)); [reflexivity|].
  intros r Hr.
  apply counted_hourWindow. rewrite List.Forall_forall in H. now apply H.
Qed.

Lemma checkLimit_counts_current_window_witness :
  RateLimitRepository.checkLimit Scenario.phone 10 Scenario.saturatedWorld
  = (Ok (currentWindowCount Scenario.phone Scenario.saturatedWorld <? 10),
     Scenario.saturatedWorld)
  /\ (forall r, RateLimit.windowEnd r <= World.now Scenario.saturatedWorld ->
                RateLimitRepository.counted
                  Scenario.phone (World.now Scenario.saturatedWorld)
                  (World.now Scenario.saturatedWorld - hourMs) r = false).
Proof.
  apply (checkLimit_counts_current_window Scenario.phone 10 Scenario.saturatedWorld).
  repeat constructor; vm_compute; congruence.
Defined.

(** C5, as stated, fails: at 10:30, with ten messages counted in the window
    from 9:00 to 10:00, that window overlaps the last sixty minutes and the
    spec's sum is 10, not below the limit of 10; the repository answers
    true. *)
Lemma checkLimit_ignores_previous_hour :
  let w := Scenario.previousHourWorld in
  Spec.overlaps (World.now w) (RateLimit.mk 1 Scenario.phone Scenario.nineOClock
                                            Scenario.tenOClock 10) = true
  /\ Spec.check Scenario.phone 10 w = false
  /\ fst (RateLimitRepository.checkLimit Scenario.phone 10 w) = Ok true.
Proof. repeat split; reflexivity. Qed.

(* ===================================================================== *)
(** * 16. Facts about ingestion                                           *)
(* ===================================================================== *)

(** A request over the limit is rejected with a plain [Error] before anything is
    written. *)
Lemma createNotification_refused (notificationId traceId apiKey : string)
      (request : NotificationRequest.t) (w : World.t) :
  fst (RateLimitRepository.checkLimit (NotificationRequest.phone_number request) 10 w)
  = Ok false ->
  notificationService.createNotification notificationId traceId request apiKey w
  = (Throw (JsError.Error "Rate limit exceeded"), w).
Proof.
  intros H. unfold notificationService.createNotification, bind.
  rewrite checkLimit_eq in *. simpl in H. injection H as ->. reflexivity.
Qed.

(** The error handler has no status for it but 500. *)
Lemma postNotification_refused (production : bool)
      (notificationId traceId apiKey : string)
      (request : NotificationRequest.t) (w : World.t) :
  fst (RateLimitRepository.checkLimit (NotificationRequest.phone_number request) 10 w)
  = Ok false ->
  let '(reply, w') := postNotification production notificationId traceId request apiKey w in
  replyStatus reply = 500
  /\ World.notifications w' = World.notifications w
  /\ World.rateLimits w' = World.rateLimits w
  /\ World.queue w' = World.queue w.
Proof.
  intros H. unfold postNotification.
  rewrite (createNotification_refused _ _ _ _ _ H).
  unfold errorHandler. simpl. destruct production; simpl; auto.
Qed.

(** An accepted request with a fresh id: the row is written as [queued]
    with [scheduledFor] as given, one work item joins the queue, and the
    answer says [queued]. *)
Lemma createNotification_accepted (notificationId traceId apiKey : string)
      (request : NotificationRequest.t) (w : World.t) :
  fst (RateLimitRepository.checkLimit (NotificationRequest.phone_number request) 10 w)
  = Ok true ->
  World.notifications w !! notificationId = None ->
  exists w' n entry,
    notificationService.createNotification notificationId traceId request apiKey w
    = (Ok (mkCreated notificationId "queued"), w')
    /\ World.notifications w' !! notificationId = Some n
    /\ Notification.status n = queued
    /\ Notification.scheduledFor n = NotificationRequest.scheduled_for request
    /\ World.queue w' = World.queue w ++ [entry]
    /\ SQSMessagePayload.id (QueueEntry.MessageBody entry) = notificationId.
Proof.
  intros H Hfresh. unfold notificationService.createNotification, bind.
  rewrite checkLimit_eq in *. simpl in H. injection H as ->. simpl.
  unfold NotificationRepository.create. simpl. rewrite Hfresh.
  unfold RateLimitRepository.increment. simpl.
  destruct (find _ _); simpl;
    (eexists _, _, _; split; [reflexivity|]; simpl;
     split; [apply lookup_insert_eq|]; repeat split; reflexivity).
Qed.

(** C1: the code at the failing input.  A request scheduled two minutes
    ahead, for which the spec's initial state is [scheduled], is stored as
    [queued], published to the queue at once and answered with [queued];
    the promoter's query does not return it even after it fell due. *)
Theorem scheduled_request_is_queued_and_published :
  let '(result, w') :=
    notificationService.createNotification
      "id-1" "trace-1" Scenario.scheduledRequest "key-a" Scenario.emptyWorld in
  Spec.initialState (World.now Scenario.emptyWorld)
                    (NotificationRequest.scheduled_for Scenario.scheduledRequest)
  = scheduled
  /\ result = Ok (mkCreated "id-1" "queued")
  /\ Notification.status <$> (World.notifications w' !! "id-1") = Some queued
  /\ Notification.scheduledFor <$> (World.notifications w' !! "id-1")
     = Some (Some (Scenario.halfPastTen + 120000))
  /\ QueueEntry.MessageDeduplicationId <$> World.queue w' = ["id-1"]
  /\ fst (NotificationRepository.findScheduled
            100 (World.set_now (Scenario.halfPastTen + 180000) w')) = Ok [].
Proof. vm_compute. repeat split; reflexivity. Qed.

(** C4: the code at the failing input.  With ten messages already counted
    in the running hour the eleventh request is refused; the answer is 500
    with the generic code, its body has no retry-after field, and nothing is
    written. *)
Theorem rate_limited_request_answers_500 :
  let request := NotificationRequest.mk "order.placed" Scenario.phone None
                   (Some "order_confirmation") None None normal None in
  let '(reply, w') :=
    postNotification false "id-11" "trace-11" request "key-a" Scenario.saturatedWorld in
  fst (RateLimitRepository.checkLimit Scenario.phone 10 Scenario.saturatedWorld) = Ok false
  /\ reply = mkReply 500 (ErrorBody "Error" "Rate limit exceeded" (Some "INTERNAL_ERROR"))
  /\ replyStatus reply <> 429
  /\ World.notifications w' = World.notifications Scenario.saturatedWorld
  /\ World.rateLimits w' = World.rateLimits Scenario.saturatedWorld
  /\ World.queue w' = [].
Proof. vm_compute. repeat split; try reflexivity. discriminate. Qed.

(* ===================================================================== *)
(** * 17. Facts about the message processor                               *)
(* ===================================================================== *)

(** The spec-modelled delay against the values the unit tests expect for a
    1 s base without jitter. *)
Example calculateRetryDelay_unit_tests :
  calculateRetryDelay 1000 0 1 = 1000
  /\ calculateRetryDelay 1000 0 2 = 2000
  /\ calculateRetryDelay 1000 0 3 = 4000
  /\ calculateRetryDelay 1000 0 4 = 8000.
Proof. repeat split; reflexivity. Qed.

(** The delay stays within a quarter of the exponential term, and under the
    cap. *)
Lemma calculateRetryDelay_bounds (base jitter k : Z) :
  jitterWithin base k jitter ->
  let delay := calculateRetryDelay base jitter (k + 1) in
  delay <= max_delay
  /\ 4 * delay <= 5 * (base * 2 ^ k)
  /\ Z.min (3 * (base * 2 ^ k)) (4 * max_delay) <= 4 * delay.
Proof.
  unfold jitterWithin, calculateRetryDelay. intros H.
  replace (k + 1 - 1) with k by lia.
  set (term := base * 2 ^ k) in *. simpl. lia.
Qed.

(** The happy path of the spec's first scenario: queued, sent, one log. *)
Example processMessage_happy_path :
  let n := Scenario.row queued 0 None in
  let provider : Provider := fun _ => Ok (WhatsAppSendMessageResponse.mk ["wamid.Y"]) in
  let w' := snd (MessageProcessor.processMessage
                   (calculateRetryDelay 1000 0) provider
                   (MessageProcessor.messageOf n) (Scenario.worldWith n)) in
  Notification.status <$> (World.notifications w' !! "n-1") = Some sent
  /\ Notification.whatsappMessageId <$> (World.notifications w' !! "n-1")
     = Some (Some "wamid.Y")
  /\ (fun l => (DeliveryLog.status l, DeliveryLog.attemptNumber l))
       <$> World.deliveryLogs w' = [(sent, 1)].
Proof. vm_compute. repeat split; reflexivity. Qed.

(** The processor's first write is not guarded either: a duplicate work
    item for a notification that was already read is sent again. *)
Example processMessage_resends_read :
  let n := Scenario.sentRow read in
  let provider : Provider := fun _ => Ok (WhatsAppSendMessageResponse.mk ["wamid.Y"]) in
  let w' := snd (MessageProcessor.processMessage
                   (calculateRetryDelay 1000 0) provider
                   (MessageProcessor.messageOf n) (Scenario.worldWith n)) in
  Notification.status <$> (World.notifications w' !! "n-1") = Some sent.
Proof. reflexivity. Qed.


(** The other branch: the budget is spent or the error is not retryable. *)
Lemma handleError_give_up (calc : Z -> Z) (payload : SQSMessagePayload.t)
      (e : JsError.t) (startTime : Z) (w : World.t) (n : Notification.t) :
  WhatsAppClient.isRetryableError e = false
  \/ SQSMessagePayload.max_attempts payload <= SQSMessagePayload.attempt_number payload + 1 ->
  World.notifications w !! SQSMessagePayload.id payload = Some n ->
  exists n' w' l,
    MessageProcessor.handleError calc payload e startTime w = (Ok tt, w')
    /\ World.notifications w' !! SQSMessagePayload.id payload = Some n'
    /\ World.deliveryLogs w' = World.deliveryLogs w ++ [l]
    /\ DeliveryLog.status l = failed
    /\ Notification.status n' = failed
    /\ Notification.failedAt n' = Some (World.now w)
    /\ Notification.attemptNumber n' = Notification.attemptNumber n
    /\ Notification.nextRetryAt n' = Notification.nextRetryAt n.
Proof.
  intros Hc H. unfold MessageProcessor.handleError.
  assert (C : WhatsAppClient.isRetryableError e
              && (SQSMessagePayload.attempt_number payload + 1
                  <? SQSMessagePayload.max_attempts payload) = false).
  { destruct Hc as [->|Hc]; [reflexivity|].
    apply andb_false_iff. right. apply Z.ltb_ge. lia. }
  rewrite C. unfold_monad. simpl.
  unfold DeliveryLogRepository.create. simpl. rewrite H. simpl.
  unfold NotificationRepository.updateStatus. simpl. rewrite H. simpl.
  eexists _, _, _. split; [reflexivity|]. simpl.
  split; [apply lookup_insert_eq|]. repeat split; reflexivity.
Qed.

(** C6: the code at the failing input.  A notification on its fifth
    attempt of five meets a retryable 503, and one on its second attempt
    meets the permanent error 131026.  Both end [failed] with [failedAt]
    set and a failed log row, but [nextRetryAt] still holds the instant
    of the earlier retry, so the retry sweeper selects them again. *)
Theorem give_up_keeps_nextRetryAt :
  let due := Scenario.halfPastTen - 60000 in
  let run n e :=
    snd (MessageProcessor.processMessage
           (calculateRetryDelay 1000 0) (Scenario.rejecting e)
           (MessageProcessor.messageOf n) (Scenario.worldWith n)) in
  let outcome w :=
    (fun n => (Notification.status n, Notification.failedAt n,
               Notification.nextRetryAt n, Notification.attemptNumber n))
      <$> (World.notifications w !! "n-1") in
  let swept w :=
    fst (NotificationRepository.findReadyForRetry
           100 (World.set_now (Scenario.halfPastTen + 60000) w)) in
  let exhausted := run (Scenario.row failed 4 (Some due)) Scenario.unavailable in
  let permanent := run (Scenario.row failed 1 (Some due)) Scenario.invalidPhone in
  WhatsAppClient.isRetryableError Scenario.unavailable = true
  /\ WhatsAppClient.isRetryableError Scenario.invalidPhone = false
  /\ outcome exhausted = Some (failed, Some Scenario.halfPastTen, Some due, 4)
  /\ outcome permanent = Some (failed, Some Scenario.halfPastTen, Some due, 1)
  /\ DeliveryLog.status <$> World.deliveryLogs exhausted = [failed]
  /\ DeliveryLog.status <$> World.deliveryLogs permanent = [failed]
  /\ last (World.logs exhausted) = Some (mkLog error "Notification permanently failed")
  /\ (exists n, swept exhausted = Ok [n] /\ Notification.id n = "n-1")
  /\ (exists n, swept permanent = Ok [n] /\ Notification.id n = "n-1").
Proof.
  vm_compute. repeat split; try reflexivity; eexists; split; reflexivity.
Qed.




(** The sweeper does come back: one tick after the give-up, the exhausted
    notification is sent a sixth time and logs a second failure. *)
Example retry_sweeper_resends_after_give_up :
  let due := Scenario.halfPastTen - 60000 in
  let n := Scenario.row failed 4 (Some due) in
  let gaveUp :=
    snd (MessageProcessor.processMessage
           (calculateRetryDelay 1000 0) (Scenario.rejecting Scenario.unavailable)
           (MessageProcessor.messageOf n) (Scenario.worldWith n)) in
  let swept :=
    snd (MessageProcessor.processRetries
           (calculateRetryDelay 1000 0) (Scenario.rejecting Scenario.unavailable)
           (World.set_now (Scenario.halfPastTen + 60000) gaveUp)) in
  (fun l => (DeliveryLog.status l, DeliveryLog.attemptNumber l))
    <$> World.deliveryLogs swept = [(failed, 5); (failed, 5)].
Proof. reflexivity. Qed.

(** The work item of the request scheduled two minutes ahead is sent by the
    worker as soon as it is received. *)
Example scheduled_request_is_sent_at_once :
  let w :=
    snd (notificationService.createNotification
           "id-1" "trace-1" Scenario.scheduledRequest "key-a" Scenario.emptyWorld) in
  let provider : Provider := fun _ => Ok (WhatsAppSendMessageResponse.mk ["wamid.Y"]) in
  let sentWorld :=
    snd (forOf (World.queue w)
           (fun item => MessageProcessor.processMessage
                          (calculateRetryDelay 1000 0) provider
                          (Message.mk (Some (Message.json (QueueEntry.MessageBody item))))) w) in
  (fun n => (Notification.status n, Notification.sentAt n, Notification.scheduledFor n))
    <$> (World.notifications sentWorld !! "id-1")
  = Some (sent, Some Scenario.halfPastTen, Some (Scenario.halfPastTen + 120000)).
Proof. reflexivity. Qed.

(** Past the sixth doubling the spec-modelled delay for a 1 s base leaves
    the 60 s the unit test allows at attempt 10; the processor, with five
    attempts at most, asks for attempts 1 to 4 only. *)
Example calculateRetryDelay_attempt_10 :
  calculateRetryDelay 1000 0 10 = 512000.
Proof. reflexivity. Qed.

(* ===================================================================== *)
(** * 18. More on the rate limiter                                        *)
(* ===================================================================== *)












Lemma hourStart_aligned (offset now : Z) :
  (RateLimitRepository.hourStart offset now + offset) mod hourMs = 0.
Proof.
  unfold RateLimitRepository.hourStart, hourMs.
  replace (now - (now + offset) mod (60 * 60 * 1000) + offset)
    with (now + offset - (now + offset) mod (60 * 60 * 1000)) by lia.
  rewrite Zminus_mod_idemp_r. now rewrite Z.sub_diag.
Qed.

Lemma windowKey_bump (i : Z) (rs : list RateLimit.t) :
  windowKey <$> List.map (fun r => if RateLimit.id r =? i
                                   then RateLimitRepository.bump r else r) rs
  = windowKey <$> rs.
Proof.
  induction rs as [|r rs IH]; [reflexivity|].
  simpl. f_equal; [|exact IH].
  destruct (RateLimit.id r =? i); reflexivity.
Qed.

(** X2. [increment] keeps the shape of the table, whatever the offset of
    local time from UTC: every window is one hour long, began by [now] and
    starts on a full hour of the local clock, and no recipient has two
    rows for one hour.  It also keeps the ids as a serial key gives them:
    distinct, none ahead of the sequence. *)
Theorem increment_keeps_hourly_store (phone : string) (w : World.t) :
  hourlyStore (World.timezoneOffset w) (World.now w) (World.rateLimits w) ->
  let w' := snd (RateLimitRepository.increment phone w) in
  hourlyStore (World.timezoneOffset w') (World.now w') (World.rateLimits w')
  /\ World.timezoneOffset w' = World.timezoneOffset w
  /\ World.now w' = World.now w
  /\ (serialIds w -> serialIds w').
Proof.
  intros [Hc Hk]. unfold RateLimitRepository.increment.
  destruct (find _ _) as [existing|] eqn:Ef; simpl.
  - split; [split|split; [reflexivity|split; [reflexivity|]]].
    + apply List.Forall_forall. intros r Hr.
      apply List.in_map_iff in Hr as (r0 & <- & Hr0).
      rewrite List.Forall_forall in Hc. specialize (Hc _ Hr0).
      destruct (RateLimit.id r0 =? RateLimit.id existing); exact Hc.
    + now rewrite windowKey_bump.
    + intros [Hnd Hseq]. split; simpl.
      * replace (RateLimit.id <$> List.map _ (World.rateLimits w))
          with (RateLimit.id <$> World.rateLimits w); [exact Hnd|].
        clear. induction (World.rateLimits w) as [|r rs IH]; [reflexivity|].
        simpl. f_equal; [|exact IH].
        destruct (RateLimit.id r =? RateLimit.id existing); reflexivity.
      * apply List.Forall_forall. intros r Hr.
        apply List.in_map_iff in Hr as (r0 & <- & Hr0).
        rewrite List.Forall_forall in Hseq. specialize (Hseq _ Hr0).
        destruct (RateLimit.id r0 =? RateLimit.id existing); exact Hseq.
  - split; [split|split; [reflexivity|split; [reflexivity|]]].
    + apply List.Forall_app. split; [exact Hc|].
      constructor; [|constructor]. split; [split|]; simpl.
      * reflexivity.
      * apply hourStart_le.
      * apply hourStart_aligned.
    + rewrite fmap_app. apply NoDup_app. split; [exact Hk|]. split.
      * intros k Hin Hnew. apply list_elem_of_singleton in Hnew. subst k.
        apply list_elem_of_fmap in Hin as (r & Hkey & Hr).
        apply list_elem_of_In in Hr.
        apply (List.find_none _ _ Ef) in Hr.
        unfold windowKey in Hkey. simpl in Hkey. injection Hkey as Hp Hs.
        unfold RateLimitRepository.sameWindow in Hr.
        rewrite <- Hp, <- Hs, String.eqb_refl, Z.eqb_refl in Hr. discriminate.
      * apply NoDup_singleton.
    + intros [Hnd Hseq]. split; simpl.
      * rewrite fmap_app. apply NoDup_app. split; [exact Hnd|]. split.
        -- intros i Hin Hnew. apply list_elem_of_singleton in Hnew. subst i.
           apply list_elem_of_fmap in Hin as (r & Hi & Hr).
           apply list_elem_of_In in Hr.
           rewrite List.Forall_forall in Hseq. specialize (Hseq _ Hr).
           simpl in Hi. lia.
        -- apply NoDup_singleton.
      * apply List.Forall_app. split.
        -- eapply List.Forall_impl; [|exact Hseq]. simpl. intros; lia.
        -- constructor; [simpl; lia|constructor].
Qed.

(** The witness runs under UTC+05:30, where the hours of the local clock
    begin on the half hours of UTC. *)
Lemma increment_keeps_hourly_store_witness :
  let w := World.mk ∅ [] [RateLimit.mk 1 Scenario.phone 34200000 37800000 10] 1
                    [] [] Scenario.halfPastTen 19800000 in
  let w' := snd (RateLimitRepository.increment Scenario.phone w) in
  hourlyStore (World.timezoneOffset w') (World.now w') (World.rateLimits w')
  /\ World.timezoneOffset w' = World.timezoneOffset w
  /\ World.now w' = World.now w
  /\ (serialIds w -> serialIds w').
Proof.
  apply (increment_keeps_hourly_store
           Scenario.phone
           (World.mk ∅ [] [RateLimit.mk 1 Scenario.phone 34200000 37800000 10] 1
                     [] [] Scenario.halfPastTen 19800000)).
  split.
  - repeat constructor; vm_compute; congruence.
  - vm_compute. repeat constructor. intros H. inversion H.
Defined.

Lemma latest_None (rs : list RateLimit.t) :
  RateLimitRepository.latest rs = None -> rs = [].
Proof.
  destruct rs as [|r rs]; [reflexivity|]. simpl.
  destruct (RateLimitRepository.latest rs) as [b|]; [|discriminate].
  destruct (_ <? _); discriminate.
Qed.


(** The row [getRetryAfter] reads ends last among the running ones. *)
Lemma latest_greatest (rs : list RateLimit.t) (r : RateLimit.t) :
  RateLimitRepository.latest rs = Some r ->
  forall x, In x rs -> RateLimit.windowEnd x <= RateLimit.windowEnd r.
Proof.
  revert r. induction rs as [|y rs IH]; intros r; simpl; [discriminate|].
  destruct (RateLimitRepository.latest rs) as [b|] eqn:Eb.
  - destruct (Z.ltb_spec (RateLimit.windowEnd b) (RateLimit.windowEnd y));
      intros [= <-] x [<-|Hx]; try lia.
    + specialize (IH b eq_refl x Hx). lia.
    + now apply IH.
  - apply latest_None in Eb. subst rs. intros [= <-] x [<-|[]]. lia.
Qed.





Lemma filter_filter_implied {A} (P Q : A -> bool) (l : list A) :
  (forall x, In x l -> P x = true -> Q x = true) ->
  List.filter P (List.filter Q l) = List.filter P l.
Proof.
  induction l as [|x l IH]; intros H; [reflexivity|]. simpl.
  destruct (Q x) eqn:EQ; simpl.
  - rewrite IH; [reflexivity|]. intros y Hy. apply H. now right.
  - destruct (P x) eqn:EP.
    + rewrite (H x (or_introl eq_refl) EP) in EQ. discriminate.
    + apply IH. intros y Hy. apply H. now right.
Qed.

Lemma filter_split_length {A} (P : A -> bool) (l : list A) :
  (length (List.filter P l) + length (List.filter (fun x => negb (P x)) l))%nat
  = length l.
Proof.
  induction l as [|x l IH]; [reflexivity|]. simpl.
  destruct (P x); simpl; lia.
Qed.

(** X4. [cleanup] returns the number of rows it deleted, deletes exactly
    the windows that ended before the bound, and, for a bound that is not
    in the future (the default of seven days ago is one), changes neither
    the outcome of [checkLimit] nor what [getRetryAfter] reports. *)
Theorem cleanup_keeps_running_windows (olderThan : option Z) (w : World.t) :
  let bound := default (World.now w - 7 * 24 * 60 * 60 * 1000) olderThan in
  bound <= World.now w ->
  exists deleted w',
    RateLimitRepository.cleanup olderThan w = (Ok deleted, w')
    /\ deleted + Z.of_nat (length (World.rateLimits w'))
       = Z.of_nat (length (World.rateLimits w))
    /\ (forall r, In r (World.rateLimits w')
                  <-> In r (World.rateLimits w) /\ bound <= RateLimit.windowEnd r)
    /\ (forall phone limitPerHour,
           fst (RateLimitRepository.checkLimit phone limitPerHour w')
           = fst (RateLimitRepository.checkLimit phone limitPerHour w))
    /\ (forall phone,
           fst (RateLimitRepository.getRetryAfter phone w')
           = fst (RateLimitRepository.getRetryAfter phone w)).
Proof.
  intros bound Hb. unfold RateLimitRepository.cleanup. fold bound.
  eexists _, _. split; [reflexivity|].
  split; [|split; [|split]].
  - simpl.
    pose proof (filter_split_length (RateLimitRepository.expired bound)
                                    (World.rateLimits w)). lia.
  - intros r. simpl. rewrite List.filter_In. unfold RateLimitRepository.expired.
    destruct (Z.ltb_spec (RateLimit.windowEnd r) bound); simpl; split;
      intros [? ?]; split; auto; try discriminate; lia.
  - intros phone limitPerHour. rewrite !checkLimit_eq. simpl.
    rewrite filter_filter_implied; [reflexivity|].
    intros r _. unfold RateLimitRepository.counted, RateLimitRepository.expired.
    intros H. apply andb_true_iff in H as [H _]. apply andb_true_iff in H as [_ H].
    apply Z.ltb_lt in H. apply negb_true_iff, Z.ltb_ge. lia.
  - intros phone. unfold RateLimitRepository.getRetryAfter. simpl.
    rewrite filter_filter_implied; [now destruct (RateLimitRepository.latest _)|].
    intros r _. unfold RateLimitRepository.running, RateLimitRepository.expired.
    intros H. apply andb_true_iff in H as [_ H].
    apply Z.ltb_lt in H. apply negb_true_iff, Z.ltb_ge. lia.
Qed.

Lemma cleanup_keeps_running_windows_witness :
  exists deleted w',
    RateLimitRepository.cleanup None Scenario.previousHourWorld = (Ok deleted, w')
    /\ deleted + Z.of_nat (length (World.rateLimits w'))
       = Z.of_nat (length (World.rateLimits Scenario.previousHourWorld))
    /\ (forall r, In r (World.rateLimits w')
                  <-> In r (World.rateLimits Scenario.previousHourWorld)
                      /\ World.now Scenario.previousHourWorld - 7 * 24 * 60 * 60 * 1000
                         <= RateLimit.windowEnd r)
    /\ (forall phone limitPerHour,
           fst (RateLimitRepository.checkLimit phone limitPerHour w')
           = fst (RateLimitRepository.checkLimit phone limitPerHour
                                                 Scenario.previousHourWorld))
    /\ (forall phone,
           fst (RateLimitRepository.getRetryAfter phone w')
           = fst (RateLimitRepository.getRetryAfter phone Scenario.previousHourWorld)).
Proof.
  apply (cleanup_keeps_running_windows None Scenario.previousHourWorld).
  simpl. lia.
Defined.

(* ===================================================================== *)
(** * 19. More on ingestion                                               *)
(* ===================================================================== *)

(** [increment] always fulfils and touches the counters only. *)
Lemma increment_frame (phone : string) (w : World.t) :
  exists r rs seq,
    RateLimitRepository.increment phone w
    = (Ok r, World.set_rateLimits (fun _ => rs) (World.set_rateLimitSeq seq w)).
Proof.
  unfold RateLimitRepository.increment.
  destruct (find _ _).
  - exists (RateLimitRepository.bump t), 
      (List.map (fun r => if RateLimit.id r =? RateLimit.id t
                          then RateLimitRepository.bump r else r) (World.rateLimits w)),
      (World.rateLimitSeq w).
    now destruct w.
  - eexists _, _, _. reflexivity.
Qed.


(** When it fulfils, the answer is the drawn id and [queued]. *)
Lemma createNotification_fulfilled (notificationId traceId apiKey : string)
      (request : NotificationRequest.t) (w w' : World.t) (c : Created) :
  notificationService.createNotification notificationId traceId request apiKey w
  = (Ok c, w') ->
  c = mkCreated notificationId "queued".
Proof.
  unfold notificationService.createNotification, bind.
  destruct (RateLimitRepository.checkLimit _ _ w) as [[[|]|?] ?];
    simpl; try discriminate.
  destruct (NotificationRepository.create _ _) as [[?|?] ?]; try discriminate.
  destruct (RateLimitRepository.increment _ _) as [[?|?] ?]; try discriminate.
  unfold sqsService.publishMessage, sqsService.send.
  unfold_monad. simpl. now intros [= <- _].
Qed.

(** The loop of the bulk path: it always fulfils, every entry ends in
    exactly one of the two lists, the failures carry the entries' own
    indices in increasing order, and every success says [queued]. *)
Lemma bulkLoop_accounts (uuid : nat -> string * string) (apiKey : string)
      (requests : list NotificationRequest.t) :
  forall (i : nat) (results : notificationService.BulkResult.t) (w : World.t),
  exists res w' newOk newFailed,
    notificationService.bulkLoop uuid apiKey i requests results w = (Ok res, w')
    /\ notificationService.BulkResult.successful res
       = notificationService.BulkResult.successful results ++ newOk
    /\ notificationService.BulkResult.failed res
       = notificationService.BulkResult.failed results ++ newFailed
    /\ (length newOk + length newFailed = length requests)%nat
    /\ Forall (fun c => created_status c = "queued") newOk
    /\ Forall (fun f => (i <= notificationService.index f < i + length requests)%nat)
              newFailed
    /\ StronglySorted lt (notificationService.index <$> newFailed).
Proof.
  induction requests as [|request rest IH]; intros i results w; simpl.
  - exists results, w, [], []. rewrite !app_nil_r.
    repeat split; auto; constructor.
  - unfold bind at 1, tryCatch, bind, ret.
    destruct (notificationService.createNotification _ _ request apiKey w)
      as [[c|e] w1] eqn:Ec.
    + assert (Hq : created_status c = "queued").
      { now rewrite (createNotification_fulfilled _ _ _ _ _ _ _ Ec). }
      destruct (IH (S i) (notificationService.BulkResult.mk
                            (notificationService.BulkResult.successful results ++ [c])
                            (notificationService.BulkResult.failed results)) w1)
        as (res & w' & ok & bad & E & Hs & Hf & Hlen & Hok & Hidx & Hsort).
      exists res, w', (c :: ok), bad. simpl in *.
      rewrite E, Hs, Hf, <- app_assoc. simpl.
      split; [reflexivity|]. split; [reflexivity|]. split; [reflexivity|].
      split; [lia|]. split; [now constructor|]. split; [|exact Hsort].
      eapply List.Forall_impl; [|exact Hidx]. simpl. intros; lia.
    + destruct (IH (S i) (notificationService.BulkResult.mk
                            (notificationService.BulkResult.successful results)
                            (notificationService.BulkResult.failed results
                             ++ [notificationService.mkBulkFailure i (JsError.message e)])) w1)
        as (res & w' & ok & bad & E & Hs & Hf & Hlen & Hok & Hidx & Hsort).
      exists res, w', ok, (notificationService.mkBulkFailure i (JsError.message e) :: bad).
      simpl in *. rewrite E, Hs, Hf, <- app_assoc. simpl.
      split; [reflexivity|]. split; [reflexivity|]. split; [reflexivity|].
      split; [lia|]. split; [exact Hok|]. split.
      * constructor; [simpl; lia|].
        eapply List.Forall_impl; [|exact Hidx]. simpl. intros; lia.
      * constructor; [exact Hsort|].
        apply List.Forall_forall. intros j Hj.
        apply list_elem_of_In, list_elem_of_fmap in Hj as (f & -> & Hf').
        apply list_elem_of_In in Hf'.
        rewrite List.Forall_forall in Hidx. specialize (Hidx _ Hf'). lia.
Qed.

(** Entry by entry: what the loop reports for position [j] is the outcome
    of that entry's own run, in the world the entries before it left. *)
Lemma bulkLoop_positions (uuid : nat -> string * string) (apiKey : string)
      (requests : list NotificationRequest.t) :
  forall (i0 : nat) (results res : notificationService.BulkResult.t) (w w' : World.t),
  notificationService.bulkLoop uuid apiKey i0 requests results w = (Ok res, w') ->
  forall (j : nat) (request : NotificationRequest.t),
  requests !! j = Some request ->
  match notificationService.createNotification
          (fst (uuid (i0 + j)%nat)) (snd (uuid (i0 + j)%nat)) request apiKey
          (snd (notificationService.bulkLoop uuid apiKey i0 (take j requests) results w))
  with
  | (Ok c, _) =>
      In c (notificationService.BulkResult.successful res)
      /\ forall msg,
           In (notificationService.mkBulkFailure (i0 + j) msg)
              (notificationService.BulkResult.failed res) ->
           In (notificationService.mkBulkFailure (i0 + j) msg)
              (notificationService.BulkResult.failed results)
  | (Throw e, _) =>
      In (notificationService.mkBulkFailure (i0 + j) (JsError.message e))
         (notificationService.BulkResult.failed res)
  end.
Proof.
  induction requests as [|first rest IH]; intros i0 results res w w' Hrun j request Hj;
    [discriminate|].
  simpl in Hrun. unfold bind at 1, tryCatch, bind, ret in Hrun.
  destruct j as [|j].
  - injection Hj as ->. simpl. rewrite Nat.add_0_r.
    destruct (notificationService.createNotification _ _ request apiKey w)
      as [[c|e] w1] eqn:Ec.
    + destruct (bulkLoop_accounts uuid apiKey rest (S i0)
                  (notificationService.BulkResult.mk
                     (notificationService.BulkResult.successful results ++ [c])
                     (notificationService.BulkResult.failed results)) w1)
        as (res1 & w2 & ok & bad & E & Hs & Hf & _ & _ & Hidx & _).
      rewrite E in Hrun. injection Hrun as <- _. simpl in Hs, Hf. split.
      * rewrite Hs. apply List.in_or_app. left. apply List.in_or_app. right. now left.
      * intros msg Hin. rewrite Hf in Hin.
        apply List.in_app_or in Hin as [Hin|Hin]; [exact Hin|].
        rewrite List.Forall_forall in Hidx. specialize (Hidx _ Hin). simpl in Hidx. lia.
    + destruct (bulkLoop_accounts uuid apiKey rest (S i0)
                  (notificationService.BulkResult.mk
                     (notificationService.BulkResult.successful results)
                     (notificationService.BulkResult.failed results
                      ++ [notificationService.mkBulkFailure i0 (JsError.message e)])) w1)
        as (res1 & w2 & ok & bad & E & Hs & Hf & _).
      rewrite E in Hrun. injection Hrun as <- _. simpl in Hf.
      rewrite Hf. apply List.in_or_app. left. apply List.in_or_app. right. now left.
  - simpl in Hj. simpl. unfold bind at 1, tryCatch, bind, ret.
    replace (i0 + S j)%nat with (S i0 + j)%nat by lia.
    destruct (notificationService.createNotification _ _ first apiKey w)
      as [[c|e] w1] eqn:Ec.
    + specialize (IH (S i0) _ res w1 w' Hrun j request Hj).
      destruct (notificationService.createNotification _ _ request apiKey _)
        as [[c'|e'] w2]; [|exact IH].
      destruct IH as [Hc Hnone]. split; [exact Hc|exact Hnone].
    + specialize (IH (S i0) _ res w1 w' Hrun j request Hj).
      destruct (notificationService.createNotification _ _ request apiKey _)
        as [[c'|e'] w2]; [|exact IH].
      destruct IH as [Hc Hnone]. split; [exact Hc|].
      intros msg Hin. specialize (Hnone msg Hin). simpl in Hnone.
      apply List.in_app_or in Hnone as [Hold|[Hnew|[]]]; [exact Hold|].
      injection Hnew as Hidx _. lia.
Qed.

(** X5. The bulk path never rejects: every entry is reported exactly once,
    as a success carrying [queued] or as a failure carrying the entry's own
    index, and the failures come in increasing order of index.  Position
    by position: when the run of entry [i], in the world the entries before
    it left, fulfils, its answer is among the successes and no failure
    carries [i]; when it rejects, the failure with index [i] and that
    error's message is among the failures. *)
Theorem createBulkNotifications_reports_every_entry
        (uuid : nat -> string * string) (requests : list NotificationRequest.t)
        (apiKey : string) (w : World.t) :
  exists res w',
    notificationService.createBulkNotifications uuid requests apiKey w = (Ok res, w')
    /\ (length (notificationService.BulkResult.successful res)
        + length (notificationService.BulkResult.failed res) = length requests)%nat
    /\ Forall (fun c => created_status c = "queued")
              (notificationService.BulkResult.successful res)
    /\ Forall (fun f => (notificationService.index f < length requests)%nat)
              (notificationService.BulkResult.failed res)
    /\ StronglySorted lt
         (notificationService.index <$> notificationService.BulkResult.failed res)
    /\ forall (i : nat) (request : NotificationRequest.t),
         requests !! i = Some request ->
         match notificationService.createNotification
                 (fst (uuid i)) (snd (uuid i)) request apiKey
                 (bulkWorldAt uuid apiKey requests i w)
         with
         | (Ok c, _) =>
             In c (notificationService.BulkResult.successful res)
             /\ forall msg,
                  ~ In (notificationService.mkBulkFailure i msg)
                       (notificationService.BulkResult.failed res)
         | (Throw e, _) =>
             In (notificationService.mkBulkFailure i (JsError.message e))
                (notificationService.BulkResult.failed res)
         end.
Proof.
  unfold notificationService.createBulkNotifications.
  destruct (bulkLoop_accounts uuid apiKey requests 0
              (notificationService.BulkResult.mk [] []) w)
    as (res & w' & ok & bad & E & Hs & Hf & Hlen & Hok & Hidx & Hsort).
  pose proof (bulkLoop_positions uuid apiKey requests 0 _ res w w' E) as Hpos.
  unfold_monad. rewrite E. simpl in Hs, Hf, Hidx.
  eexists _, _. split; [reflexivity|]. rewrite Hs, Hf.
  split; [exact Hlen|]. split; [exact Hok|]. split; [|split; [exact Hsort|]].
  - eapply List.Forall_impl; [|exact Hidx]. simpl. intros; lia.
  - intros i request Hi. specialize (Hpos i request Hi). simpl in Hpos.
    unfold bulkWorldAt. rewrite <- Hs, <- Hf.
    destruct (notificationService.createNotification _ _ request apiKey _)
      as [[c|e] w1]; [|exact Hpos].
    destruct Hpos as [Hc Hnone]. split; [exact Hc|].
    intros msg Hin. exact (Hnone msg Hin).
Qed.




(** Two of three entries pass when eight of ten are used up. *)
Example bulk_third_entry_refused :
  let request := NotificationRequest.mk "order.placed" Scenario.phone None
                   (Some "order_confirmation") None None normal None in
  let uuid (i : nat) := (toString (Z.of_nat i), "trace") in
  let w := World.set_rateLimits
             (fun _ => [RateLimit.mk 1 Scenario.phone Scenario.tenOClock
                                     (Scenario.tenOClock + hourMs) 8])
             Scenario.emptyWorld in
  fst (notificationService.createBulkNotifications uuid [request; request; request]
                                                   "key-a" w)
  = Ok (notificationService.BulkResult.mk
          [mkCreated "0" "queued"; mkCreated "1" "queued"]
          [notificationService.mkBulkFailure 2 "Rate limit exceeded"]).
Proof. reflexivity. Qed.

Lemma orString_same (s : string) : orString (Some s) s = s.
Proof. unfold orString. now destruct (String.eqb s ""). Qed.

(** X7. The work item an accepted request puts on the queue is the one the
    sweepers would build from the stored row: same id, same content, attempt
    0 of 5; it is deduplicated by the notification id and grouped under
    [default]. *)
Theorem accepted_request_work_item_matches_row
        (notificationId traceId apiKey : string)
        (request : NotificationRequest.t) (w : World.t) :
  fst (RateLimitRepository.checkLimit (NotificationRequest.phone_number request) 10 w)
  = Ok true ->
  World.notifications w !! notificationId = None ->
  exists w' n entry,
    notificationService.createNotification notificationId traceId request apiKey w
    = (Ok (mkCreated notificationId "queued"), w')
    /\ World.notifications w' = <[notificationId := n]> (World.notifications w)
    /\ World.queue w' = World.queue w ++ [entry]
    /\ Message.mk (Some (Message.json (QueueEntry.MessageBody entry)))
       = MessageProcessor.messageOf n
    /\ QueueEntry.MessageDeduplicationId entry = notificationId
    /\ QueueEntry.MessageGroupId entry = "default"
    /\ Notification.id n = notificationId
    /\ Notification.tenantId n = apiKey
    /\ Notification.recipientPhone n = NotificationRequest.phone_number request
    /\ Notification.attemptNumber n = 0
    /\ Notification.maxAttempts n = 5
    /\ Notification.nextRetryAt n = None.
Proof.
  intros H Hfresh.
  unfold notificationService.createNotification, sqsService.publishMessage.
  cbn [SQSMessage.deduplicationId SQSMessage.id SQSMessage.groupId SQSMessage.body].
  rewrite orString_same. unfold bind.
  rewrite checkLimit_eq in *. simpl in H. injection H as ->. simpl.
  unfold NotificationRepository.create. simpl. rewrite Hfresh.
  unfold RateLimitRepository.increment. simpl.
  destruct (find _ _); simpl;
    (eexists _, _, _; split; [reflexivity|]; simpl;
     repeat split; reflexivity).
Qed.

Lemma accepted_request_work_item_matches_row_witness :
  exists w' n entry,
    notificationService.createNotification
      "id-1" "trace-1" Scenario.scheduledRequest "key-a" Scenario.emptyWorld
    = (Ok (mkCreated "id-1" "queued"), w')
    /\ World.notifications w' = <["id-1" := n]> (World.notifications Scenario.emptyWorld)
    /\ World.queue w' = World.queue Scenario.emptyWorld ++ [entry]
    /\ Message.mk (Some (Message.json (QueueEntry.MessageBody entry)))
       = MessageProcessor.messageOf n
    /\ QueueEntry.MessageDeduplicationId entry = "id-1"
    /\ QueueEntry.MessageGroupId entry = "default"
    /\ Notification.id n = "id-1"
    /\ Notification.tenantId n = "key-a"
    /\ Notification.recipientPhone n
       = NotificationRequest.phone_number Scenario.scheduledRequest
    /\ Notification.attemptNumber n = 0
    /\ Notification.maxAttempts n = 5
    /\ Notification.nextRetryAt n = None.
Proof.
  apply (accepted_request_work_item_matches_row
           "id-1" "trace-1" "key-a" Scenario.scheduledRequest Scenario.emptyWorld);
    reflexivity.
Defined.

(* ===================================================================== *)
(** * 20. More on the message processor                                   *)
(* ===================================================================== *)

(** What [handleError] does to a stored row, in either branch. *)
Lemma handleError_outcome (calc : Z -> Z) (payload : SQSMessagePayload.t)
      (e : JsError.t) (startTime : Z) (w : World.t) (n : Notification.t) :
  World.notifications w !! SQSMessagePayload.id payload = Some n ->
  exists n' w' l,
    MessageProcessor.handleError calc payload e startTime w = (Ok tt, w')
    /\ World.deliveryLogs w' = World.deliveryLogs w ++ [l]
    /\ DeliveryLog.notificationId l = SQSMessagePayload.id payload
    /\ DeliveryLog.attemptNumber l = SQSMessagePayload.attempt_number payload + 1
    /\ DeliveryLog.status l = failed
    /\ World.notifications w'
       = <[SQSMessagePayload.id payload := n']> (World.notifications w)
    /\ World.rateLimits w' = World.rateLimits w
    /\ World.queue w' = World.queue w
    /\ World.now w' = World.now w
    /\ Notification.status n' = failed
    /\ Notification.id n' = Notification.id n
    /\ Notification.maxAttempts n' = Notification.maxAttempts n
    /\ Notification.whatsappMessageId n' = Notification.whatsappMessageId n
    /\ Notification.errorMessage n' = Some (JsError.message e)
    /\ (if WhatsAppClient.isRetryableError e
           && (SQSMessagePayload.attempt_number payload + 1
               <? SQSMessagePayload.max_attempts payload)
        then Notification.attemptNumber n' = Notification.attemptNumber n + 1
             /\ Notification.nextRetryAt n'
                = Some (World.now w
                        + calc (SQSMessagePayload.attempt_number payload + 1))
             /\ Notification.failedAt n' = Notification.failedAt n
        else Notification.attemptNumber n' = Notification.attemptNumber n
             /\ Notification.nextRetryAt n' = Notification.nextRetryAt n
             /\ Notification.failedAt n' = Some (World.now w)).
Proof.
  intros H. unfold MessageProcessor.handleError.
  destruct (WhatsAppClient.isRetryableError e
            && (SQSMessagePayload.attempt_number payload + 1
                <? SQSMessagePayload.max_attempts payload)) eqn:C;
    unfold_monad; simpl;
    unfold DeliveryLogRepository.create; simpl; rewrite H; simpl;
    unfold NotificationRepository.updateStatus; simpl; rewrite H; simpl.
  - unfold NotificationRepository.incrementAttempt. simpl.
    rewrite lookup_insert_eq. simpl.
    eexists _, _, _. split; [reflexivity|]. simpl.
    do 4 (split; [reflexivity|]).
    split; [apply insert_insert_eq|]. repeat split; reflexivity.
  - eexists _, _, _. split; [reflexivity|]. simpl.
    repeat split; reflexivity.
Qed.

(** The processor on a work item whose row exists. *)
Lemma processMessage_outcome (calc : Z -> Z) (provider : Provider)
      (payload : SQSMessagePayload.t) (w : World.t) (n : Notification.t) :
  World.notifications w !! SQSMessagePayload.id payload = Some n ->
  exists n' w' l,
    MessageProcessor.processMessage calc provider (Message.mk (Some (Message.json payload))) w
    = (Ok tt, w')
    /\ World.deliveryLogs w' = World.deliveryLogs w ++ [l]
    /\ DeliveryLog.notificationId l = SQSMessagePayload.id payload
    /\ DeliveryLog.attemptNumber l = SQSMessagePayload.attempt_number payload + 1
    /\ World.notifications w'
       = <[SQSMessagePayload.id payload := n']> (World.notifications w)
    /\ World.rateLimits w' = World.rateLimits w
    /\ World.queue w' = World.queue w
    /\ Notification.status n' = DeliveryLog.status l
    /\ (Notification.status n' = sent \/ Notification.status n' = failed)
    /\ (Notification.status n' = sent
        <-> hasContent payload = true /\ exists r, provider payload = Ok r)
    /\ Notification.id n' = Notification.id n
    /\ Notification.maxAttempts n' = Notification.maxAttempts n
    /\ (Notification.attemptNumber n' = Notification.attemptNumber n
        \/ Notification.attemptNumber n' = Notification.attemptNumber n + 1
           /\ SQSMessagePayload.attempt_number payload + 1
              < SQSMessagePayload.max_attempts payload).
Proof.
  intros H. unfold MessageProcessor.processMessage.
  cbn [Message.Body].
  set (h := MessageProcessor.handleError calc payload).
  set (n1 := NotificationRepository.withStatus n processing StatusUpdates.empty).
  assert (Hfail : forall (e : JsError.t) (v : World.t),
             World.notifications v
             = <[SQSMessagePayload.id payload := n1]> (World.notifications w) ->
             World.deliveryLogs v = World.deliveryLogs w ->
             World.rateLimits v = World.rateLimits w ->
             World.queue v = World.queue w ->
             ~ (hasContent payload = true /\ exists r, provider payload = Ok r) ->
             exists n' w' l,
               h e (World.now w) v = (Ok tt, w')
               /\ World.deliveryLogs w' = World.deliveryLogs w ++ [l]
               /\ DeliveryLog.notificationId l = SQSMessagePayload.id payload
               /\ DeliveryLog.attemptNumber l = SQSMessagePayload.attempt_number payload + 1
               /\ World.notifications w'
                  = <[SQSMessagePayload.id payload := n']> (World.notifications w)
               /\ World.rateLimits w' = World.rateLimits w
               /\ World.queue w' = World.queue w
               /\ Notification.status n' = DeliveryLog.status l
               /\ (Notification.status n' = sent \/ Notification.status n' = failed)
               /\ (Notification.status n' = sent
                   <-> hasContent payload = true /\ exists r, provider payload = Ok r)
               /\ Notification.id n' = Notification.id n
               /\ Notification.maxAttempts n' = Notification.maxAttempts n
               /\ (Notification.attemptNumber n' = Notification.attemptNumber n
                   \/ Notification.attemptNumber n' = Notification.attemptNumber n + 1
                      /\ SQSMessagePayload.attempt_number payload + 1
                         < SQSMessagePayload.max_attempts payload)).
  { intros e v Hv Hlogs Hrl Hq Hnot. unfold h.
    destruct (handleError_outcome calc payload e (World.now w) v n1)
      as (n' & w' & l & E & Hl & Hl1 & Hl2 & Hl3 & Hn & Hr & Hq' & _ & Hst & Hid
          & Hmax & _ & _ & Hbranch).
    { rewrite Hv. apply lookup_insert_eq. }
    exists n', w', l. split; [exact E|].
    split; [now rewrite Hl, Hlogs|]. split; [exact Hl1|]. split; [exact Hl2|].
    split; [now rewrite Hn, Hv, insert_insert_eq|].
    split; [congruence|]. split; [congruence|]. split; [congruence|].
    split; [now right|].
    split; [split; [rewrite Hst; discriminate|intros Hc; now elim Hnot]|].
    split; [exact Hid|]. split; [exact Hmax|].
    destruct (WhatsAppClient.isRetryableError e
              && (SQSMessagePayload.attempt_number payload + 1
                  <? SQSMessagePayload.max_attempts payload)) eqn:C.
    - right. destruct Hbranch as (Ha & _). split; [exact Ha|].
      apply andb_true_iff in C as [_ C]. now apply Z.ltb_lt.
    - left. now destruct Hbranch. }
  unfold MessageProcessor.sendWhatsAppMessage, WhatsAppClient.sendMessage, hasContent in *.
  unfold_monad. simpl.
  unfold NotificationRepository.updateStatus at 1. simpl. rewrite H. simpl.
  fold n1.
  destruct (provider payload) as [response|e] eqn:Ep.
  - destruct (SQSMessagePayload.template payload) as [t|] eqn:Et;
      [|destruct (SQSMessagePayload.message payload) as [m|] eqn:Em].
    1, 2: simpl;
      unfold NotificationRepository.updateStatus; simpl;
      rewrite lookup_insert_eq; simpl;
      unfold DeliveryLogRepository.create; simpl;
      rewrite lookup_insert_eq; simpl;
      eexists _, _, _; (split; [reflexivity|]); simpl;
      do 3 (split; [reflexivity|]);
      (split; [apply insert_insert_eq|]);
      do 3 (split; [reflexivity|]);
      (split; [now left|]);
      (split; [split; [intros _; split; [reflexivity|eauto]|reflexivity]|]);
      (split; [reflexivity|]); (split; [reflexivity|]); now left.
    simpl. apply Hfail; try reflexivity. intros [? _]. discriminate.
  - destruct (SQSMessagePayload.template payload) as [t|] eqn:Et;
      [|destruct (SQSMessagePayload.message payload) as [m|] eqn:Em];
      simpl; apply Hfail; try reflexivity;
      try (intros [_ [r Hr]]; discriminate); intros [? _]; discriminate.
Qed.

(** X8. For a work item whose row exists the processor always fulfils and
    records the attempt exactly once: one delivery log is appended, with
    attempt [k + 1] and the status the row is left in, which is [sent]
    exactly when there was content to send and the provider accepted it, and
    [failed] otherwise; rate counters, queue and the other rows are left as
    they were. *)
Theorem processMessage_records_one_attempt
        (calc : Z -> Z) (provider : Provider)
        (payload : SQSMessagePayload.t) (w : World.t) (n : Notification.t) :
  World.notifications w !! SQSMessagePayload.id payload = Some n ->
  exists n' w' l,
    MessageProcessor.processMessage calc provider (Message.mk (Some (Message.json payload))) w
    = (Ok tt, w')
    /\ World.deliveryLogs w' = World.deliveryLogs w ++ [l]
    /\ DeliveryLog.notificationId l = SQSMessagePayload.id payload
    /\ DeliveryLog.attemptNumber l = SQSMessagePayload.attempt_number payload + 1
    /\ DeliveryLog.status l = Notification.status n'
    /\ World.notifications w' !! SQSMessagePayload.id payload = Some n'
    /\ (forall j, j <> SQSMessagePayload.id payload ->
                  World.notifications w' !! j = World.notifications w !! j)
    /\ World.rateLimits w' = World.rateLimits w
    /\ World.queue w' = World.queue w
    /\ (Notification.status n' = sent \/ Notification.status n' = failed)
    /\ (Notification.status n' = sent
        <-> hasContent payload = true /\ exists r, provider payload = Ok r).
Proof.
  intros H.
  destruct (processMessage_outcome calc provider payload w n H)
    as (n' & w' & l & E & Hl & Hl1 & Hl2 & Hn & Hr & Hq & Hst & Hcases & Hsent & _).
  exists n', w', l. repeat split; try assumption; try congruence.
  - rewrite Hn. apply lookup_insert_eq.
  - intros j Hj. rewrite Hn. now apply lookup_insert_ne.
  - now apply Hsent.
  - now apply Hsent.
  - now apply Hsent.
Qed.

Lemma processMessage_records_one_attempt_witness :
  let n := Scenario.row queued 0 None in
  let payload :=
    SQSMessagePayload.mk "n-1" "order.placed" Scenario.phone None
                         (Some "order_confirmation") None None normal
                         0 5 0 None "trace-1" "tenant-a" in
  exists n' w' l,
    MessageProcessor.processMessage
      (calculateRetryDelay 1000 0) (Scenario.rejecting Scenario.unavailable)
      (Message.mk (Some (Message.json payload))) (Scenario.worldWith n)
    = (Ok tt, w')
    /\ World.deliveryLogs w' = World.deliveryLogs (Scenario.worldWith n) ++ [l]
    /\ DeliveryLog.notificationId l = "n-1"
    /\ DeliveryLog.attemptNumber l = 0 + 1
    /\ DeliveryLog.status l = Notification.status n'
    /\ World.notifications w' !! "n-1" = Some n'
    /\ (forall j, j <> "n-1" ->
                  World.notifications w' !! j
                  = World.notifications (Scenario.worldWith n) !! j)
    /\ World.rateLimits w' = World.rateLimits (Scenario.worldWith n)
    /\ World.queue w' = World.queue (Scenario.worldWith n)
    /\ (Notification.status n' = sent \/ Notification.status n' = failed)
    /\ (Notification.status n' = sent
        <-> hasContent payload = true
            /\ exists r, Scenario.rejecting Scenario.unavailable payload = Ok r).
Proof.
  apply (processMessage_records_one_attempt
           (calculateRetryDelay 1000 0) (Scenario.rejecting Scenario.unavailable)
           (SQSMessagePayload.mk "n-1" "order.placed" Scenario.phone None
                                 (Some "order_confirmation") None None normal
                                 0 5 0 None "trace-1" "tenant-a")
           (Scenario.worldWith (Scenario.row queued 0 None))
           (Scenario.row queued 0 None)).
  reflexivity.
Defined.

(** When and how the processor rejects, over the repositories as
    modelled (a Prisma call fails for a missing row only). *)
Lemma processMessage_rejection
      (calc : Z -> Z) (provider : Provider) (message : Message.t) (w : World.t) :
  ((exists e w', MessageProcessor.processMessage calc provider message w = (Throw e, w'))
   <-> unprocessable message w)
  /\ (forall e w',
         MessageProcessor.processMessage calc provider message w = (Throw e, w') ->
         World.notifications w' = World.notifications w
         /\ World.deliveryLogs w' = World.deliveryLogs w
         /\ World.rateLimits w' = World.rateLimits w
         /\ World.queue w' = World.queue w).
Proof.
  unfold unprocessable. destruct message as [[[payload| |]|]].
  - destruct (World.notifications w !! SQSMessagePayload.id payload) as [n|] eqn:H.
    + destruct (processMessage_outcome calc provider payload w n H)
        as (n' & w1 & l & E & _).
      split; [split|].
      * intros (e & w' & E'). rewrite E in E'. discriminate.
      * intros [Hb|[Hb|[Hb|(p & [= <-] & Hp)]]]; try discriminate. congruence.
      * intros e w' E'. rewrite E in E'. discriminate.
    + assert (E : exists e,
                 MessageProcessor.processMessage calc provider
                                                 (Message.mk (Some (Message.json payload))) w
                 = (Throw e,
                    World.set_logs
                      (fun ls => (ls ++ [mkLog info "Processing notification"])
                                   ++ [mkLog error "Failed to send notification"]) w)).
      { unfold MessageProcessor.processMessage, MessageProcessor.handleError.
        unfold_monad. simpl.
        unfold NotificationRepository.updateStatus. simpl. rewrite H. simpl.
        unfold DeliveryLogRepository.create. simpl. rewrite H.
        eexists. reflexivity. }
      destruct E as (e0 & E). split; [split|].
      * intros _. right. right. right. exists payload. now split.
      * intros _. eauto.
      * intros e w' E'. rewrite E in E'. injection E' as _ <-. now repeat split.
  - split; [split|].
    + intros _. right. now left.
    + intros _. eexists _, _. reflexivity.
    + intros e w' E'. unfold MessageProcessor.processMessage in E'. simpl in E'.
      injection E' as _ <-. now repeat split.
  - split; [split|].
    + intros _. right. right. now left.
    + intros _. eexists _, _. reflexivity.
    + intros e w' E'. unfold MessageProcessor.processMessage in E'. simpl in E'.
      injection E' as _ <-. now repeat split.
  - split; [split|].
    + intros _. now left.
    + intros _. eexists _, _. reflexivity.
    + intros e w' E'. unfold MessageProcessor.processMessage in E'. simpl in E'.
      injection E' as _ <-. now repeat split.
Qed.

(** X9. The processor rejects, having written nothing to the
    notifications, the delivery logs, the counters or the queue, in each of
    these cases: the message has no body; its body is not JSON; the parsed
    value has no recipient to read; or no row has the payload's id. *)
Theorem processMessage_rejects_without_writing
        (calc : Z -> Z) (provider : Provider) (message : Message.t) (w : World.t) :
  unprocessable message w ->
  exists e w',
    MessageProcessor.processMessage calc provider message w = (Throw e, w')
    /\ World.notifications w' = World.notifications w
    /\ World.deliveryLogs w' = World.deliveryLogs w
    /\ World.rateLimits w' = World.rateLimits w
    /\ World.queue w' = World.queue w.
Proof.
  intros H.
  destruct (processMessage_rejection calc provider message w) as [Hiff Hframe].
  destruct (proj2 Hiff H) as (e & w' & E).
  exists e, w'. split; [exact E|]. exact (Hframe e w' E).
Qed.

Lemma processMessage_rejects_without_writing_witness :
  exists e w',
    MessageProcessor.processMessage
      (fun _ => 1000) (Scenario.rejecting Scenario.unavailable)
      (Message.mk (Some Message.notJson))
      (Scenario.worldWith (Scenario.row queued 0 None))
    = (Throw e, w')
    /\ World.notifications w'
       = World.notifications (Scenario.worldWith (Scenario.row queued 0 None)).
Proof.
  destruct (processMessage_rejects_without_writing
              (fun _ => 1000) (Scenario.rejecting Scenario.unavailable)
              (Message.mk (Some Message.notJson))
              (Scenario.worldWith (Scenario.row queued 0 None))
              (or_intror (or_introl eq_refl)))
    as (e & w' & E & H & _).
  exists e, w'. now split.
Defined.

(** X10. Processing driven from the stored row, as the sweepers do it,
    keeps the retry budget: a row with attempts to spare still has
    [attemptNumber < maxAttempts] afterwards, the attempt count moves up by
    one at most and never down, and [maxAttempts] is not touched. *)
Theorem sweeper_processing_keeps_retry_budget
        (calc : Z -> Z) (provider : Provider)
        (w : World.t) (i : string) (n : Notification.t) :
  World.notifications w !! i = Some n ->
  Notification.id n = i ->
  Notification.attemptNumber n < Notification.maxAttempts n ->
  exists n',
    World.notifications
      (snd (MessageProcessor.processMessage calc provider
                                            (MessageProcessor.messageOf n) w)) !! i
    = Some n'
    /\ Notification.attemptNumber n' < Notification.maxAttempts n'
    /\ Notification.maxAttempts n' = Notification.maxAttempts n
    /\ Notification.attemptNumber n <= Notification.attemptNumber n'
       <= Notification.attemptNumber n + 1.
Proof.
  intros H Hid Hbudget. unfold MessageProcessor.messageOf.
  match goal with
  | |- context [Message.mk (Some (Message.json ?p))] => set (payload := p)
  end.
  assert (Hp : World.notifications w !! SQSMessagePayload.id payload = Some n)
    by (simpl; now rewrite Hid).
  destruct (processMessage_outcome calc provider payload w n Hp)
    as (n' & w' & l & E & _ & _ & _ & Hn & _ & _ & _ & _ & _ & _ & Hmax & Hatt).
  rewrite E. simpl. exists n'.
  split; [rewrite Hn; simpl; rewrite Hid; apply lookup_insert_eq|].
  simpl in Hatt. destruct Hatt as [Ha|[Ha Hlt]]; repeat split; lia.
Qed.

Lemma sweeper_processing_keeps_retry_budget_witness :
  let n := Scenario.row failed 3 (Some Scenario.tenOClock) in
  exists n',
    World.notifications
      (snd (MessageProcessor.processMessage
              (calculateRetryDelay 1000 0) (Scenario.rejecting Scenario.unavailable)
              (MessageProcessor.messageOf n) (Scenario.worldWith n))) !! "n-1"
    = Some n'
    /\ Notification.attemptNumber n' < Notification.maxAttempts n'
    /\ Notification.maxAttempts n' = Notification.maxAttempts n
    /\ Notification.attemptNumber n <= Notification.attemptNumber n'
       <= Notification.attemptNumber n + 1.
Proof.
  apply (sweeper_processing_keeps_retry_budget
           (calculateRetryDelay 1000 0) (Scenario.rejecting Scenario.unavailable)
           (Scenario.worldWith (Scenario.row failed 3 (Some Scenario.tenOClock)))
           "n-1" (Scenario.row failed 3 (Some Scenario.tenOClock)));
    [reflexivity|reflexivity|simpl; lia].
Defined.

(** X11. A work item with neither template nor message is never handed to
    the provider: the outcome is the same whatever the provider would have
    answered.  Its row is left [failed] with the message "No message content
    provided", and since that error carries no HTTP response it counts as
    retryable: with attempts to spare a retry is scheduled. *)
Theorem work_item_without_content_is_retried
        (calc : Z -> Z) (provider other : Provider)
        (payload : SQSMessagePayload.t) (w : World.t) (n : Notification.t) :
  hasContent payload = false ->
  World.notifications w !! SQSMessagePayload.id payload = Some n ->
  MessageProcessor.processMessage calc provider (Message.mk (Some (Message.json payload))) w
  = MessageProcessor.processMessage calc other (Message.mk (Some (Message.json payload))) w
  /\ exists n',
      World.notifications
        (snd (MessageProcessor.processMessage calc provider
                                              (Message.mk (Some (Message.json payload))) w))
        !! SQSMessagePayload.id payload = Some n'
      /\ Notification.status n' = failed
      /\ Notification.errorMessage n' = Some "No message content provided"
      /\ (SQSMessagePayload.attempt_number payload + 1
          < SQSMessagePayload.max_attempts payload ->
          Notification.attemptNumber n' = Notification.attemptNumber n + 1
          /\ Notification.nextRetryAt n'
             = Some (World.now w
                     + calc (SQSMessagePayload.attempt_number payload + 1))).
Proof.
  intros Hc H. unfold hasContent in Hc.
  destruct (SQSMessagePayload.template payload) eqn:Et; [discriminate|].
  destruct (SQSMessagePayload.message payload) eqn:Em; [discriminate|].
  assert (Hsame : forall p,
             MessageProcessor.processMessage calc p (Message.mk (Some (Message.json payload))) w
             = MessageProcessor.handleError calc payload
                 (JsError.Error "No message content provided") (World.now w)
                 (World.set_notifications
                    (insert (SQSMessagePayload.id payload)
                            (NotificationRepository.withStatus
                               n processing StatusUpdates.empty))
                    (World.set_logs
                       (fun ls => ls ++ [mkLog info "Processing notification"]) w))).
  { intros p. unfold MessageProcessor.processMessage,
      MessageProcessor.sendWhatsAppMessage.
    cbn [Message.Body]. rewrite Et, Em. unfold_monad. simpl.
    unfold NotificationRepository.updateStatus. simpl. now rewrite H. }
  split; [now rewrite !Hsame|].
  rewrite Hsame.
  match goal with
  | |- context [MessageProcessor.handleError calc payload ?e ?t ?v] =>
      destruct (handleError_outcome calc payload e t v
                  (NotificationRepository.withStatus n processing StatusUpdates.empty))
        as (n' & w' & l & E & _ & _ & _ & _ & Hn & _ & _ & _ & Hst & _ & _ & _
            & Hmsg & Hbranch)
  end.
  { simpl. apply lookup_insert_eq. }
  rewrite E. simpl. exists n'. split; [rewrite Hn; apply lookup_insert_eq|].
  split; [exact Hst|]. split; [exact Hmsg|].
  intros Hlt. apply Z.ltb_lt in Hlt. simpl in Hbranch. rewrite Hlt in Hbranch.
  destruct Hbranch as (Ha & Hnext & _). now split.
Qed.

Lemma work_item_without_content_is_retried_witness :
  let n := Scenario.row queued 0 None in
  let payload :=
    SQSMessagePayload.mk "n-1" "order.placed" Scenario.phone None
                         None None None normal 0 5 0 None "trace-1" "tenant-a" in
  let calc := calculateRetryDelay 1000 0 in
  let provider : Provider := fun _ => Ok (WhatsAppSendMessageResponse.mk ["wamid.Y"]) in
  MessageProcessor.processMessage calc provider (Message.mk (Some (Message.json payload)))
                                  (Scenario.worldWith n)
  = MessageProcessor.processMessage calc (Scenario.rejecting Scenario.invalidPhone)
                                    (Message.mk (Some (Message.json payload))) (Scenario.worldWith n)
  /\ exists n',
      World.notifications
        (snd (MessageProcessor.processMessage calc provider
                                              (Message.mk (Some (Message.json payload)))
                                              (Scenario.worldWith n)))
        !! "n-1" = Some n'
      /\ Notification.status n' = failed
      /\ Notification.errorMessage n' = Some "No message content provided"
      /\ (0 + 1 < 5 ->
          Notification.attemptNumber n' = Notification.attemptNumber n + 1
          /\ Notification.nextRetryAt n'
             = Some (World.now (Scenario.worldWith n) + calc (0 + 1))).
Proof.
  apply (work_item_without_content_is_retried
           (calculateRetryDelay 1000 0)
           (fun _ => Ok (WhatsAppSendMessageResponse.mk ["wamid.Y"]))
           (Scenario.rejecting Scenario.invalidPhone)
           (SQSMessagePayload.mk "n-1" "order.placed" Scenario.phone None
                                 None None None normal 0 5 0 None "trace-1" "tenant-a")
           (Scenario.worldWith (Scenario.row queued 0 None))
           (Scenario.row queued 0 None)); reflexivity.
Defined.

(* ===================================================================== *)
(** * 21. More on the sweepers                                            *)
(* ===================================================================== *)

Global Instance byNextRetryAt_total : Total NotificationRepository.byNextRetryAt.
Proof. intros a b. unfold NotificationRepository.byNextRetryAt. lia. Qed.
Global Instance byNextRetryAt_trans : Transitive NotificationRepository.byNextRetryAt.
Proof. intros a b c. unfold NotificationRepository.byNextRetryAt. lia. Qed.
Global Instance byScheduledFor_total : Total NotificationRepository.byScheduledFor.
Proof. intros a b. unfold NotificationRepository.byScheduledFor. lia. Qed.
Global Instance byScheduledFor_trans : Transitive NotificationRepository.byScheduledFor.
Proof. intros a b c. unfold NotificationRepository.byScheduledFor. lia. Qed.

Lemma In_take {A} (k : nat) (l : list A) (x : A) : In x (take k l) -> In x l.
Proof.
  intros H. rewrite <- (take_drop k l). apply List.in_or_app. now left.
Qed.

Lemma rows_stored (w : World.t) (n : Notification.t) :
  In n (NotificationRepository.rows w)
  <-> exists k, World.notifications w !! k = Some n.
Proof.
  unfold NotificationRepository.rows. rewrite <- list_elem_of_In, list_elem_of_fmap.
  split.
  - intros ([k v] & -> & H). apply elem_of_map_to_list in H. eauto.
  - intros (k & H). exists (k, n). split; [reflexivity|].
    now apply elem_of_map_to_list.
Qed.

(** The shape shared by the two sweep queries: filter, sort, take. *)
Lemma sweep_query (P : Notification.t -> bool) (R : relation Notification.t)
      `{!forall a b, Decision (R a b)} `{!Total R} `{!Transitive R}
      (limit : nat) (w : World.t) :
  let result := take limit (merge_sort R (List.filter P (NotificationRepository.rows w))) in
  (length result <= limit)%nat
  /\ (forall n, In n result -> P n = true
                               /\ exists k, World.notifications w !! k = Some n)
  /\ StronglySorted R result
  /\ ((length (List.filter P (NotificationRepository.rows w)) <= limit)%nat ->
      forall k n, World.notifications w !! k = Some n -> P n = true -> In n result).
Proof.
  intros result. unfold result.
  set (sorted := merge_sort R (List.filter P (NotificationRepository.rows w))).
  assert (Hperm : forall n, In n sorted
                            <-> In n (List.filter P (NotificationRepository.rows w))).
  { intros n. split; apply Permutation_in;
      [|apply Permutation_sym]; apply merge_sort_Permutation. }
  split; [rewrite length_take; lia|]. split; [|split].
  - intros n Hn. apply In_take, Hperm, List.filter_In in Hn as [Hn HP].
    split; [exact HP|now apply rows_stored].
  - apply (StronglySorted_app_1_l R _ (drop limit sorted)).
    rewrite take_drop. apply (StronglySorted_merge_sort R).
  - intros Hlen k n Hk Hn. rewrite take_ge.
    + apply Hperm, List.filter_In. split; [|exact Hn]. apply rows_stored. eauto.
    + unfold sorted. now rewrite (Permutation_length (merge_sort_Permutation R _)).
Qed.

Lemma readyForRetry_spec (now : Z) (n : Notification.t) :
  NotificationRepository.readyForRetry now n = true
  <-> Notification.status n = failed
      /\ (exists t, Notification.nextRetryAt n = Some t /\ t <= now)
      /\ Notification.attemptNumber n < Notification.maxAttempts n.
Proof.
  unfold NotificationRepository.readyForRetry.
  rewrite !andb_true_iff, bool_decide_eq_true, Z.ltb_lt.
  destruct (Notification.nextRetryAt n) as [t|].
  - rewrite Z.leb_le. split.
    + intros [[? ?] ?]. eauto.
    + intros (? & (t' & [= <-] & ?) & ?). auto.
  - split; [intros [[_ ?] _]; discriminate|intros (_ & (t & ? & _) & _); discriminate].
Qed.

Lemma dueScheduled_spec (now : Z) (n : Notification.t) :
  NotificationRepository.dueScheduled now n = true
  <-> Notification.status n = scheduled
      /\ exists t, Notification.scheduledFor n = Some t /\ t <= now.
Proof.
  unfold NotificationRepository.dueScheduled.
  rewrite !andb_true_iff, bool_decide_eq_true.
  destruct (Notification.scheduledFor n) as [t|].
  - rewrite Z.leb_le. split.
    + intros [? ?]. eauto.
    + intros (? & (t' & [= <-] & ?)). auto.
  - split; [intros [_ ?]; discriminate|intros (_ & (t & ? & _)); discriminate].
Qed.

(** X12. [findReadyForRetry] reads without writing and returns at most
    [limit] stored rows, each of them failed, due and with attempts to
    spare, in non-decreasing order of [nextRetryAt]; when no more than
    [limit] rows qualify, every qualifying row is returned. *)
Theorem findReadyForRetry_returns_due_rows_in_order (limit : nat) (w : World.t) :
  exists result,
    NotificationRepository.findReadyForRetry limit w = (Ok result, w)
    /\ (length result <= limit)%nat
    /\ (forall n, In n result ->
                  (exists k, World.notifications w !! k = Some n)
                  /\ Notification.status n = failed
                  /\ (exists t, Notification.nextRetryAt n = Some t /\ t <= World.now w)
                  /\ Notification.attemptNumber n < Notification.maxAttempts n)
    /\ StronglySorted
         (fun a b => default 0 (Notification.nextRetryAt a)
                     <= default 0 (Notification.nextRetryAt b)) result
    /\ ((length (List.filter (NotificationRepository.readyForRetry (World.now w))
                             (NotificationRepository.rows w)) <= limit)%nat ->
        forall k n, World.notifications w !! k = Some n ->
                    NotificationRepository.readyForRetry (World.now w) n = true ->
                    In n result).
Proof.
  eexists. split; [reflexivity|].
  destruct (sweep_query (NotificationRepository.readyForRetry (World.now w))
                        NotificationRepository.byNextRetryAt limit w)
    as (Hlen & Hin & Hsort & Hall).
  split; [exact Hlen|]. split; [|split; [exact Hsort|exact Hall]].
  intros n Hn. destruct (Hin n Hn) as [Hp Hk].
  apply readyForRetry_spec in Hp. tauto.
Qed.

(** X13. [findScheduled] likewise: at most [limit] stored rows, each in
    state [scheduled] with [scheduledFor] reached, in non-decreasing order
    of [scheduledFor], and all of them when they are no more than
    [limit]. *)
Theorem findScheduled_returns_due_rows_in_order (limit : nat) (w : World.t) :
  exists result,
    NotificationRepository.findScheduled limit w = (Ok result, w)
    /\ (length result <= limit)%nat
    /\ (forall n, In n result ->
                  (exists k, World.notifications w !! k = Some n)
                  /\ Notification.status n = scheduled
                  /\ exists t, Notification.scheduledFor n = Some t /\ t <= World.now w)
    /\ StronglySorted
         (fun a b => default 0 (Notification.scheduledFor a)
                     <= default 0 (Notification.scheduledFor b)) result
    /\ ((length (List.filter (NotificationRepository.dueScheduled (World.now w))
                             (NotificationRepository.rows w)) <= limit)%nat ->
        forall k n, World.notifications w !! k = Some n ->
                    NotificationRepository.dueScheduled (World.now w) n = true ->
                    In n result).
Proof.
  eexists. split; [reflexivity|].
  destruct (sweep_query (NotificationRepository.dueScheduled (World.now w))
                        NotificationRepository.byScheduledFor limit w)
    as (Hlen & Hin & Hsort & Hall).
  split; [exact Hlen|]. split; [|split; [exact Hsort|exact Hall]].
  intros n Hn. destruct (Hin n Hn) as [Hp Hk].
  apply dueScheduled_spec in Hp. tauto.
Qed.

Lemma filter_none {A} (P : A -> bool) (l : list A) :
  (forall x, In x l -> P x = false) -> List.filter P l = [].
Proof.
  induction l as [|x l IH]; intros H; [reflexivity|]. simpl.
  rewrite (H x (or_introl eq_refl)). apply IH. intros y Hy. apply H. now right.
Qed.

Lemma total_processMessage_caught (calc : Z -> Z) (provider : Provider)
      (before : M unit) (message : Message.t) (line oops : string) :
  total before ->
  total (tryCatch (before ;;;
                   MessageProcessor.processMessage calc provider message ;;;
                   logger.info line)
                  (fun _ => logger.error oops)).
Proof. intros _. apply total_tryCatch. intros _. apply total_log. Qed.

(** X14. One tick of either sweeper never rejects, whatever the provider
    answers and whatever the rows hold; and when no row qualifies it leaves
    the world exactly as it was, the log included. *)
Theorem sweepers_never_reject (calc : Z -> Z) (provider : Provider) (w : World.t) :
  (exists w', MessageProcessor.processRetries calc provider w = (Ok tt, w'))
  /\ (exists w', MessageProcessor.processScheduled calc provider w = (Ok tt, w'))
  /\ ((forall k n, World.notifications w !! k = Some n ->
                   NotificationRepository.readyForRetry (World.now w) n = false) ->
      MessageProcessor.processRetries calc provider w = (Ok tt, w))
  /\ ((forall k n, World.notifications w !! k = Some n ->
                   NotificationRepository.dueScheduled (World.now w) n = false) ->
      MessageProcessor.processScheduled calc provider w = (Ok tt, w)).
Proof.
  assert (T1 : total (MessageProcessor.processRetries calc provider)).
  { unfold MessageProcessor.processRetries. apply total_bind.
    - intros v. unfold NotificationRepository.findReadyForRetry. eauto.
    - intros [|n ns]; [apply total_ret|].
      apply total_bind; [apply total_log|intros _].
      apply total_forOf. intros x. apply total_tryCatch. intros _. apply total_log. }
  assert (T2 : total (MessageProcessor.processScheduled calc provider)).
  { unfold MessageProcessor.processScheduled. apply total_bind.
    - intros v. unfold NotificationRepository.findScheduled. eauto.
    - intros [|n ns]; [apply total_ret|].
      apply total_bind; [apply total_log|intros _].
      apply total_forOf. intros x. apply total_tryCatch. intros _. apply total_log. }
  split; [|split; [|split]].
  - destruct (T1 w) as ([] & w' & E). eauto.
  - destruct (T2 w) as ([] & w' & E). eauto.
  - intros H. unfold MessageProcessor.processRetries,
      NotificationRepository.findReadyForRetry, bind.
    rewrite filter_none; [reflexivity|].
    intros n Hn. apply rows_stored in Hn as (k & Hk). eauto.
  - intros H. unfold MessageProcessor.processScheduled,
      NotificationRepository.findScheduled, bind.
    rewrite filter_none; [reflexivity|].
    intros n Hn. apply rows_stored in Hn as (k & Hk). eauto.
Qed.

Lemma sweepers_never_reject_noop (calc : Z -> Z) (provider : Provider) (w : World.t) :
  ((forall k n, World.notifications w !! k = Some n ->
                NotificationRepository.readyForRetry (World.now w) n = false) ->
   MessageProcessor.processRetries calc provider w = (Ok tt, w))
  /\ ((forall k n, World.notifications w !! k = Some n ->
                   NotificationRepository.dueScheduled (World.now w) n = false) ->
      MessageProcessor.processScheduled calc provider w = (Ok tt, w)).
Proof.
  split.
  - intros H. unfold MessageProcessor.processRetries,
      NotificationRepository.findReadyForRetry, bind.
    rewrite filter_none; [reflexivity|].
    intros n Hn. apply rows_stored in Hn as (k & Hk). eauto.
  - intros H. unfold MessageProcessor.processScheduled,
      NotificationRepository.findScheduled, bind.
    rewrite filter_none; [reflexivity|].
    intros n Hn. apply rows_stored in Hn as (k & Hk). eauto.
Qed.

Lemma noneScheduled_insert (w w' : World.t) (i : string) (n : Notification.t) :
  noneScheduled w ->
  Notification.status n <> scheduled ->
  World.notifications w' = <[i := n]> (World.notifications w) ->
  noneScheduled w'.
Proof.
  intros Hw Hn E k m Hk. rewrite E in Hk.
  destruct (decide (i = k)) as [->|Hne].
  - rewrite lookup_insert_eq in Hk. now injection Hk as <-.
  - rewrite lookup_insert_ne in Hk by exact Hne. now apply (Hw k).
Qed.

Lemma noneScheduled_same (w w' : World.t) :
  noneScheduled w -> World.notifications w' = World.notifications w ->
  noneScheduled w'.
Proof. intros Hw E k m Hk. rewrite E in Hk. now apply (Hw k). Qed.

(** What [createNotification] does to the rows: nothing, or one new row in
    state [queued]. *)
Lemma createNotification_rows (notificationId traceId apiKey : string)
      (request : NotificationRequest.t) (w : World.t) :
  let w' := snd (notificationService.createNotification
                   notificationId traceId request apiKey w) in
  World.notifications w' = World.notifications w
  \/ exists n, World.notifications w' = <[notificationId := n]> (World.notifications w)
               /\ Notification.status n = queued.
Proof.
  unfold notificationService.createNotification, bind.
  rewrite checkLimit_eq. simpl.
  destruct (_ <? 10); simpl; [|now left].
  unfold NotificationRepository.create. simpl.
  destruct (World.notifications w !! notificationId); [now left|].
  match goal with
  | |- context [RateLimitRepository.increment ?p ?v] =>
      destruct (increment_frame p v) as (r & rs & seq & E); rewrite E
  end.
  right. simpl. eexists. split; reflexivity.
Qed.

Lemma statusChange_status (n : Notification.t) (cb : StatusEntry.t) :
  fst (Webhooks.statusChange n cb) = Notification.status n
  \/ fst (Webhooks.statusChange n cb) <> scheduled.
Proof.
  unfold Webhooks.statusChange.
  repeat (destruct (String.eqb _ _); [right; simpl; discriminate|]);
    try (now left).
  destruct (String.eqb _ _); [|now left].
  right. destruct (StatusEntry.errors cb) as [[|? ?]|]; simpl; discriminate.
Qed.

(** What a status callback does to the rows, also when the row it found
    is stored under another key than its [id]. *)
Lemma handleStatus_rows (cb : StatusEntry.t) (w : World.t) :
  let w' := snd (Webhooks.handleStatus cb w) in
  World.notifications w' = World.notifications w
  \/ exists n m,
      World.notifications w !! StatusEntry.id cb = Some n
      /\ World.notifications w !! Notification.id n = Some m
      /\ World.notifications w'
         = <[Notification.id n :=
               NotificationRepository.withStatus
                 m (fst (Webhooks.statusChange n cb)) (snd (Webhooks.statusChange n cb))]>
             (World.notifications w).
Proof.
  unfold Webhooks.handleStatus, Webhooks.processStatusUpdate,
    Webhooks.statusAttempt.
  unfold_monad. unfold NotificationRepository.findById. simpl.
  destruct (World.notifications w !! StatusEntry.id cb) as [n|] eqn:H; [|now left].
  destruct (Webhooks.statusChange n cb) as [st u] eqn:Es. simpl.
  unfold NotificationRepository.updateStatus. simpl.
  destruct (World.notifications w !! Notification.id n) as [m|] eqn:Hm; [|now left].
  simpl. right. exists n, m. split; [reflexivity|]. split; [exact Hm|].
  unfold DeliveryLogRepository.create. simpl.
  now rewrite lookup_insert_eq, Es.
Qed.

(** X15. No operation of the pipeline brings a row into state
    [scheduled]: if no row is scheduled, none is after an ingestion
    request, after the processing of any work item or after any provider
    callback; and on such a store a tick of the promoter changes
    nothing. *)
Theorem no_operation_schedules (w : World.t) :
  noneScheduled w ->
  (forall notificationId traceId request apiKey,
      noneScheduled (snd (notificationService.createNotification
                            notificationId traceId request apiKey w)))
  /\ (forall calc provider message,
         noneScheduled (snd (MessageProcessor.processMessage calc provider message w)))
  /\ (forall callback, noneScheduled (snd (Webhooks.handleStatus callback w)))
  /\ (forall calc provider,
         MessageProcessor.processScheduled calc provider w = (Ok tt, w)).
Proof.
  intros Hw. split; [|split; [|split]].
  - intros nid tid request apiKey.
    destruct (createNotification_rows nid tid apiKey request w) as [E|(n & E & Hq)].
    + now apply (noneScheduled_same w).
    + apply (noneScheduled_insert w _ nid n Hw); [rewrite Hq; discriminate|exact E].
  - intros calc provider [[[payload| |]|]].
    + destruct (World.notifications w !! SQSMessagePayload.id payload) as [n|] eqn:H.
      * destruct (processMessage_outcome calc provider payload w n H)
          as (n' & w' & l & E & _ & _ & _ & Hn & _ & _ & _ & Hst & _).
        rewrite E. simpl.
        apply (noneScheduled_insert w w' (SQSMessagePayload.id payload) n' Hw);
          [|exact Hn].
        destruct Hst as [-> | ->]; discriminate.
      * destruct (MessageProcessor.processMessage calc provider
                    (Message.mk (Some (Message.json payload))) w) as [[[]|e] w'] eqn:E.
        -- exfalso.
           destruct (processMessage_rejection calc provider
                       (Message.mk (Some (Message.json payload))) w) as [[_ Hrej] _].
           destruct Hrej as (e & v & E'); [right; right; right; eauto|]. congruence.
        -- destruct (processMessage_rejection calc provider
                       (Message.mk (Some (Message.json payload))) w) as [_ Hframe].
           destruct (Hframe e w' E) as (Hn & _).
           now apply (noneScheduled_same w).
    + now apply (noneScheduled_same w).
    + now apply (noneScheduled_same w).
    + now apply (noneScheduled_same w).
  - intros cb. destruct (handleStatus_rows cb w) as [E|(n & m & Hn & Hm & E)].
    + now apply (noneScheduled_same w).
    + eapply (noneScheduled_insert w _ _ _ Hw); [|exact E]. simpl.
      destruct (statusChange_status n cb) as [-> | H]; [|exact H].
      exact (Hw (StatusEntry.id cb) n Hn).
  - intros calc provider.
    destruct (sweepers_never_reject_noop calc provider w) as [_ H]. apply H.
    intros k n Hk. unfold NotificationRepository.dueScheduled.
    rewrite bool_decide_eq_false_2; [reflexivity|]. now apply (Hw k).
Qed.

Lemma no_operation_schedules_witness :
  (forall notificationId traceId request apiKey,
      noneScheduled (snd (notificationService.createNotification
                            notificationId traceId request apiKey
                            (Scenario.worldWith (Scenario.row queued 0 None)))))
  /\ (forall calc provider message,
         noneScheduled (snd (MessageProcessor.processMessage
                               calc provider message
                               (Scenario.worldWith (Scenario.row queued 0 None)))))
  /\ (forall callback,
         noneScheduled (snd (Webhooks.handleStatus
                               callback
                               (Scenario.worldWith (Scenario.row queued 0 None)))))
  /\ (forall calc provider,
         MessageProcessor.processScheduled
           calc provider (Scenario.worldWith (Scenario.row queued 0 None))
         = (Ok tt, Scenario.worldWith (Scenario.row queued 0 None))).
Proof.
  apply (no_operation_schedules (Scenario.worldWith (Scenario.row queued 0 None))).
  intros k n H.
  destruct (decide (k = "n-1")) as [->|Hne].
  - vm_compute in H. injection H as <-. discriminate.
  - unfold Scenario.worldWith in H. simpl in H.
    rewrite lookup_singleton_ne in H; [discriminate|]. simpl. congruence.
Defined.

(* ===================================================================== *)
(** * 22. More on provider callbacks                                      *)
(* ===================================================================== *)

(** A callback on a row stored under its own id: the whole outcome. *)
Lemma handleStatus_applied (w : World.t) (cb : StatusEntry.t) (n : Notification.t) :
  World.notifications w !! StatusEntry.id cb = Some n ->
  Notification.id n = StatusEntry.id cb ->
  let st := fst (Webhooks.statusChange n cb) in
  let u := snd (Webhooks.statusChange n cb) in
  exists w' l,
    Webhooks.handleStatus cb w = (Ok tt, w')
    /\ World.notifications w'
       = <[StatusEntry.id cb := NotificationRepository.withStatus n st u]>
           (World.notifications w)
    /\ World.deliveryLogs w' = World.deliveryLogs w ++ [l]
    /\ DeliveryLog.notificationId l = StatusEntry.id cb
    /\ DeliveryLog.status l = st
    /\ DeliveryLog.attemptNumber l = Notification.attemptNumber n
    /\ DeliveryLog.whatsappMessageId l = Some (StatusEntry.id cb)
    /\ World.rateLimits w' = World.rateLimits w
    /\ World.queue w' = World.queue w
    /\ World.now w' = World.now w.
Proof.
  intros H Hid st u. unfold st, u.
  unfold Webhooks.handleStatus, Webhooks.processStatusUpdate,
    Webhooks.statusAttempt.
  unfold_monad. unfold NotificationRepository.findById. simpl. rewrite H.
  destruct (Webhooks.statusChange n cb) as [st' u']. simpl.
  rewrite Hid.
  unfold NotificationRepository.updateStatus. simpl. rewrite H. simpl.
  unfold DeliveryLogRepository.create. simpl.
  rewrite lookup_insert_eq.
  eexists _, _. split; [reflexivity|]. simpl. repeat split; reflexivity.
Qed.

Lemma patch_again {A} (u x : option A) : patch u (patch u x) = patch u x.
Proof. now destruct u. Qed.

Lemma withStatus_again (n : Notification.t) (st : NotificationStatus)
      (u : StatusUpdates.t) :
  NotificationRepository.withStatus (NotificationRepository.withStatus n st u) st u
  = NotificationRepository.withStatus n st u.
Proof.
  unfold NotificationRepository.withStatus. simpl. now rewrite !patch_again.
Qed.

Lemma withStatus_nothing (n : Notification.t) :
  NotificationRepository.withStatus n (Notification.status n) StatusUpdates.empty = n.
Proof. now destruct n. Qed.

Lemma statusChange_again (n : Notification.t) (cb : StatusEntry.t) :
  Webhooks.statusChange
    (NotificationRepository.withStatus n (fst (Webhooks.statusChange n cb))
                                       (snd (Webhooks.statusChange n cb))) cb
  = Webhooks.statusChange n cb.
Proof.
  unfold Webhooks.statusChange.
  repeat (destruct (String.eqb (StatusEntry.status cb) _); [reflexivity|]).
  reflexivity.
Qed.

Lemma statusChange_unknown (n : Notification.t) (cb : StatusEntry.t) :
  knownStatusValue (StatusEntry.status cb) = false ->
  Webhooks.statusChange n cb = (Notification.status n, StatusUpdates.empty).
Proof.
  unfold knownStatusValue, Webhooks.statusChange. intros H.
  repeat (apply orb_false_iff in H as [H ?]).
  now repeat match goal with E : String.eqb _ _ = false |- _ => rewrite E; clear E end.
Qed.



(** X17. Applying the same callback twice leaves the rows exactly as
    applying it once; each application appends its own delivery log. *)
Theorem status_callback_is_idempotent_on_rows
        (w : World.t) (cb : StatusEntry.t) (n : Notification.t) :
  World.notifications w !! StatusEntry.id cb = Some n ->
  Notification.id n = StatusEntry.id cb ->
  let once := snd (Webhooks.handleStatus cb w) in
  let twice := snd (Webhooks.handleStatus cb once) in
  World.notifications twice = World.notifications once
  /\ length (World.deliveryLogs once) = S (length (World.deliveryLogs w))
  /\ length (World.deliveryLogs twice) = S (S (length (World.deliveryLogs w))).
Proof.
  intros H Hid once twice.
  destruct (handleStatus_applied w cb n H Hid)
    as (w1 & l1 & E1 & Hn1 & Hl1 & _).
  assert (Eo : once = w1) by (unfold once; now rewrite E1).
  set (n1 := NotificationRepository.withStatus
               n (fst (Webhooks.statusChange n cb)) (snd (Webhooks.statusChange n cb))) in *.
  assert (H1 : World.notifications w1 !! StatusEntry.id cb = Some n1)
    by (rewrite Hn1; apply lookup_insert_eq).
  destruct (handleStatus_applied w1 cb n1 H1 Hid)
    as (w2 & l2 & E2 & Hn2 & Hl2 & _).
  assert (Et : twice = w2) by (unfold twice; now rewrite Eo, E2).
  rewrite Eo, Et. split; [|split].
  - rewrite Hn2.
    assert (Hfix : NotificationRepository.withStatus
                     n1 (fst (Webhooks.statusChange n1 cb))
                     (snd (Webhooks.statusChange n1 cb)) = n1).
    { unfold n1. rewrite statusChange_again. apply withStatus_again. }
    now rewrite Hfix, Hn1, insert_insert_eq.
  - rewrite Hl1, length_app. simpl. lia.
  - rewrite Hl2, Hl1, !length_app. simpl. lia.
Qed.

Lemma status_callback_is_idempotent_on_rows_witness :
  let w := Scenario.worldWith (Scenario.sentRow sent) in
  let cb := StatusEntry.mk "n-1" "read" 1700000000 None in
  let once := snd (Webhooks.handleStatus cb w) in
  let twice := snd (Webhooks.handleStatus cb once) in
  World.notifications twice = World.notifications once
  /\ length (World.deliveryLogs once) = S (length (World.deliveryLogs w))
  /\ length (World.deliveryLogs twice) = S (S (length (World.deliveryLogs w))).
Proof.
  apply (status_callback_is_idempotent_on_rows
           (Scenario.worldWith (Scenario.sentRow sent))
           (StatusEntry.mk "n-1" "read" 1700000000 None)
           (Scenario.sentRow sent)); reflexivity.
Defined.

(** X18. A callback whose status value is none of [sent], [delivered],
    [read], [failed] leaves every row exactly as it was, and still appends
    one delivery log, carrying the row's current status. *)
Theorem unknown_status_value_keeps_rows
        (w : World.t) (cb : StatusEntry.t) (n : Notification.t) :
  knownStatusValue (StatusEntry.status cb) = false ->
  World.notifications w !! StatusEntry.id cb = Some n ->
  Notification.id n = StatusEntry.id cb ->
  exists w' l,
    Webhooks.handleStatus cb w = (Ok tt, w')
    /\ World.notifications w' = World.notifications w
    /\ World.deliveryLogs w' = World.deliveryLogs w ++ [l]
    /\ DeliveryLog.status l = Notification.status n.
Proof.
  intros Hk H Hid.
  destruct (handleStatus_applied w cb n H Hid)
    as (w' & l & E & Hn & Hl & _ & Hst & _).
  rewrite (statusChange_unknown n cb Hk) in Hn, Hst. simpl in Hn, Hst.
  exists w', l. split; [exact E|]. split; [|split; assumption].
  rewrite Hn, withStatus_nothing. now apply insert_id.
Qed.

Lemma unknown_status_value_keeps_rows_witness :
  let w := Scenario.worldWith (Scenario.sentRow delivered) in
  exists w' l,
    Webhooks.handleStatus (StatusEntry.mk "n-1" "deleted" 1700000000 None) w
    = (Ok tt, w')
    /\ World.notifications w' = World.notifications w
    /\ World.deliveryLogs w' = World.deliveryLogs w ++ [l]
    /\ DeliveryLog.status l = Notification.status (Scenario.sentRow delivered).
Proof.
  apply (unknown_status_value_keeps_rows
           (Scenario.worldWith (Scenario.sentRow delivered))
           (StatusEntry.mk "n-1" "deleted" 1700000000 None)
           (Scenario.sentRow delivered)); reflexivity.
Defined.

(* ===================================================================== *)
(** * 23. Provider callbacks and the retry sweeper                        *)
(* ===================================================================== *)

Lemma statusChange_failed (n : Notification.t) (cb : StatusEntry.t) :
  StatusEntry.status cb = "failed" ->
  fst (Webhooks.statusChange n cb) = failed
  /\ StatusUpdates.failedAt (snd (Webhooks.statusChange n cb))
     = Some (StatusEntry.timestamp cb * 1000).
Proof.
  intros H. unfold Webhooks.statusChange. rewrite H. simpl.
  destruct (StatusEntry.errors cb) as [[|first rest]|]; now split.
Qed.

(** X19. A [failed] callback that finds its row never touches
    [nextRetryAt] or the attempt counter: a row whose retry time has
    passed and whose attempts are not used up (such as a row sent on a
    retry) is marked failed with the callback's time, satisfies the
    [where] clause of [findReadyForRetry] at once, and is returned by the
    next retry sweep whenever the due rows fit into its limit. *)
Theorem failed_callback_makes_retried_row_due
        (w : World.t) (cb : StatusEntry.t) (n : Notification.t) (t : Z) :
  World.notifications w !! StatusEntry.id cb = Some n ->
  Notification.id n = StatusEntry.id cb ->
  StatusEntry.status cb = "failed" ->
  Notification.nextRetryAt n = Some t ->
  t <= World.now w ->
  Notification.attemptNumber n < Notification.maxAttempts n ->
  exists w' n',
    Webhooks.handleStatus cb w = (Ok tt, w')
    /\ World.notifications w' !! StatusEntry.id cb = Some n'
    /\ Notification.status n' = failed
    /\ Notification.failedAt n' = Some (StatusEntry.timestamp cb * 1000)
    /\ Notification.nextRetryAt n' = Some t
    /\ NotificationRepository.readyForRetry (World.now w') n' = true
    /\ forall limit,
         (length (List.filter (NotificationRepository.readyForRetry (World.now w'))
                              (NotificationRepository.rows w')) <= limit)%nat ->
         exists found,
           NotificationRepository.findReadyForRetry limit w' = (Ok found, w')
           /\ In n' found.
Proof.
  intros Hn Hid Hst Ht Hdue Hatt.
  destruct (handleStatus_applied w cb n Hn Hid)
    as (w' & l & Hrun & Hrows & _ & _ & _ & _ & _ & _ & _ & Hnow).
  destruct (statusChange_failed n cb Hst) as [Hs Hf].
  set (n' := NotificationRepository.withStatus
               n (fst (Webhooks.statusChange n cb)) (snd (Webhooks.statusChange n cb))) in *.
  assert (Hlook : World.notifications w' !! StatusEntry.id cb = Some n')
    by (rewrite Hrows; apply lookup_insert_eq).
  assert (Hready : NotificationRepository.readyForRetry (World.now w') n' = true).
  { unfold NotificationRepository.readyForRetry, n'. simpl.
    rewrite Hs, Ht, Hnow.
    rewrite bool_decide_eq_true_2 by reflexivity. simpl.
    apply andb_true_iff. split; [now apply Z.leb_le | now apply Z.ltb_lt]. }
  exists w', n'. split; [exact Hrun|]. split; [exact Hlook|].
  split; [exact Hs|]. split; [unfold n'; simpl; now rewrite Hf|].
  split; [exact Ht|]. split; [exact Hready|].
  intros limit Hfit. eexists. split; [reflexivity|].
  pose proof (sweep_query (NotificationRepository.readyForRetry (World.now w'))
                          NotificationRepository.byNextRetryAt limit w')
    as (_ & _ & _ & Hall).
  exact (Hall Hfit _ _ Hlook Hready).
Qed.

Lemma failed_callback_makes_retried_row_due_witness :
  exists w' n',
    Webhooks.handleStatus (StatusEntry.mk "n-1" "failed" 40000 None)
      (Scenario.worldWith (Scenario.row sent 1 (Some Scenario.tenOClock))) = (Ok tt, w')
    /\ NotificationRepository.readyForRetry (World.now w') n' = true.
Proof.
  destruct (failed_callback_makes_retried_row_due
              (Scenario.worldWith (Scenario.row sent 1 (Some Scenario.tenOClock)))
              (StatusEntry.mk "n-1" "failed" 40000 None)
              (Scenario.row sent 1 (Some Scenario.tenOClock))
              Scenario.tenOClock)
    as (w' & n' & H1 & _ & _ & _ & _ & H2 & _);
    try reflexivity; try (vm_compute; congruence).
  exists w', n'. now split.
Defined.

(* ===================================================================== *)
(** * 24. Facts about the tenant listing                                  *)
(* ===================================================================== *)

Global Instance byCreatedAtDesc_total : Total NotificationRepository.byCreatedAtDesc.
Proof. intros a b. unfold NotificationRepository.byCreatedAtDesc. lia. Qed.

Global Instance byCreatedAtDesc_trans : Transitive NotificationRepository.byCreatedAtDesc.
Proof. intros a b c. unfold NotificationRepository.byCreatedAtDesc. lia. Qed.

Lemma StronglySorted_drop {A} (R : relation A) (k : nat) (l : list A) :
  StronglySorted R l -> StronglySorted R (drop k l).
Proof.
  intros H. rewrite <- (take_drop k l) in H.
  now apply StronglySorted_app_1_r in H.
Qed.

Lemma StronglySorted_take {A} (R : relation A) (k : nat) (l : list A) :
  StronglySorted R l -> StronglySorted R (take k l).
Proof.
  intros H. rewrite <- (take_drop k l) in H.
  now apply StronglySorted_app_1_l in H.
Qed.

Lemma In_drop {A} (k : nat) (l : list A) (x : A) : In x (drop k l) -> In x l.
Proof.
  intros H. rewrite <- (take_drop k l). apply List.in_or_app. now right.
Qed.

Lemma tenantWhere_tenant (tenant : string) (filters : NotificationFilters.t)
      (n : Notification.t) :
  NotificationRepository.tenantWhere tenant filters n = true ->
  Notification.tenantId n = tenant
  /\ (forall st, NotificationFilters.status filters = Some st ->
                 Notification.status n = st).
Proof.
  unfold NotificationRepository.tenantWhere. rewrite !andb_true_iff.
  intros [[[[Ht Hs] _] _] _]. split; [now apply String.eqb_eq|].
  intros st E. rewrite E in Hs. now apply bool_decide_eq_true in Hs.
Qed.

(** X20. The tenant listing always fulfils and leaves the store alone;
    its page holds at most [limit] rows (20 when no limit is given), all
    of them stored rows of the asking tenant that carry the requested
    status, newest first; and [total] is at least the page's length and
    does not depend on the page asked for. *)
Theorem findByTenant_lists_only_the_tenants_rows
        (tenant : string) (filters : NotificationFilters.t)
        (pagination : PaginationOptions.t) (w : World.t) :
  exists page,
    NotificationRepository.findByTenant tenant filters pagination w = (Ok page, w)
    /\ (length (TenantPage.data page)
        <= default 20%nat (PaginationOptions.limit pagination))%nat
    /\ (length (TenantPage.data page) <= TenantPage.total page)%nat
    /\ (forall n, In n (TenantPage.data page) ->
                  Notification.tenantId n = tenant
                  /\ (forall st, NotificationFilters.status filters = Some st ->
                                 Notification.status n = st)
                  /\ exists k, World.notifications w !! k = Some n)
    /\ StronglySorted NotificationRepository.byCreatedAtDesc (TenantPage.data page)
    /\ forall pagination',
         exists page',
           NotificationRepository.findByTenant tenant filters pagination' w
           = (Ok page', w)
           /\ TenantPage.total page' = TenantPage.total page.
Proof.
  eexists. split; [reflexivity|]. cbn [TenantPage.data TenantPage.total].
  set (matching := List.filter (NotificationRepository.tenantWhere tenant filters)
                               (NotificationRepository.rows w)).
  set (sorted := merge_sort NotificationRepository.byCreatedAtDesc matching).
  assert (Hlen : length sorted = length matching)
    by apply Permutation_length, merge_sort_Permutation.
  split; [rewrite length_take; lia|].
  split; [rewrite length_take, length_drop; lia|].
  split; [|split].
  - intros n Hn. apply In_take, In_drop in Hn.
    apply (Permutation_in _ (merge_sort_Permutation _ _)) in Hn.
    apply List.filter_In in Hn as [Hn HP].
    destruct (tenantWhere_tenant _ _ _ HP) as [Ht Hs].
    split; [exact Ht|]. split; [exact Hs|]. now apply rows_stored.
  - apply StronglySorted_take, StronglySorted_drop.
    apply (StronglySorted_merge_sort _).
  - intros pagination'. eexists. split; reflexivity.
Qed.

(** X21. When both date bounds are given, the condition of
    [createdBefore] takes the place of the one of [createdAfter] under
    the key [createdAt]: a stored row created no later than
    [createdBefore] is listed for its tenant however long before
    [createdAfter] it was created. *)
Theorem findByTenant_createdBefore_replaces_createdAfter
        (w : World.t) (k : string) (n : Notification.t) (after before : Z) :
  World.notifications w !! k = Some n ->
  Notification.createdAt n <= before ->
  exists page,
    NotificationRepository.findByTenant
      (Notification.tenantId n)
      (NotificationFilters.mk None None None (Some after) (Some before))
      (PaginationOptions.mk None (Some (length (NotificationRepository.rows w)))) w
    = (Ok page, w)
    /\ In n (TenantPage.data page).
Proof.
  intros Hk Hb. eexists. split; [reflexivity|]. cbn [TenantPage.data].
  cbn [default PaginationOptions.page PaginationOptions.limit].
  change ((Pos.to_nat 1 - 1) * _)%nat with 0%nat. rewrite drop_0.
  set (P := NotificationRepository.tenantWhere _ _).
  rewrite take_ge.
  - apply (Permutation_in _ (Permutation_sym (merge_sort_Permutation _ _))).
    apply List.filter_In. split; [apply rows_stored; eauto|].
    unfold P, NotificationRepository.tenantWhere. simpl.
    rewrite String.eqb_refl. simpl. now apply Z.leb_le.
  - rewrite (Permutation_length (merge_sort_Permutation _ _)).
    apply List.filter_length_le.
Qed.

Lemma findByTenant_createdBefore_replaces_createdAfter_witness :
  Notification.createdAt (Scenario.row sent 1 None) < Scenario.tenOClock
  /\ exists page,
       NotificationRepository.findByTenant
         "tenant-a"
         (NotificationFilters.mk None None None
                                 (Some Scenario.tenOClock) (Some Scenario.halfPastTen))
         (PaginationOptions.mk None (Some 1%nat))
         (Scenario.worldWith (Scenario.row sent 1 None))
       = (Ok page, Scenario.worldWith (Scenario.row sent 1 None))
       /\ In (Scenario.row sent 1 None) (TenantPage.data page).
Proof.
  split; [vm_compute; reflexivity|].
  apply (findByTenant_createdBefore_replaces_createdAfter
           (Scenario.worldWith (Scenario.row sent 1 None)) "n-1"
           (Scenario.row sent 1 None) Scenario.tenOClock Scenario.halfPastTen).
  - reflexivity.
  - vm_compute. congruence.
Defined.

(* ===================================================================== *)
(** * 25. Facts about the API key check                                   *)
(* ===================================================================== *)

Lemma splitOn_pieces (sep : ascii) (s piece : list ascii) :
  In piece (auth.splitOn sep s) -> ~ In sep piece.
Proof.
  revert piece. induction s as [|c rest IH]; intros piece; simpl.
  - intros [<-|[]]. intros [].
  - destruct (Ascii.eqb c sep) eqn:Ec.
    + intros [<-|H]; [intros []|now apply IH].
    + apply Ascii.eqb_neq in Ec.
      destruct (auth.splitOn sep rest) as [|p ps].
      * intros [<-|[]]. intros [->|[]]. now apply Ec.
      * intros [<-|H].
        -- intros [->|Hp]; [now apply Ec|]. apply (IH p); [now left|exact Hp].
        -- apply IH. now right.
Qed.

Lemma splitOn_whole (sep : ascii) (l : list ascii) :
  ~ In sep l -> auth.splitOn sep l = [l].
Proof.
  induction l as [|c l IH]; intros H; simpl; [reflexivity|].
  destruct (Ascii.eqb c sep) eqn:Ec.
  - apply Ascii.eqb_eq in Ec. exfalso. apply H. now left.
  - rewrite IH; [reflexivity|]. intros Hin. apply H. now right.
Qed.

Lemma splitOn_first (sep : ascii) (l rest : list ascii) :
  ~ In sep l -> auth.splitOn sep (l ++ sep :: rest) = l :: auth.splitOn sep rest.
Proof.
  induction l as [|c l IH]; intros H; simpl.
  - now rewrite Ascii.eqb_refl.
  - destruct (Ascii.eqb c sep) eqn:Ec.
    + apply Ascii.eqb_eq in Ec. exfalso. apply H. now left.
    + rewrite IH; [reflexivity|]. intros Hin. apply H. now right.
Qed.

Lemma list_ascii_of_string_app (s1 s2 : string) :
  list_ascii_of_string (s1 ++ s2)
  = list_ascii_of_string s1 ++ list_ascii_of_string s2.
Proof. induction s1 as [|c s1 IH]; simpl; [reflexivity|now rewrite IH]. Qed.

Lemma split_concat (keys : list string) :
  keys <> [] ->
  Forall plainKey keys ->
  auth.split "," (String.concat "," keys) = keys.
Proof.
  intros Hne Hall. induction Hall as [|k ks [_ Hk] Hks IH]; [congruence|].
  unfold auth.split in *. destruct ks as [|k2 ks].
  - simpl. rewrite splitOn_whole by exact Hk. simpl.
    now rewrite string_of_list_ascii_of_string.
  - change (String.concat "," (k :: k2 :: ks))
      with (k ++ String "," (String.concat "," (k2 :: ks)))%string.
    rewrite list_ascii_of_string_app.
    change (list_ascii_of_string (String "," ?s)) with (","%char :: list_ascii_of_string s).
    rewrite splitOn_first by exact Hk.
    rewrite fmap_cons, string_of_list_ascii_of_string.
    f_equal. apply IH. discriminate.
Qed.

Lemma concat_not_empty (keys : list string) :
  keys <> [] -> Forall plainKey keys -> String.concat "," keys <> "".
Proof.
  intros Hne Hall. destruct Hall as [|k ks [Hk _] _]; [congruence|].
  destruct k as [|c k]; [congruence|]. destruct ks; discriminate.
Qed.

Lemma orString_given (s d : string) : s <> "" -> orString (Some s) d = s.
Proof.
  intros H. unfold orString. destruct (String.eqb s "") eqn:E; [|reflexivity].
  now apply String.eqb_eq in E.
Qed.

Lemma existsb_eqb (key : string) (keys : list string) :
  existsb (String.eqb key) keys = true <-> In key keys.
Proof.
  rewrite existsb_exists. split.
  - intros (k & Hin & E). apply String.eqb_eq in E. now subst.
  - intros H. exists key. split; [exact H|apply String.eqb_refl].
Qed.

Lemma authenticateApiKey_accepted (API_KEYS header : option string) (w : World.t) :
  (exists key w', auth.authenticateApiKey API_KEYS header w = (auth.Authenticated key, w'))
  <-> exists key, header = Some key /\ key <> ""
                  /\ In key (auth.VALID_API_KEYS API_KEYS).
Proof.
  unfold auth.authenticateApiKey. split.
  - intros (key & w' & H).
    destruct (String.eqb (orString header "") "") eqn:E0; [discriminate|].
    destruct (existsb _ _) eqn:Ex; simpl in H; [|discriminate].
    injection H as <- _. apply existsb_eqb in Ex.
    apply String.eqb_neq in E0.
    destruct header as [h|]; simpl in *; [|congruence].
    destruct (String.eqb h "") eqn:Eh; [congruence|].
    exists h. apply String.eqb_neq in Eh. auto.
  - intros (key & -> & Hk & Hin).
    rewrite (orString_given key "" Hk).
    apply String.eqb_neq in Hk. rewrite Hk.
    apply existsb_eqb in Hin. rewrite Hin. simpl. eauto.
Qed.

(** X22. The key check lets a request through only with the very key of
    its [x-api-key] header, and only when that key is not empty and is one
    of the pieces of [API_KEYS] between commas (of [test-key] when
    [API_KEYS] is missing or empty); so no key that contains a comma is
    ever accepted.  The check writes nothing but a log line. *)
Theorem authenticateApiKey_accepts_only_configured_keys
        (API_KEYS header : option string) (w w' : World.t) (key : string) :
  auth.authenticateApiKey API_KEYS header w = (auth.Authenticated key, w') ->
  header = Some key
  /\ key <> ""
  /\ In key (auth.VALID_API_KEYS API_KEYS)
  /\ ~ In ","%char (list_ascii_of_string key)
  /\ World.notifications w' = World.notifications w
  /\ World.rateLimits w' = World.rateLimits w
  /\ World.queue w' = World.queue w.
Proof.
  intros H.
  assert (Hacc : exists k w0, auth.authenticateApiKey API_KEYS header w
                              = (auth.Authenticated k, w0)) by eauto.
  apply authenticateApiKey_accepted in Hacc as (k & Hh & Hk & Hin).
  assert (k = key) as ->.
  { subst header. unfold auth.authenticateApiKey in H.
    rewrite (orString_given k "" Hk) in H.
    destruct (String.eqb k ""); [discriminate|].
    destruct (negb _); [discriminate|]. now injection H. }
  split; [exact Hh|]. split; [exact Hk|]. split; [exact Hin|]. split.
  - unfold auth.VALID_API_KEYS, auth.split in Hin.
    apply list_elem_of_In, list_elem_of_fmap in Hin as (piece & -> & Hp).
    rewrite list_ascii_of_string_of_list_ascii.
    apply (splitOn_pieces _ _ _ (proj1 (list_elem_of_In _ _) Hp)).
  - unfold auth.authenticateApiKey in H.
    destruct (String.eqb _ ""); [discriminate|].
    destruct (negb _); [discriminate|].
    injection H as _ <-. now repeat split.
Qed.

Lemma authenticateApiKey_accepts_only_configured_keys_witness :
  In "test-key"%string (auth.VALID_API_KEYS None)
  /\ ~ In ","%char (list_ascii_of_string "test-key").
Proof.
  destruct (authenticateApiKey_accepts_only_configured_keys
              None (Some "test-key"%string) Scenario.emptyWorld
              (snd (auth.authenticateApiKey None (Some "test-key"%string)
                                            Scenario.emptyWorld))
              "test-key" eq_refl)
    as (_ & _ & H1 & H2 & _).
  now split.
Defined.

(** X23. Writing keys into [API_KEYS] and reading them back: for a list
    of keys, none empty and none with a comma, joined by commas, the check
    lets through exactly the requests whose header is one of them. *)
Theorem authenticateApiKey_accepts_exactly_joined_keys
        (keys : list string) (header : option string) (w : World.t) :
  keys <> [] ->
  Forall plainKey keys ->
  (exists key w',
      auth.authenticateApiKey (Some (String.concat "," keys)) header w
      = (auth.Authenticated key, w'))
  <-> exists key, header = Some key /\ In key keys.
Proof.
  intros Hne Hall. rewrite authenticateApiKey_accepted.
  unfold auth.VALID_API_KEYS.
  rewrite (orString_given _ _ (concat_not_empty keys Hne Hall)).
  rewrite (split_concat keys Hne Hall).
  split.
  - intros (key & ? & _ & ?). eauto.
  - intros (key & Hh & Hin). exists key. split; [exact Hh|]. split; [|exact Hin].
    rewrite Forall_forall in Hall. exact (proj1 (Hall key (proj2 (list_elem_of_In _ _) Hin))).
Qed.

Lemma authenticateApiKey_accepts_exactly_joined_keys_witness :
  (exists key w',
      auth.authenticateApiKey (Some "key-a,key-b"%string) (Some "key-b"%string)
                              Scenario.emptyWorld
      = (auth.Authenticated key, w'))
  <-> exists key, Some "key-b"%string = Some key /\ In key ["key-a"; "key-b"]%string.
Proof.
  apply (authenticateApiKey_accepts_exactly_joined_keys
           ["key-a"; "key-b"]%string (Some "key-b"%string) Scenario.emptyWorld).
  - discriminate.
  - repeat constructor; try discriminate; vm_compute; intuition congruence.
Defined.

(* ===================================================================== *)
(** * 26. Facts about the status route                                    *)
(* ===================================================================== *)

Lemma createNotification_stored (notificationId traceId apiKey : string)
      (request : NotificationRequest.t) (w : World.t) :
  fst (RateLimitRepository.checkLimit (NotificationRequest.phone_number request) 10 w)
  = Ok true ->
  World.notifications w !! notificationId = None ->
  exists w' n,
    notificationService.createNotification notificationId traceId request apiKey w
    = (Ok (mkCreated notificationId "queued"), w')
    /\ World.notifications w' = <[notificationId := n]> (World.notifications w)
    /\ World.deliveryLogs w' = World.deliveryLogs w
    /\ Notification.id n = notificationId
    /\ Notification.tenantId n = apiKey
    /\ Notification.status n = queued
    /\ Notification.recipientPhone n = NotificationRequest.phone_number request
    /\ Notification.eventType n = NotificationRequest.event_type request
    /\ Notification.attemptNumber n = 0.
Proof.
  intros H Hfresh.
  unfold notificationService.createNotification, sqsService.publishMessage, bind.
  rewrite checkLimit_eq in *. simpl in H. injection H as ->. simpl.
  unfold NotificationRepository.create. simpl. rewrite Hfresh.
  unfold RateLimitRepository.increment. simpl.
  destruct (find _ _); simpl;
    (eexists _, _; split; [reflexivity|]; simpl; repeat split; reflexivity).
Qed.

Lemma getStatus_of_row (id key : string) (w : World.t) (n : Notification.t) :
  World.notifications w !! id = Some n ->
  (Notification.tenantId n <> key ->
   statusRoute.getStatus id key w = (Ok statusRoute.Forbidden, w))
  /\ (Notification.tenantId n = key ->
      exists d, statusRoute.getStatus id key w = (Ok (statusRoute.Found d), w)
                /\ statusRoute.data_id d = Notification.id n
                /\ statusRoute.data_status d = Notification.status n
                /\ statusRoute.data_eventType d = Notification.eventType n
                /\ statusRoute.data_recipientPhone d = Notification.recipientPhone n
                /\ statusRoute.data_attemptNumber d = Notification.attemptNumber n
                /\ statusRoute.data_deliveryLogs d
                   = statusRoute.viewOf <$> statusRoute.includedLogs id w).
Proof.
  intros Hn. unfold statusRoute.getStatus, bind, NotificationRepository.findById.
  rewrite Hn. split; intros Ht.
  - apply String.eqb_neq in Ht. now rewrite Ht.
  - apply String.eqb_eq in Ht. rewrite Ht. simpl.
    eexists. split; [reflexivity|]. simpl. now repeat split.
Qed.

(** X24. Tenant isolation of the status route, from acceptance on: once
    a request is accepted under an API key, the route answers that key
    with 200 and the row as queued at attempt 0, answers every other key
    with 403, and still answers 404 for an id that is not stored; it
    leaves the world as it is. *)
Theorem status_route_serves_only_the_owner
        (notificationId traceId apiKey : string)
        (request : NotificationRequest.t) (w : World.t) :
  fst (RateLimitRepository.checkLimit (NotificationRequest.phone_number request) 10 w)
  = Ok true ->
  World.notifications w !! notificationId = None ->
  exists w',
    notificationService.createNotification notificationId traceId request apiKey w
    = (Ok (mkCreated notificationId "queued"), w')
    /\ (exists d,
           statusRoute.getStatus notificationId apiKey w' = (Ok (statusRoute.Found d), w')
           /\ statusRoute.data_id d = notificationId
           /\ statusRoute.data_status d = queued
           /\ statusRoute.data_recipientPhone d = NotificationRequest.phone_number request
           /\ statusRoute.data_attemptNumber d = 0)
    /\ (forall key, key <> apiKey ->
           statusRoute.getStatus notificationId key w' = (Ok statusRoute.Forbidden, w'))
    /\ (forall other key,
           other <> notificationId ->
           World.notifications w !! other = None ->
           statusRoute.getStatus other key w' = (Ok statusRoute.NotFound, w')).
Proof.
  intros H Hfresh.
  destruct (createNotification_stored notificationId traceId apiKey request w H Hfresh)
    as (w' & n & Hrun & Hrows & _ & Hid & Hten & Hst & Hph & _ & Hatt).
  assert (Hn : World.notifications w' !! notificationId = Some n)
    by (rewrite Hrows; apply lookup_insert_eq).
  destruct (getStatus_of_row notificationId apiKey w' n Hn) as [_ Hown].
  exists w'. split; [exact Hrun|]. split; [|split].
  - destruct (Hown Hten) as (d & Hd & E1 & E2 & _ & E4 & E5 & _).
    exists d. split; [exact Hd|]. now rewrite E1, E2, E4, E5.
  - intros key Hkey.
    apply (proj1 (getStatus_of_row notificationId key w' n Hn)). congruence.
  - intros other key Hne Hnone.
    unfold statusRoute.getStatus, bind, NotificationRepository.findById.
    rewrite Hrows, lookup_insert_ne by congruence. now rewrite Hnone.
Qed.

Lemma status_route_serves_only_the_owner_witness :
  exists w',
    notificationService.createNotification
      "id-1" "trace-1" Scenario.scheduledRequest "key-a" Scenario.emptyWorld
    = (Ok (mkCreated "id-1" "queued"), w')
    /\ statusRoute.getStatus "id-1" "key-b" w' = (Ok statusRoute.Forbidden, w').
Proof.
  destruct (status_route_serves_only_the_owner
              "id-1" "trace-1" "key-a" Scenario.scheduledRequest Scenario.emptyWorld
              eq_refl eq_refl)
    as (w' & Hrun & _ & Hother & _).
  exists w'. split; [exact Hrun|]. apply Hother. discriminate.
Defined.

Global Instance newestFirst_total : Total statusRoute.newestFirst.
Proof. intros a b. unfold statusRoute.newestFirst. lia. Qed.

Global Instance newestFirst_trans : Transitive statusRoute.newestFirst.
Proof. intros a b c. unfold statusRoute.newestFirst. lia. Qed.

(** X25. The delivery logs of a status answer: at most ten, each the
    view of a stored log line of the notification asked for, newest
    first. *)
Theorem status_route_lists_recent_logs
        (id key : string) (w w' : World.t) (d : statusRoute.StatusData) :
  statusRoute.getStatus id key w = (Ok (statusRoute.Found d), w') ->
  w' = w
  /\ (length (statusRoute.data_deliveryLogs d) <= 10)%nat
  /\ (forall v, In v (statusRoute.data_deliveryLogs d) ->
                exists l, In l (World.deliveryLogs w)
                          /\ DeliveryLog.notificationId l = id
                          /\ v = statusRoute.viewOf l)
  /\ StronglySorted
       (fun a b => statusRoute.log_createdAt b <= statusRoute.log_createdAt a)
       (statusRoute.data_deliveryLogs d).
Proof.
  unfold statusRoute.getStatus, bind, NotificationRepository.findById.
  destruct (World.notifications w !! id) as [n|]; [|discriminate].
  destruct (negb _); [discriminate|]. simpl. intros [= <- <-]. simpl.
  split; [reflexivity|]. unfold statusRoute.includedLogs.
  split; [rewrite length_fmap, length_take; lia|]. split.
  - intros v Hv. apply list_elem_of_In, list_elem_of_fmap in Hv as (l & -> & Hl).
    apply list_elem_of_In, In_take in Hl.
    apply (Permutation_in _ (merge_sort_Permutation _ _)) in Hl.
    apply List.filter_In in Hl as [Hl E]. apply String.eqb_eq in E. eauto.
  - apply (StronglySorted_fmap _ statusRoute.newestFirst); [tauto|].
    apply StronglySorted_take.
    apply (StronglySorted_merge_sort _).
Qed.

Lemma status_route_lists_recent_logs_witness :
  let w := snd (Webhooks.handleStatus
                  (StatusEntry.mk "n-1" "delivered" 100 None)
                  (Scenario.worldWith (Scenario.row sent 1 None))) in
  exists d,
    statusRoute.getStatus "n-1" "tenant-a" w = (Ok (statusRoute.Found d), w)
    /\ length (statusRoute.data_deliveryLogs d) = 1%nat
    /\ (length (statusRoute.data_deliveryLogs d) <= 10)%nat.
Proof.
  intros w. eexists. split; [vm_compute; reflexivity|]. split; [reflexivity|].
  refine (proj1 (proj2 (status_route_lists_recent_logs "n-1" "tenant-a" w w _ _))).
  vm_compute. reflexivity.
Defined.

(* ===================================================================== *)
(** * 27. Facts about the queue consumer                                  *)
(* ===================================================================== *)

(** X26. A work item the processor rejects (no body, a body that is not
    JSON or has no recipient, or no stored row for its id) is never deleted
    from the queue: whatever the delete command would do, the consumer
    fulfils with the processor's world plus one error line, and the stores
    are as before. *)
Theorem consumer_keeps_rejected_message
        (calc : Z -> Z) (provider : Provider)
        (m : ReceivedMessage.t) (w : World.t) :
  unprocessable (ReceivedMessage.content m) w ->
  exists w1,
    (forall sendDelete,
        SQSConsumer.processMessage
          sendDelete m (MessageProcessor.processMessage calc provider) w
        = logger.error "Failed to process message" w1)
    /\ World.notifications w1 = World.notifications w
    /\ World.deliveryLogs w1 = World.deliveryLogs w
    /\ World.queue w1 = World.queue w.
Proof.
  intros H.
  set (w0 := snd (logger.info "Processing message" w)).
  destruct (processMessage_rejection calc provider (ReceivedMessage.content m) w0)
    as [Hiff Hframe].
  destruct (proj2 Hiff H) as (e & w1 & Hrun).
  destruct (Hframe e w1 Hrun) as (F1 & F2 & _ & F4).
  exists w1. split; [|now repeat split].
  intros sendDelete. unfold SQSConsumer.processMessage, tryCatch, bind.
  change (logger.info "Processing message" w) with (Ok tt, w0).
  cbv beta iota.
  now rewrite Hrun.
Qed.

Lemma consumer_keeps_rejected_message_witness :
  exists w1,
    forall sendDelete,
      SQSConsumer.processMessage
        sendDelete
        (ReceivedMessage.mk (Some "m-1"%string) (Some "handle-1"%string) (Message.mk None))
        (MessageProcessor.processMessage (fun _ => 1000) (Scenario.rejecting Scenario.unavailable))
        Scenario.emptyWorld
      = logger.error "Failed to process message" w1.
Proof.
  destruct (consumer_keeps_rejected_message
              (fun _ => 1000) (Scenario.rejecting Scenario.unavailable)
              (ReceivedMessage.mk (Some "m-1"%string) (Some "handle-1"%string)
                                  (Message.mk None))
              Scenario.emptyWorld (or_introl eq_refl))
    as (w1 & H & _).
  exists w1. exact H.
Defined.

(** X27. A work item whose row is stored is acknowledged whether or not
    the send succeeded: the processor fulfils, and the consumer goes on
    to the delete command with the item's receipt handle in the
    processor's world; it fulfils even when that command rejects. *)
Theorem consumer_deletes_processed_message
        (sendDelete : string -> M unit) (calc : Z -> Z) (provider : Provider)
        (m : ReceivedMessage.t) (payload : SQSMessagePayload.t)
        (n : Notification.t) (handle : string) (w : World.t) :
  ReceivedMessage.content m = Message.mk (Some (Message.json payload)) ->
  World.notifications w !! SQSMessagePayload.id payload = Some n ->
  ReceivedMessage.ReceiptHandle m = Some handle ->
  handle <> "" ->
  exists w1,
    MessageProcessor.processMessage
      calc provider (ReceivedMessage.content m)
      (snd (logger.info "Processing message" w)) = (Ok tt, w1)
    /\ SQSConsumer.processMessage
         sendDelete m (MessageProcessor.processMessage calc provider) w
       = match sendDelete handle w1 with
         | (Ok _, w2) => logger.info "Message processed successfully" w2
         | (Throw _, w2) => logger.error "Failed to process message" w2
         end.
Proof.
  intros Hm Hn Hh Hne.
  set (w0 := snd (logger.info "Processing message" w)).
  destruct (processMessage_outcome calc provider payload w0 n Hn)
    as (n' & w1 & l & Hrun & _).
  exists w1. rewrite Hm. split; [exact Hrun|].
  unfold SQSConsumer.processMessage, SQSConsumer.deleteMessage, tryCatch, bind.
  change (logger.info "Processing message" w) with (Ok tt, w0).
  cbv beta iota.
  rewrite Hm, Hrun, Hh, (orString_given handle "" Hne).
  apply String.eqb_neq in Hne. rewrite Hne.
  destruct (sendDelete handle w1) as [[[]|e] w2]; reflexivity.
Qed.

Lemma consumer_deletes_processed_message_witness :
  exists w1,
    SQSConsumer.processMessage
      (fun _ => throw Scenario.databaseDown)
      (ReceivedMessage.mk (Some "m-1"%string) (Some "handle-1"%string)
                          (MessageProcessor.messageOf (Scenario.row queued 0 None)))
      (MessageProcessor.processMessage (fun _ => 1000)
                                       (Scenario.rejecting Scenario.unavailable))
      (Scenario.worldWith (Scenario.row queued 0 None))
    = logger.error "Failed to process message" w1.
Proof.
  destruct (consumer_deletes_processed_message
              (fun _ => throw Scenario.databaseDown)
              (fun _ => 1000) (Scenario.rejecting Scenario.unavailable)
              (ReceivedMessage.mk (Some "m-1"%string) (Some "handle-1"%string)
                                  (MessageProcessor.messageOf (Scenario.row queued 0 None)))
              _ (Scenario.row queued 0 None) "handle-1"
              (Scenario.worldWith (Scenario.row queued 0 None))
              eq_refl eq_refl eq_refl)
    as (w1 & _ & H); [discriminate|].
  exists w1. exact H.
Defined.
